(** * G HUB profile editor: the profile store synchronisation engine

    A shallow embedding of [LGHUB_Profile_Editor_V2.py]: the functions
    [load_profiles_from_db], [save_profile_to_db], [get_config_path],
    [load_or_create_config] and [save_config], and the methods
    [add_entry], [delete_entry], [browse_icon], [clear_icon],
    [load_icon_preview], [save_changes] and [on_profile_select] of
    [GHubEditorApp].

    Python objects live in an explicit heap, so that the aliasing between
    an index entry's ["profile"] and the record inside its
    ["entire_json"] document is the aliasing the program has.  A [str] is
    a [string] whose characters are the code points below 256; JSON
    numbers are integers (the binary floating-point values of the
    interpreter are outside this development).  What is only drawn or
    written for the user to read (labels, message boxes, the log file)
    is left out; the icon preview is the value [load_icon_preview]
    returns, and the methods that end by calling it are modelled up to
    that call, which changes nothing that is kept.  What the user
    answers in a dialog is an argument of the method that opens it. *)

From Stdlib Require Import ZArith Ascii String DecimalString.
From stdpp Require Import base list strings gmap sorting.

Local Open Scope Z_scope.

(** ** Python [str] methods and the [re] character classes *)

Module PyStr.

Definition chars (s : string) : list ascii := list_ascii_of_string s.
Definition str (l : list ascii) : string := string_of_list_ascii l.

Definition code (c : ascii) : N := N_of_ascii c.

Definition between (lo hi : N) (c : ascii) : bool :=
  ((lo <=? code c) && (code c <=? hi))%N.

Definition cp (n : N) (c : ascii) : bool := (code c =? n)%N.

(** [str.isspace] on one character, which is also what [\s] matches in
    a [str] pattern and what [str.strip] removes. *)
Definition isspace (c : ascii) : bool :=
  between 9 13 c || between 28 32 c || cp 133 c || cp 160 c.

Definition isalpha (c : ascii) : bool :=
  between 65 90 c || between 97 122 c || cp 170 c || cp 181 c || cp 186 c
  || between 192 214 c || between 216 246 c || between 248 255 c.

Definition isnumeric (c : ascii) : bool :=
  between 48 57 c || cp 178 c || cp 179 c || cp 185 c || between 188 190 c.

(** [\w]: alphanumeric or the underscore. *)
Definition isword (c : ascii) : bool :=
  isalpha c || isnumeric c || cp 95 c.

Definition lower_char (c : ascii) : ascii :=
  if between 65 90 c || between 192 214 c || between 216 222 c
  then ascii_of_N (code c + 32) else c.

(** [s.lower()] *)
Definition lower (s : string) : string := str (map lower_char (chars s)).

Fixpoint lstrip (l : list ascii) : list ascii :=
  match l with
  | c :: l' => if isspace c then lstrip l' else l
  | [] => []
  end.

Definition rstrip (l : list ascii) : list ascii := rev (lstrip (rev l)).

(** [s.strip()] *)
Definition strip (s : string) : string := str (rstrip (lstrip (chars s))).

(** [s.replace(' ', '_')] *)
Definition replace_space (s : string) : string :=
  str (map (fun c => if Ascii.eqb c " " then "_"%char else c) (chars s)).

(** The class [[^\w\s-]] of the pattern in [browse_icon]. *)
Definition stripped_class (c : ascii) : bool :=
  negb (isword c || isspace c || Ascii.eqb c "-").

(** [re.sub(r'[^\w\s-]', '', s)] *)
Definition re_sub_nonword (s : string) : string :=
  str (filter (fun c => negb (stripped_class c) = true) (chars s)).

(** [a or b] on strings: the empty string is false. *)
Definition or_else (a b : string) : string :=
  match a with EmptyString => b | _ => a end.

(** [x < y] on [str]: lexicographic on code points. *)
Definition ltb (x y : string) : bool := String.ltb x y.

(** [needle in hay] on two strings. *)
Fixpoint is_substring (needle hay : string) : bool :=
  String.prefix needle hay ||
  match hay with
  | EmptyString => false
  | String _ hay' => is_substring needle hay'
  end.

End PyStr.

(** ** JSON values, as [json.loads] returns them before they are objects *)

#[warnings="-register-all"]
Inductive json : Type :=
| JNull
| JBool (b : bool)
| JInt (n : Z)
| JStr (s : string)
| JArr (xs : list json)
| JObj (kvs : list (string * json)).

(** ** The object heap *)

Abbreviation addr := nat.

Inductive pyval : Type :=
| VNone
| VBool (b : bool)
| VInt (n : Z)
| VStr (s : string)
| VRef (a : addr).

(** A [dict] keeps its keys in insertion order; a key occurs once. *)
Inductive pyobj : Type :=
| ODict (d : list (string * pyval))
| OList (l : list pyval).

Fixpoint dict_lookup {V} (k : string) (d : list (string * V)) : option V :=
  match d with
  | [] => None
  | (k', v) :: d' => if String.eqb k k' then Some v else dict_lookup k d'
  end.

(** [d[k] = v]: an existing key keeps its place, a new one goes last. *)
Fixpoint dict_store {V} (k : string) (v : V) (d : list (string * V))
  : list (string * V) :=
  match d with
  | [] => [(k, v)]
  | (k', v') :: d' =>
      if String.eqb k k' then (k, v) :: d' else (k', v') :: dict_store k v d'
  end.

Abbreviation heap := (list pyobj).

(** ** The store, the file system and the editor object *)

(** A value of a column of the [DATA] table, as the [sqlite3] module
    hands it over. *)
Inductive sqlval : Type :=
| SqlNull
| SqlInteger (n : Z)
| SqlText (s : string)
| SqlBlob (b : string).

(** An entry of [self.profiles]: the dictionary with the keys
    [db_row_id], [entire_json] and [profile]. *)
Record item : Type := Item {
  db_row_id : Z;
  entire_json : pyval;
  profile : pyval
}.

(** The attributes of [GHubEditorApp] that the methods read or write. *)
Record editor : Type := Editor {
  profiles : list item;
  selected_profile_index : option nat;
  name_entry_var : string;
  app_path_var : string;
  icon_path_var : string;
  icon_cache_folder : string
}.

Record state : Type := State {
  mem : heap;
  db : list (Z * sqlval);
  (** whether an [UPDATE] on the database raises *)
  db_write_fails : bool;
  files : gmap string string;
  self : editor
}.

Definition with_mem (h : heap) (st : state) : state :=
  State h (db st) (db_write_fails st) (files st) (self st).
Definition with_db (d : list (Z * sqlval)) (st : state) : state :=
  State (mem st) d (db_write_fails st) (files st) (self st).
Definition with_files (f : gmap string string) (st : state) : state :=
  State (mem st) (db st) (db_write_fails st) f (self st).
Definition with_self (e : editor) (st : state) : state :=
  State (mem st) (db st) (db_write_fails st) (files st) e.

Definition set_profiles (l : list item) (e : editor) : editor :=
  Editor l (selected_profile_index e) (name_entry_var e) (app_path_var e)
         (icon_path_var e) (icon_cache_folder e).
Definition set_selected (i : option nat) (e : editor) : editor :=
  Editor (profiles e) i (name_entry_var e) (app_path_var e)
         (icon_path_var e) (icon_cache_folder e).
Definition set_name_entry_var (s : string) (e : editor) : editor :=
  Editor (profiles e) (selected_profile_index e) s (app_path_var e)
         (icon_path_var e) (icon_cache_folder e).
Definition set_app_path_var (s : string) (e : editor) : editor :=
  Editor (profiles e) (selected_profile_index e) (name_entry_var e) s
         (icon_path_var e) (icon_cache_folder e).
Definition set_icon_path_var (s : string) (e : editor) : editor :=
  Editor (profiles e) (selected_profile_index e) (name_entry_var e)
         (app_path_var e) s (icon_cache_folder e).

(** ** Computations that read and write the state and may raise *)

Inductive exn : Type :=
| AttributeError | TypeError | KeyError | IndexError
| ValueError | RecursionError | SystemError | OSError.

Inductive outcome (A : Type) : Type :=
| Ok (a : A)
| Raise (e : exn).
Arguments Ok {A} a.
Arguments Raise {A} e.

Definition M (A : Type) : Type := state -> outcome A * state.

Definition ret {A} (a : A) : M A := fun st => (Ok a, st).
Definition raise {A} (e : exn) : M A := fun st => (Raise e, st).
Definition bind {A B} (m : M A) (k : A -> M B) : M B :=
  fun st => match m st with
            | (Ok a, st') => k a st'
            | (Raise e, st') => (Raise e, st')
            end.
(** [try: m except Exception: h] *)
Definition try_except {A} (m : M A) (h : exn -> M A) : M A :=
  fun st => match m st with
            | (Ok a, st') => (Ok a, st')
            | (Raise e, st') => h e st'
            end.

Declare Scope py_scope.
Delimit Scope py_scope with py.
Notation "'let*' x ':=' m 'in' k" := (bind m (fun x => k))
  (at level 10, x pattern, m at level 100, k at level 200) : py_scope.
Notation "m '>>' k" := (bind m (fun _ => k))
  (at level 100, k at level 200, right associativity) : py_scope.

Definition get_state : M state := fun st => (Ok st, st).
Definition modify (f : state -> state) : M unit := fun st => (Ok tt, f st).
Definition get_self : M editor := fun st => (Ok (self st), st).
Definition update_self (f : editor -> editor) : M unit :=
  modify (fun st => with_self (f (self st)) st).

(** A comprehension or a loop that calls [f] on each element in turn. *)
Fixpoint traverse {A B} (f : A -> M B) (l : list A) : M (list B) :=
  match l with
  | [] => ret []
  | x :: l' => (let* y := f x in let* ys := traverse f l' in ret (y :: ys))%py
  end.

(** A loop that threads an accumulator. *)
Fixpoint foldM {A B} (f : B -> A -> M B) (acc : B) (l : list A) : M B :=
  match l with
  | [] => ret acc
  | x :: l' => (let* acc' := f acc x in foldM f acc' l')%py
  end.

(** ** Operations on objects *)

Definition alloc (o : pyobj) : M pyval :=
  fun st => (Ok (VRef (length (mem st))), with_mem (mem st ++ [o]) st).

Definition deref (a : addr) : M pyobj :=
  fun st => match mem st !! a with
            | Some o => (Ok o, st)
            | None => (Raise SystemError, st)
            end.

Definition assign (a : addr) (o : pyobj) : M unit :=
  modify (fun st => with_mem (<[a := o]> (mem st)) st).

(** [v.get(k, default)] *)
Definition py_get (v : pyval) (k : string) (default : pyval) : M pyval :=
  match v with
  | VRef a =>
      (let* o := deref a in
       match o with
       | ODict d => ret (from_option id default (dict_lookup k d))
       | OList _ => raise AttributeError
       end)%py
  | _ => raise AttributeError
  end.

(** [v[k]] with a string [k] *)
Definition py_getitem (v : pyval) (k : string) : M pyval :=
  match v with
  | VRef a =>
      (let* o := deref a in
       match o with
       | ODict d => match dict_lookup k d with
                    | Some x => ret x
                    | None => raise KeyError
                    end
       | OList _ => raise TypeError
       end)%py
  | _ => raise TypeError
  end.

(** [v[k] = x] with a string [k] *)
Definition py_setitem (v : pyval) (k : string) (x : pyval) : M unit :=
  match v with
  | VRef a =>
      (let* o := deref a in
       match o with
       | ODict d => assign a (ODict (dict_store k x d))
       | OList _ => raise TypeError
       end)%py
  | _ => raise TypeError
  end.

(** [v.append(x)] *)
Definition py_append (v : pyval) (x : pyval) : M unit :=
  match v with
  | VRef a =>
      (let* o := deref a in
       match o with
       | OList l => assign a (OList (l ++ [x]))
       | ODict _ => raise AttributeError
       end)%py
  | _ => raise AttributeError
  end.

Definition isinstance_dict (v : pyval) : M bool :=
  match v with
  | VRef a => (let* o := deref a in
               ret (match o with ODict _ => true | OList _ => false end))%py
  | _ => ret false
  end.

Definition isinstance_list (v : pyval) : M bool :=
  match v with
  | VRef a => (let* o := deref a in
               ret (match o with OList _ => true | ODict _ => false end))%py
  | _ => ret false
  end.

(** ** Equality of values: [x is y or x == y] *)

Definition scalar_eq (x y : pyval) : bool :=
  match x, y with
  | VNone, VNone => true
  | VBool a, VBool b => Bool.eqb a b
  | VBool a, VInt n | VInt n, VBool a => Z.b2z a =? n
  | VInt m, VInt n => m =? n
  | VStr s, VStr t => String.eqb s t
  | _, _ => false
  end.

(** Two lists are equal when they have the same length and equal items;
    the first pair of items that differ decides. *)
Fixpoint list_eq (eq : pyval -> pyval -> option bool) (l1 l2 : list pyval)
  : option bool :=
  match l1, l2 with
  | [], [] => Some true
  | x :: l1', y :: l2' =>
      match eq x y with
      | Some true => list_eq eq l1' l2'
      | r => r
      end
  | _, _ => Some false
  end.

(** Every key of [d1] is a key of [d2] with an equal value. *)
Fixpoint dict_sub (eq : pyval -> pyval -> option bool)
    (d1 d2 : list (string * pyval)) : option bool :=
  match d1 with
  | [] => Some true
  | (k, v) :: d1' =>
      match dict_lookup k d2 with
      | None => Some false
      | Some v' =>
          match eq v v' with
          | Some true => dict_sub eq d1' d2
          | r => r
          end
      end
  end.

(** [None] when the comparison nests deeper than [fuel]: the interpreter
    raises [RecursionError] there. *)
Fixpoint py_eq_fuel (fuel : nat) (h : heap) (x y : pyval) : option bool :=
  match fuel with
  | O => None
  | S f =>
      match x, y with
      | VRef a, VRef b =>
          if Nat.eqb a b then Some true
          else match h !! a, h !! b with
               | Some (OList l1), Some (OList l2) =>
                   if Nat.eqb (length l1) (length l2)
                   then list_eq (py_eq_fuel f h) l1 l2 else Some false
               | Some (ODict d1), Some (ODict d2) =>
                   if Nat.eqb (length d1) (length d2)
                   then dict_sub (py_eq_fuel f h) d1 d2 else Some false
               | Some _, Some _ => Some false
               | _, _ => None
               end
      | VRef _, _ | _, VRef _ => Some false
      | _, _ => Some (scalar_eq x y)
      end
  end.

(** Objects that do not reach themselves nest no deeper than the heap
    is large. *)
Definition py_eq (h : heap) (x y : pyval) : option bool :=
  py_eq_fuel (S (length h)) h x y.

(** The position of the first item of [l] equal to [x]. *)
Fixpoint index_of (h : heap) (x : pyval) (l : list pyval)
  : option (option nat) :=
  match l with
  | [] => Some None
  | y :: l' =>
      match py_eq h y x with
      | None => None
      | Some true => Some (Some O)
      | Some false => option_map (option_map S) (index_of h x l')
      end
  end.

(** [x in container] *)
Definition py_contains (x container : pyval) : M bool :=
  match container with
  | VRef a =>
      (let* o := deref a in
       let* st := get_state in
       match o with
       | OList l =>
           match index_of (mem st) x l with
           | None => raise RecursionError
           | Some r => ret (bool_decide (is_Some r))
           end
       | ODict d =>
           match x with
           | VRef _ => raise TypeError
           | VStr k => ret (bool_decide (is_Some (dict_lookup k d)))
           | _ => ret false
           end
       end)%py
  | VStr hay =>
      match x with
      | VStr needle => ret (PyStr.is_substring needle hay)
      | _ => raise TypeError
      end
  | _ => raise TypeError
  end.

(** [container.remove(x)] *)
Definition py_remove (container x : pyval) : M unit :=
  match container with
  | VRef a =>
      (let* o := deref a in
       let* st := get_state in
       match o with
       | OList l =>
           match index_of (mem st) x l with
           | None => raise RecursionError
           | Some None => raise ValueError
           | Some (Some i) => assign a (OList (delete i l))
           end
       | ODict _ => raise AttributeError
       end)%py
  | _ => raise AttributeError
  end.

(** [v == s] for a string [s] *)
Definition eq_str (v : pyval) (s : string) : bool :=
  match v with VStr t => String.eqb t s | _ => false end.

(** ** From a parsed text to objects and back *)

Definition build_dict {V} (pairs : list (string * V)) : list (string * V) :=
  fold_left (fun d kv => dict_store (fst kv) (snd kv) d) pairs [].

(** The objects [json.loads] creates for a parsed text: every array and
    every object of the text is a new [list] or [dict]. *)
Fixpoint alloc_json (j : json) (h : heap) : pyval * heap :=
  match j with
  | JNull => (VNone, h)
  | JBool b => (VBool b, h)
  | JInt n => (VInt n, h)
  | JStr s => (VStr s, h)
  | JArr xs =>
      let '(vs, h') :=
        (fix go (xs : list json) (h : heap) : list pyval * heap :=
           match xs with
           | [] => ([], h)
           | x :: xs' =>
               let '(v, h1) := alloc_json x h in
               let '(vs, h2) := go xs' h1 in (v :: vs, h2)
           end) xs h in
      (VRef (length h'), h' ++ [OList vs])
  | JObj kvs =>
      let '(d, h') :=
        (fix go (kvs : list (string * json)) (h : heap)
           : list (string * pyval) * heap :=
           match kvs with
           | [] => ([], h)
           | (k, x) :: kvs' =>
               let '(v, h1) := alloc_json x h in
               let '(d, h2) := go kvs' h1 in ((k, v) :: d, h2)
           end) kvs h in
      (VRef (length h'), h' ++ [ODict (build_dict d)])
  end.

(** The two loops inside [alloc_json]. *)
Definition alloc_items : list json -> heap -> list pyval * heap :=
  fix go (xs : list json) (h : heap) : list pyval * heap :=
    match xs with
    | [] => ([], h)
    | x :: xs' =>
        let '(v, h1) := alloc_json x h in
        let '(vs, h2) := go xs' h1 in (v :: vs, h2)
    end.

Definition alloc_members
  : list (string * json) -> heap -> list (string * pyval) * heap :=
  fix go (kvs : list (string * json)) (h : heap)
    : list (string * pyval) * heap :=
    match kvs with
    | [] => ([], h)
    | (k, x) :: kvs' =>
        let '(v, h1) := alloc_json x h in
        let '(d, h2) := go kvs' h1 in ((k, v) :: d, h2)
    end.

(** A parsed text in which every object has its keys once, the way the
    dictionary built from it has them. *)
Fixpoint norm (j : json) : json :=
  match j with
  | JArr xs => JArr (map norm xs)
  | JObj kvs => JObj (build_dict (map (fun kv => (fst kv, norm (snd kv))) kvs))
  | _ => j
  end.

(** How deep arrays and objects nest. *)
Fixpoint depth (j : json) : nat :=
  match j with
  | JArr xs => S (foldr (fun x n => Nat.max (depth x) n) O xs)
  | JObj kvs => S (foldr (fun kv n => Nat.max (depth (snd kv)) n) O kvs)
  | _ => O
  end.

(** The tree [json.dumps] walks; [None] when the walk nests deeper than
    [fuel]. *)
Fixpoint py_to_json (fuel : nat) (h : heap) (v : pyval) : option json :=
  match fuel with
  | O => None
  | S f =>
      match v with
      | VNone => Some JNull
      | VBool b => Some (JBool b)
      | VInt n => Some (JInt n)
      | VStr s => Some (JStr s)
      | VRef a =>
          match h !! a with
          | Some (OList l) => JArr <$> mapM (py_to_json f h) l
          | Some (ODict d) =>
              JObj <$> mapM (fun kv => pair (fst kv) <$> py_to_json f h (snd kv)) d
          | None => None
          end
      end
  end.

(** [None] exactly when an object reaches itself (a circular reference)
    or a reference dangles. *)
Definition py_dumps (h : heap) (v : pyval) : option json :=
  py_to_json (S (length h)) h v.

(** ** [os.path] *)

Module OsPath.
Section Splitext.
(** The characters that separate path components: [os.sep] and
    [os.altsep]. *)
Variable is_sep : ascii -> bool.

(** [p.rfind(c)] over the characters that satisfy [P]; [-1] when there
    is none. *)
Fixpoint rfind_from (P : ascii -> bool) (i : Z) (l : list ascii) (last : Z) : Z :=
  match l with
  | [] => last
  | c :: l' => rfind_from P (i + 1) l' (if P c then i else last)
  end.
Definition rfind (P : ascii -> bool) (l : list ascii) : Z :=
  rfind_from P 0 l (-1).

Definition is_dot (c : ascii) : bool := Ascii.eqb c ".".

(** [os.path.splitext]: the extension starts at the last dot of the
    last component, unless only dots precede it there. *)
Definition splitext (p : string) : string * string :=
  let l := PyStr.chars p in
  let sepIndex := rfind is_sep l in
  let dotIndex := rfind is_dot l in
  if (sepIndex <? dotIndex)
     && existsb (fun c => negb (is_dot c))
          (take (Z.to_nat (dotIndex - (sepIndex + 1)))
                (drop (Z.to_nat (sepIndex + 1)) l))
  then (PyStr.str (take (Z.to_nat dotIndex) l),
        PyStr.str (drop (Z.to_nat dotIndex) l))
  else (p, EmptyString).
End Splitext.
End OsPath.

(** ** The program *)

Section Program.

(** [data_blob.decode("utf-8")] followed by [json.loads]; [None] when
    either raises. *)
Variable loads : string -> option json.
(** [json.dumps(_, indent=2).encode("utf-8")] *)
Variable dumps : json -> string.
(** What a Tk variable holds after [set] was given a value that is not
    a string. *)
Variable tk_other : heap -> pyval -> string.

(** *** DB helpers *)

Definition sql_falsy (v : sqlval) : bool :=
  match v with
  | SqlNull => true
  | SqlInteger n => n =? 0
  | SqlText s | SqlBlob s => String.eqb s EmptyString
  end.

(** The body of the [try] in the loop of [load_profiles_from_db]. *)
Definition decode_and_parse (data_blob : sqlval) : M pyval :=
  match data_blob with
  | SqlBlob b =>
      match loads b with
      | Some j =>
          fun st => let '(v, h) := alloc_json j (mem st) in (Ok v, with_mem h st)
      | None => raise ValueError
      end
  | _ => raise AttributeError
  end.

Definition list_items (v : pyval) : M (list pyval) :=
  match v with
  | VRef a => (let* o := deref a in
               match o with
               | OList l => ret l
               | ODict _ => raise TypeError
               end)%py
  | _ => raise TypeError
  end.

(** One turn of the loop over the rows. *)
Definition load_row (all_profiles : list item) (row : Z * sqlval)
  : M (list item) :=
  let '(row_id, data_blob) := row in
  if sql_falsy data_blob then ret all_profiles
  else
    (let* parsed :=
       try_except (let* v := decode_and_parse data_blob in ret (Some v))
                  (fun _ => ret None) in
     match parsed with
     | None => ret all_profiles
     | Some parsed_data =>
         let* apps_section := py_get parsed_data "applications" VNone in
         let* is_d := isinstance_dict apps_section in
         if is_d : bool then
           let* empty := alloc (OList []) in
           let* apps_list := py_get apps_section "applications" empty in
           let* is_l := isinstance_list apps_list in
           if is_l : bool then
             let* profs := list_items apps_list in
             ret (all_profiles ++ map (Item row_id parsed_data) profs)
           else ret all_profiles
         else ret all_profiles
     end)%py.

(** [p["profile"].get("name", "").lower()] *)
Definition sort_key (p : item) : M string :=
  (let* n := py_get (profile p) "name" (VStr "") in
   match n with
   | VStr s => ret (PyStr.lower s)
   | _ => raise AttributeError
   end)%py.

(** [list.sort] compares keys with [<] only and is stable. *)
Fixpoint insert_by_key {A} (x : string * A) (l : list (string * A))
  : list (string * A) :=
  match l with
  | [] => [x]
  | y :: l' =>
      if PyStr.ltb (fst y) (fst x) then y :: insert_by_key x l' else x :: l
  end.

Fixpoint sort_by_key {A} (l : list (string * A)) : list (string * A) :=
  match l with
  | [] => []
  | x :: l' => insert_by_key x (sort_by_key l')
  end.

(** [all_profiles.sort(key=...)]: the keys are computed first. *)
Definition sort_profiles (all_profiles : list item) : M (list item) :=
  (let* keys := traverse sort_key all_profiles in
   ret (map snd (sort_by_key (zip keys all_profiles))))%py.

Definition load_profiles_from_db : M (list item) :=
  (let* st := get_state in
   let rows := db st in
   let* all_profiles := foldM load_row [] rows in
   sort_profiles all_profiles)%py.

(** [UPDATE DATA SET FILE = ? WHERE _id = ?] *)
Definition sql_update (row_id : Z) (new_blob : sqlval) (rows : list (Z * sqlval))
  : list (Z * sqlval) :=
  map (fun row => if fst row =? row_id then (fst row, new_blob) else row) rows.

Definition save_profile_to_db (row_id : Z) (entire_json : pyval) : M unit :=
  (let* st := get_state in
   match py_dumps (mem st) entire_json with
   | None => ret tt
   | Some j =>
       let new_blob := dumps j in
       if db_write_fails st then ret tt
       else modify (with_db (sql_update row_id (SqlBlob new_blob) (db st)))
   end)%py.

(** *** Profile list *)

Definition populate_list : M unit :=
  (let* e := get_self in
   let* _ := traverse (fun p => py_get (profile p) "name" (VStr "(Unnamed)"))
                      (profiles e) in
   ret tt)%py.

(** [self.profiles[idx]] *)
Definition profile_at (idx : nat) : M item :=
  (let* e := get_self in
   match profiles e !! idx with
   | Some it => ret it
   | None => raise IndexError
   end)%py.

Definition tk_string (v : pyval) : M string :=
  match v with
  | VStr s => ret s
  | _ => (let* st := get_state in ret (tk_other (mem st) v))%py
  end.

(** [curselection] is the selection in the list box, if any. *)
Definition on_profile_select (curselection : option nat) : M unit :=
  match curselection with
  | None => update_self (set_selected None)
  | Some idx =>
      (let* _ := update_self (set_selected (Some idx)) in
       let* it := profile_at idx in
       let prof := profile it in
       let* n := py_get prof "name" (VStr "") in
       let* n := tk_string n in
       let* _ := update_self (set_name_entry_var n) in
       let* a := py_get prof "applicationPath" (VStr "") in
       let* a := tk_string a in
       let* _ := update_self (set_app_path_var a) in
       let* i := py_get prof "posterPath" (VStr "") in
       let* i := tk_string i in
       update_self (set_icon_path_var i))%py
  end.

(** The first index whose profile's name equals [name]. *)
Fixpoint find_name (name : string) (i : nat) (l : list item) : M (option nat) :=
  match l with
  | [] => ret None
  | p :: l' =>
      (let* n := py_get (profile p) "name" VNone in
       if eq_str n name then ret (Some i) else find_name name (S i) l')%py
  end.

(** The selection is set and the list box delivers its event; what the
    handler raises stays in the event loop. *)
Definition select_by_name (name : string) : M unit :=
  (let* e := get_self in
   let* idx := find_name name O (profiles e) in
   match idx with
   | Some i => try_except (on_profile_select (Some i)) (fun _ => ret tt)
   | None => ret tt
   end)%py.

Definition reload : M unit :=
  (let* l := load_profiles_from_db in
   update_self (set_profiles l))%py.

Definition clear_fields : M unit :=
  (let* _ := update_self (set_name_entry_var "") in
   let* _ := update_self (set_app_path_var "") in
   update_self (set_icon_path_var ""))%py.

(** *** Add / Delete *)

Definition new_profile : list (string * pyval) :=
  [("applicationId", VStr "new-app-id");
   ("applicationPath", VStr "");
   ("isCustom", VBool true);
   ("name", VStr "New Entry");
   ("posterPath", VStr "")].

Definition add_entry : M unit :=
  (let* e := get_self in
   match profiles e with
   | [] => ret tt
   | first :: _ =>
       let row_id := db_row_id first in
       let entire_json := entire_json first in
       let* d := alloc (ODict []) in
       let* apps_section := py_get entire_json "applications" d in
       let* l := alloc (OList []) in
       let* apps_list := py_get apps_section "applications" l in
       let* new_profile := alloc (ODict new_profile) in
       let* _ := py_append apps_list new_profile in
       let* _ := py_setitem apps_section "applications" apps_list in
       let* _ := py_setitem entire_json "applications" apps_section in
       let* _ := save_profile_to_db row_id entire_json in
       let* _ := reload in
       let* _ := populate_list in
       select_by_name "New Entry"
   end)%py.

(** [confirm] is the answer to "Are you sure you want to delete this
    entry?". *)
Definition delete_entry (confirm : bool) : M unit :=
  (let* e := get_self in
   match selected_profile_index e with
   | None => ret tt
   | Some idx =>
       if negb confirm then ret tt
       else
         let* it := profile_at idx in
         let row_id := db_row_id it in
         let entire_json := entire_json it in
         let prof_to_delete := profile it in
         let* d := alloc (ODict []) in
         let* apps_section := py_get entire_json "applications" d in
         let* l := alloc (OList []) in
         let* apps_list := py_get apps_section "applications" l in
         let* found := py_contains prof_to_delete apps_list in
         let* _ := (if found : bool then py_remove apps_list prof_to_delete
                    else ret tt) in
         let* apps_section' := py_getitem entire_json "applications" in
         let* _ := py_setitem apps_section' "applications" apps_list in
         let* _ := save_profile_to_db row_id entire_json in
         let* _ := reload in
         let* _ := update_self (set_selected None) in
         let* _ := populate_list in
         clear_fields
   end)%py.

(** *** Save *)

Definition save_changes : M unit :=
  (let* e := get_self in
   match selected_profile_index e with
   | None => ret tt
   | Some idx =>
       let* it := profile_at idx in
       let row_id := db_row_id it in
       let entire_json := entire_json it in
       let prof := profile it in
       let* _ := py_setitem prof "name" (VStr (name_entry_var e)) in
       let* _ := py_setitem prof "applicationPath" (VStr (app_path_var e)) in
       let* _ := py_setitem prof "posterPath" (VStr (icon_path_var e)) in
       let* _ := save_profile_to_db row_id entire_json in
       let* _ := reload in
       let* _ := populate_list in
       let* new_name := py_getitem prof "name" in
       match new_name with
       | VStr s => select_by_name s
       | _ => ret tt
       end
   end)%py.

(** *** Icon *)

Variable is_sep : ascii -> bool.
(** [os.path.join] *)
Variable path_join : string -> string -> string.
(** An image as [Image.open] returns it, from the bytes of the file. *)
Variable image : Type.
Variable decode_image : string -> option image.
(** The bytes [img.save(_, "BMP")] produces, when it can. *)
Variable encode_bmp : image -> option string.
(** Whether the file at a path can be written. *)
Variable write_ok : string -> bool.
(** What a save that fails leaves of the files. *)
Variable save_debris :
  image -> string -> gmap string string -> gmap string string.

Definition image_open (file_path : string) : M image :=
  fun st => match files st !! file_path with
            | Some bytes =>
                match decode_image bytes with
                | Some img => (Ok img, st)
                | None => (Raise OSError, st)
                end
            | None => (Raise OSError, st)
            end.

Definition image_save (img : image) (final_path : string) : M unit :=
  fun st => match encode_bmp img with
            | Some bytes =>
                if write_ok final_path
                then (Ok tt, with_files (<[final_path := bytes]> (files st)) st)
                else (Raise OSError,
                      with_files (save_debris img final_path (files st)) st)
            | None =>
                (Raise OSError,
                 with_files (save_debris img final_path (files st)) st)
            end.

(** [v.strip()] *)
Definition py_strip (v : pyval) : M string :=
  match v with
  | VStr s => ret (PyStr.strip s)
  | _ => raise AttributeError
  end.

(** [re.sub(r'[^\w\s-]', '', app_name).strip().replace(' ', '_') or "icon"] *)
Definition safe_name_of (app_name : string) : string :=
  PyStr.or_else
    (PyStr.replace_space (PyStr.strip (PyStr.re_sub_nonword app_name)))
    "icon".

Definition final_path_of (cache_folder existing_path safe_name : string)
  : string :=
  match existing_path with
  | EmptyString => path_join cache_folder (safe_name +:+ ".bmp")
  | _ => fst (OsPath.splitext is_sep existing_path) +:+ ".bmp"
  end.

(** [file_path] is what the file dialog returns: the empty string when
    the user cancels. *)
Definition browse_icon (file_path : string) : M unit :=
  (let* e := get_self in
   match selected_profile_index e with
   | None => ret tt
   | Some idx =>
       if String.eqb file_path "" then ret tt
       else
         let* opened :=
           try_except (let* img := image_open file_path in ret (Some img))
                      (fun _ => ret None) in
         match opened with
         | None => ret tt
         | Some img =>
             let* it := profile_at idx in
             let prof := profile it in
             let* existing := py_get prof "posterPath" (VStr "") in
             let* existing_path := py_strip existing in
             let* name := py_get prof "name" (VStr "") in
             let* name := py_strip name in
             let app_name := PyStr.or_else name "app_unknown" in
             let safe_name := safe_name_of app_name in
             let final_path :=
               final_path_of (icon_cache_folder e) existing_path safe_name in
             let* saved :=
               try_except (let* _ := image_save img final_path in ret true)
                          (fun _ => ret false) in
             if saved : bool then
               let* _ := py_setitem prof "posterPath" (VStr final_path) in
               update_self (set_icon_path_var final_path)
             else ret tt
         end
   end)%py.

Definition clear_icon : M unit :=
  (let* e := get_self in
   match selected_profile_index e with
   | None => ret tt
   | Some idx =>
       let* it := profile_at idx in
       let* _ := py_setitem (profile it) "posterPath" (VStr "") in
       update_self (set_icon_path_var "")
   end)%py.

End Program.

(** ** Files, the icon preview and the configuration *)

(** [os.path.isfile] of a path *)
Definition isfile (path : string) : M bool :=
  (let* st := get_state in ret (bool_decide (is_Some (files st !! path))))%py.

(** What the icon label shows. *)
Inductive preview (image : Type) : Type :=
| NoIconLoaded
| FileNotFound
| InvalidImage
| Shown (img : image).
Arguments NoIconLoaded {image}.
Arguments FileNotFound {image}.
Arguments InvalidImage {image}.
Arguments Shown {image} img.

Section Preview.
Variable image : Type.
Variable decode_image : string -> option image.
(** Whether [ImageTk.PhotoImage] takes the image. *)
Variable photo_image : image -> bool.

(** The label is what the method returns; it is drawn, not kept. *)
Definition load_icon_preview : M (preview image) :=
  (let* e := get_self in
   let path := PyStr.strip (icon_path_var e) in
   if String.eqb path "" then ret NoIconLoaded
   else
     let* found := isfile path in
     if negb found then ret FileNotFound
     else
       try_except
         (let* img := image_open image decode_image path in
          if photo_image img then ret (Shown img) else raise ValueError)
         (fun _ => ret InvalidImage))%py.

End Preview.

Section Config.
Variable loads : string -> option json.
Variable dumps : json -> string.
Variable path_join : string -> string -> string.
(** [getattr(sys, 'frozen', False)] *)
Variable frozen : bool.
(** [os.path.expanduser("~")] *)
Variable home : string.
(** [os.path.dirname(os.path.abspath(__file__))] *)
Variable script_dir : string.
(** Whether [os.makedirs(_, exist_ok=True)] returns. *)
Variable makedirs_ok : string -> bool.
(** Whether a file that is there can be opened and read. *)
Variable read_ok : string -> bool.
(** A write to a file that fails: it leaves the file alone ([Some None])
    or with some contents ([Some (Some _)]); [None] when the file can be
    written. *)
Variable write_fault : string -> option (option string).
(** What [json.dump] has written of an object that has no JSON text when
    it raises. *)
Variable torn_text : heap -> pyval -> string.
(** [os.path.isfile] of an integer, which stands for an open file. *)
Variable isfile_int : Z -> outcome bool.

Definition CONFIG_FILENAME : string := "ghub_db_location_config.json".

(** [os.path.join] takes its components one after the other. *)
Definition config_dir : string :=
  if frozen
  then path_join (path_join (path_join home "AppData") "Local") "GHubProfileEditor"
  else script_dir.

Definition get_config_path : M string :=
  if makedirs_ok config_dir then ret (path_join config_dir CONFIG_FILENAME)
  else raise OSError.

(** [os.path.isfile] of a value *)
Definition py_isfile (v : pyval) : M bool :=
  match v with
  | VStr s => isfile s
  | VInt n => fun st => (isfile_int n, st)
  | VBool b => fun st => (isfile_int (Z.b2z b), st)
  | VNone | VRef _ => raise TypeError
  end.

(** [with open(path, "r", encoding="utf-8") as f: json.load(f)] *)
Definition read_json (path : string) : M pyval :=
  fun st =>
    match files st !! path with
    | Some text =>
        if read_ok path then
          match loads text with
          | Some j => let '(v, h) := alloc_json j (mem st) in (Ok v, with_mem h st)
          | None => (Raise ValueError, st)
          end
        else (Raise OSError, st)
    | None => (Raise OSError, st)
    end.

(** [with open(path, "w", encoding="utf-8") as f: json.dump(cfg, f, indent=2)] *)
Definition write_json (path : string) (cfg : pyval) : M unit :=
  fun st =>
    match write_fault path with
    | None =>
        match py_dumps (mem st) cfg with
        | Some j => (Ok tt, with_files (<[path := dumps j]> (files st)) st)
        | None =>
            (Raise ValueError,
             with_files (<[path := torn_text (mem st) cfg]> (files st)) st)
        end
    | Some None => (Raise OSError, st)
    | Some (Some rest) =>
        (Raise OSError, with_files (<[path := rest]> (files st)) st)
    end.

(** The body of the [try] in [load_or_create_config]: the configuration,
    when it names a database file. *)
Definition stored_config (config_path : string) : M (option pyval) :=
  (let* cfg := read_json config_path in
   let* has := py_contains (VStr "db_path") cfg in
   if has : bool then
     let* p := py_getitem cfg "db_path" in
     let* ok := py_isfile p in
     if ok : bool then ret (Some cfg) else ret None
   else ret None)%py.

(** [db_path] is what the file dialog returns when it is opened: the
    empty string when the user cancels. *)
Definition load_or_create_config (db_path : string) : M pyval :=
  (let* config_path := get_config_path in
   let* found := isfile config_path in
   let* stored :=
     (if found : bool
      then try_except (stored_config config_path) (fun _ => ret None)
      else ret None) in
   match stored with
   | Some cfg => ret cfg
   | None =>
       if String.eqb db_path "" then raise OSError
       else
         let* ok := isfile db_path in
         if negb ok then raise OSError
         else
           let* cfg := alloc (ODict [("db_path", VStr db_path)]) in
           let* _ := try_except (write_json config_path cfg) (fun _ => ret tt) in
           ret cfg
   end)%py.

Definition save_config (cfg : pyval) : M unit :=
  (let* config_path := get_config_path in
   try_except (write_json config_path cfg) (fun _ => ret tt))%py.

End Config.

(** ** JSON text

    [json.dumps(_, indent=2)] and, for texts without floating-point
    numbers and with characters below 256, [json.loads] after
    [decode("utf-8")]. *)

Module JsonText.

Definition quote : ascii := "034".
Definition newline : ascii := "010".

Definition hex_digit (n : N) : ascii :=
  if (n <? 10)%N then ascii_of_N (48 + n) else ascii_of_N (87 + n).

(** [\uXXXX] for a character below 256 *)
Definition u_escape (c : ascii) : list ascii :=
  let n := N_of_ascii c in
  ["\"; "u"; "0"; "0"; hex_digit (n / 16); hex_digit (n mod 16)]%char.

Definition escape_char (c : ascii) : list ascii :=
  let n := N_of_ascii c in
  if (n =? 34)%N then ["\"; quote]%char
  else if (n =? 92)%N then ["\"; "\"]%char
  else if (n =? 10)%N then ["\"; "n"]%char
  else if (n =? 13)%N then ["\"; "r"]%char
  else if (n =? 9)%N then ["\"; "t"]%char
  else if (n =? 8)%N then ["\"; "b"]%char
  else if (n =? 12)%N then ["\"; "f"]%char
  else if ((32 <=? n) && (n <=? 126))%N then [c]
  else u_escape c.

Definition dump_string (s : string) : list ascii :=
  quote :: concat (map escape_char (PyStr.chars s)) ++ [quote].

Definition dump_int (n : Z) : list ascii :=
  PyStr.chars (NilZero.string_of_int (Z.to_int n)).

Definition indent (level : nat) : list ascii :=
  newline :: repeat " "%char (2 * level).

(** The items of a container, one per line. *)
Fixpoint join_items (level : nat) (items : list (list ascii)) : list ascii :=
  match items with
  | [] => []
  | [x] => indent level ++ x
  | x :: rest => indent level ++ x ++ ","%char :: join_items level rest
  end.

Fixpoint dump (level : nat) (j : json) : list ascii :=
  match j with
  | JNull => PyStr.chars "null"
  | JBool true => PyStr.chars "true"
  | JBool false => PyStr.chars "false"
  | JInt n => dump_int n
  | JStr s => dump_string s
  | JArr [] => PyStr.chars "[]"
  | JArr xs =>
      "["%char :: join_items (S level) (map (dump (S level)) xs)
        ++ indent level ++ ["]"%char]
  | JObj [] => PyStr.chars "{}"
  | JObj kvs =>
      "{"%char ::
        join_items (S level)
          (map (fun kv => dump_string (fst kv) ++ ":"%char :: " "%char
                            :: dump (S level) (snd kv)) kvs)
        ++ indent level ++ ["}"%char]
  end.

Definition dumps (j : json) : string := PyStr.str (dump 0 j).

(** *** Reading *)

Definition is_ws (c : ascii) : bool :=
  let n := N_of_ascii c in
  ((n =? 32) || (n =? 9) || (n =? 10) || (n =? 13))%N.

Fixpoint skip_ws (l : list ascii) : list ascii :=
  match l with
  | c :: l' => if is_ws c then skip_ws l' else l
  | [] => []
  end.

Definition digit (c : ascii) : option Z :=
  let n := N_of_ascii c in
  if ((48 <=? n) && (n <=? 57))%N then Some (Z.of_N n - 48) else None.

Definition hex (c : ascii) : option N :=
  let n := N_of_ascii c in
  if ((48 <=? n) && (n <=? 57))%N then Some (n - 48)%N
  else if ((97 <=? n) && (n <=? 102))%N then Some (n - 87)%N
  else if ((65 <=? n) && (n <=? 70))%N then Some (n - 55)%N
  else None.

Fixpoint read_digits (acc : Z) (l : list ascii) : Z * list ascii :=
  match l with
  | c :: l' =>
      match digit c with
      | Some d => read_digits (10 * acc + d) l'
      | None => (acc, l)
      end
  | [] => (acc, [])
  end.

Definition starts_fraction (l : list ascii) : bool :=
  match l with
  | c :: _ => Ascii.eqb c "." || Ascii.eqb c "e" || Ascii.eqb c "E"
  | [] => false
  end.

(** An integer: no leading zero, and no fraction or exponent after it. *)
Definition read_nat (l : list ascii) : option (Z * list ascii) :=
  match l with
  | c :: l' =>
      match digit c with
      | Some 0 =>
          match l' with
          | c' :: _ =>
              match digit c' with
              | Some _ => None
              | None => if starts_fraction l' then None else Some (0, l')
              end
          | [] => Some (0, [])
          end
      | Some d =>
          let '(n, rest) := read_digits d l' in
          if starts_fraction rest then None else Some (n, rest)
      | None => None
      end
  | [] => None
  end.

Definition read_int (l : list ascii) : option (Z * list ascii) :=
  match l with
  | c :: l' =>
      if Ascii.eqb c "-"
      then match read_nat l' with
           | Some (n, rest) => Some (- n, rest)
           | None => None
           end
      else read_nat l
  | [] => None
  end.

Definition simple_escape (c : ascii) : option ascii :=
  let n := N_of_ascii c in
  if (n =? 34)%N then Some quote
  else if (n =? 92)%N then Some "\"%char
  else if (n =? 47)%N then Some "/"%char
  else if (n =? 98)%N then Some "008"%char
  else if (n =? 102)%N then Some "012"%char
  else if (n =? 110)%N then Some "010"%char
  else if (n =? 114)%N then Some "013"%char
  else if (n =? 116)%N then Some "009"%char
  else None.

Definition hex4 (a b c d : ascii) : option ascii :=
  match hex a, hex b, hex c, hex d with
  | Some x, Some y, Some z, Some w =>
      let n := (((x * 16 + y) * 16 + z) * 16 + w)%N in
      if (n <? 256)%N then Some (ascii_of_N n) else None
  | _, _, _, _ => None
  end.

(** After the opening quote, up to the closing one. *)
Fixpoint read_string (acc : list ascii) (l : list ascii)
  : option (string * list ascii) :=
  match l with
  | [] => None
  | c :: l' =>
      let n := N_of_ascii c in
      if (n =? 34)%N then Some (PyStr.str (rev acc), l')
      else if (n =? 92)%N then
        match l' with
        | e :: l'' =>
            if Ascii.eqb e "u" then
              match l'' with
              | a :: b :: c' :: d :: rest =>
                  match hex4 a b c' d with
                  | Some x => read_string (x :: acc) rest
                  | None => None
                  end
              | _ => None
              end
            else
              match simple_escape e with
              | Some x => read_string (x :: acc) l''
              | None => None
              end
        | [] => None
        end
      else if (n <? 32)%N then None
      else if (n <? 128)%N then read_string (c :: acc) l'
      else if (n =? 194)%N then
        match l' with
        | x :: rest =>
            if ((128 <=? N_of_ascii x) && (N_of_ascii x <? 192))%N
            then read_string (x :: acc) rest else None
        | [] => None
        end
      else if (n =? 195)%N then
        match l' with
        | x :: rest =>
            if ((128 <=? N_of_ascii x) && (N_of_ascii x <? 192))%N
            then read_string (ascii_of_N (N_of_ascii x + 64) :: acc) rest
            else None
        | [] => None
        end
      else None
  end.

Definition literal (word : string) (l : list ascii) : option (list ascii) :=
  let w := PyStr.chars word in
  if bool_decide (take (length w) l = w) then Some (drop (length w) l) else None.

Fixpoint read_value (fuel : nat) (l : list ascii) : option (json * list ascii) :=
  match fuel with
  | O => None
  | S f =>
      match skip_ws l with
      | [] => None
      | c :: rest =>
          let n := N_of_ascii c in
          if (n =? 34)%N then
            match read_string [] rest with
            | Some (s, r) => Some (JStr s, r)
            | None => None
            end
          else if Ascii.eqb c "[" then
            match skip_ws rest with
            | c' :: r => if Ascii.eqb c' "]" then Some (JArr [], r)
                         else read_elements f rest
            | [] => None
            end
          else if Ascii.eqb c "{" then
            match skip_ws rest with
            | c' :: r => if Ascii.eqb c' "}" then Some (JObj [], r)
                         else read_members f rest
            | [] => None
            end
          else if Ascii.eqb c "n" then
            match literal "null" (c :: rest) with
            | Some r => Some (JNull, r) | None => None end
          else if Ascii.eqb c "t" then
            match literal "true" (c :: rest) with
            | Some r => Some (JBool true, r) | None => None end
          else if Ascii.eqb c "f" then
            match literal "false" (c :: rest) with
            | Some r => Some (JBool false, r) | None => None end
          else
            match read_int (c :: rest) with
            | Some (k, r) => Some (JInt k, r)
            | None => None
            end
      end
  end
with read_elements (fuel : nat) (l : list ascii) : option (json * list ascii) :=
  match fuel with
  | O => None
  | S f =>
      match read_value f l with
      | Some (v, r) =>
          match skip_ws r with
          | c :: r' =>
              if Ascii.eqb c "," then
                match read_elements f r' with
                | Some (JArr vs, r'') => Some (JArr (v :: vs), r'')
                | _ => None
                end
              else if Ascii.eqb c "]" then Some (JArr [v], r')
              else None
          | [] => None
          end
      | None => None
      end
  end
with read_members (fuel : nat) (l : list ascii) : option (json * list ascii) :=
  match fuel with
  | O => None
  | S f =>
      match skip_ws l with
      | q :: r0 =>
          if (N_of_ascii q =? 34)%N then
            match read_string [] r0 with
            | Some (k, r1) =>
                match skip_ws r1 with
                | c :: r2 =>
                    if Ascii.eqb c ":" then
                      match read_value f r2 with
                      | Some (v, r3) =>
                          match skip_ws r3 with
                          | c' :: r4 =>
                              if Ascii.eqb c' "," then
                                match read_members f r4 with
                                | Some (JObj kvs, r5) =>
                                    Some (JObj ((k, v) :: kvs), r5)
                                | _ => None
                                end
                              else if Ascii.eqb c' "}"
                                   then Some (JObj [(k, v)], r4)
                                   else None
                          | [] => None
                          end
                      | None => None
                      end
                    else None
                | [] => None
                end
            | None => None
            end
          else None
      | [] => None
      end
  end.

Definition loads (b : string) : option json :=
  let l := PyStr.chars b in
  match read_value (2 * length l + 2) l with
  | Some (j, rest) =>
      match skip_ws rest with
      | [] => Some j
      | _ => None
      end
  | None => None
  end.

End JsonText.

(** The ApplicationsSection of a document: the list under
    [applications.applications]; anything else counts as the empty
    list. *)
Definition json_records (j : json) : list json :=
  match j with
  | JObj kvs =>
      match dict_lookup "applications" kvs with
      | Some (JObj section) =>
          match dict_lookup "applications" section with
          | Some (JArr xs) => xs
          | _ => []
          end
      | _ => []
      end
  | _ => []
  end.

(** ** A store and a platform to run the program on *)

Module Demo.

(** A Tk variable shows [None], a truth value and an integer as their
    text; the runs below only ever show strings. *)
Definition tk_other (h : heap) (v : pyval) : string :=
  match v with
  | VNone => "None"
  | VBool true => "1"
  | VBool false => "0"
  | VInt n => NilZero.string_of_int (Z.to_int n)
  | _ => ""
  end.

(** Windows: both slashes separate components. *)
Definition is_sep (c : ascii) : bool := Ascii.eqb c "\" || Ascii.eqb c "/".

(** [ntpath.join] of a folder and a plain file name. *)
Definition path_join (folder name : string) : string :=
  match rev (PyStr.chars folder) with
  | [] => name
  | c :: _ =>
      if is_sep c || Ascii.eqb c ":" then folder +:+ name
      else folder +:+ "\" +:+ name
  end.

(** A stand-in for the imaging library: an image is the bytes of its
    file, and every image can be written as a bitmap. *)
Definition image : Type := string.
Definition decode_image (bytes : string) : option image :=
  match bytes with EmptyString => None | _ => Some bytes end.
Definition encode_bmp (img : image) : option string := Some ("BM" +:+ img).
Definition write_ok (path : string) : bool := true.
Definition save_debris (img : image) (path : string)
    (f : gmap string string) : gmap string string := f.

Definition editor0 : editor := Editor [] None "" "" "" "C:\db\icon_cache".

Definition boot (rows : list (Z * sqlval)) : state :=
  State [] rows false ∅ editor0.

Definition load := load_profiles_from_db JsonText.loads.
Definition reload := reload JsonText.loads.
Definition add_entry := add_entry JsonText.loads JsonText.dumps tk_other.
Definition delete_entry := delete_entry JsonText.loads JsonText.dumps.
Definition save_changes := save_changes JsonText.loads JsonText.dumps tk_other.
Definition on_profile_select := on_profile_select tk_other.
Definition browse_icon :=
  browse_icon is_sep path_join image decode_image encode_bmp write_ok save_debris.

Definition record (name : string) : json :=
  JObj [("name", JStr name); ("applicationPath", JStr ""); ("posterPath", JStr "")].

Definition document (records : list json) : json :=
  JObj [("applications", JObj [("applications", JArr records)])].

Definition blob (j : json) : sqlval := SqlBlob (JsonText.dumps j).

(** The state after the editor has started on a store. *)
Definition started (rows : list (Z * sqlval)) : state :=
  snd (reload (boot rows)).

(** What the rows of the store hold, read back as JSON. *)
Definition stored (st : state) : list (Z * option json) :=
  map (fun row => (fst row,
                   match snd row with
                   | SqlBlob b => JsonText.loads b
                   | _ => None
                   end)) (db st).

(** A dictionary that contains itself has no JSON text. *)
Definition circular_state : state :=
  State [ODict [("me", VRef 0%nat)]]
        [(1, blob (document []))] false ∅ editor0.

(** A store with one document of two records, the first of which
    carries keys the editor does not know. *)
Definition passenger_record : json :=
  JObj [("applicationId", JStr "id-1"); ("name", JStr "b");
        ("categoryColors", JArr [JInt 1; JInt 2]);
        ("posterPath", JStr "C:\old.png")].

Definition two_records : state :=
  started [(1, blob (document [passenger_record; record "A"]))].

(** The user has selected the second line of the list box, which shows
    the record named [b], and typed new values into the three fields. *)
Definition editing : state :=
  with_self
    (set_icon_path_var "C:\new.bmp"
       (set_app_path_var "C:\app.exe"
          (set_name_entry_var "Zed"
             (set_selected (Some 1%nat) (self two_records)))))
    two_records.

(** Three records named [b], [A] and [c], in this order. *)
Definition b_A_c : state :=
  started [(1, blob (document [record "b"; record "A"; record "c"]))].

(** The names the list box shows. *)
Definition shown_names (st : state) : list (option json) :=
  map (fun it =>
         match py_dumps (mem st) (profile it) with
         | Some (JObj kvs) => dict_lookup "name" kvs
         | _ => None
         end) (profiles (self st)).

(** One record with the given name and icon path, selected, and two
    pictures on the disk, the second of which is no image. *)
Definition icon_record (name poster : string) : json :=
  JObj [("name", JStr name); ("applicationPath", JStr ""); ("posterPath", JStr poster)].

Definition picture_files : gmap string string :=
  <["C:\pics\app.png" := "PNGDATA"]> (<["C:\pics\broken.png" := ""]> ∅).

Definition browsing (name poster : string) : state :=
  let st := with_files picture_files
              (started [(1, blob (document [icon_record name poster]))]) in
  with_self (set_selected (Some 0%nat) (self st)) st.

(** The user clicks on a line of the list box. *)
Definition select (idx : nat) (st : state) : state :=
  snd (on_profile_select (Some idx) st).

(** One document whose first and third records are equal, and one with
    two equal records. *)
Definition x_a_x : state :=
  started [(1, blob (document [record "x"; record "a"; record "x"]))].

Definition x_x : state :=
  started [(1, blob (document [record "x"; record "x"]))].

(** Two rows; the record of the second row sorts first. *)
Definition b_then_a : state :=
  started [(1, blob (document [record "b"])); (2, blob (document [record "a"]))].

(** A store with one row whose document has no profile list. *)
Definition no_profiles : state := started [(1, blob (JObj [("version", JInt 3)]))].

(** The template record, as JSON. *)
Definition new_entry : json :=
  JObj [("applicationId", JStr "new-app-id"); ("applicationPath", JStr "");
        ("isCustom", JBool true); ("name", JStr "New Entry");
        ("posterPath", JStr "")].

(** An editor holding a handle into a document without the wrappers. *)
Definition bare_document : state :=
  State [ODict [("version", VInt 3)]; ODict [("name", VStr "a")]]
        [(1, blob (JObj [("version", JInt 3)]))] false ∅
        (Editor [Item 1 (VRef 0%nat) (VRef 1%nat)] None "" "" "" "C:\db\icon_cache").

(** The ApplicationsSection of the document in the first row. *)
Definition first_row_records (st : state) : list json :=
  match stored st with
  | (_, Some j) :: _ => json_records j
  | _ => []
  end.

(** Three rows, the second of which holds text that is no JSON. *)
Definition second_row_unreadable : list (Z * sqlval) :=
  [(1, blob (document [record "b"]));
   (2, SqlBlob "not json");
   (3, blob (document [record "a"; record "c"]))].

(** Three rows, the second of which holds a JSON array. *)
Definition second_row_array : list (Z * sqlval) :=
  [(1, blob (document [record "b"]));
   (2, SqlBlob "[]");
   (3, blob (document [record "a"]))].

(** One row with a record whose name is [null]. *)
Definition null_name : list (Z * sqlval) :=
  [(1, blob (document [JObj [("name", JNull)]]))].

(** The handles [load] returns, each as its row and its record. *)
Definition loaded (rows : list (Z * sqlval)) : outcome (list (Z * option json)) :=
  match load (boot rows) with
  | (Ok l, st) => Ok (map (fun it => (db_row_id it, py_dumps (mem st) (profile it))) l)
  | (Raise e, _) => Raise e
  end.

(** Every image that opens can be shown. *)
Definition photo_image (img : image) : bool := true.
Definition load_icon_preview := load_icon_preview image decode_image photo_image.

(** The program runs as a script from [C:\tool]; every folder can be
    made and every file read and written; no integer names a file. *)
Definition script_dir : string := "C:\tool".
Definition config_path : string := "C:\tool\ghub_db_location_config.json".
Definition load_or_create_config :=
  load_or_create_config JsonText.loads JsonText.dumps path_join false ""
    script_dir (fun _ => true) (fun _ => true) (fun _ => None)
    (fun _ _ => EmptyString) (fun _ => Ok false).
Definition save_config :=
  save_config JsonText.dumps path_join false "" script_dir (fun _ => true)
    (fun _ => None) (fun _ _ => EmptyString).

(** A disk with a database file and no configuration, and one whose
    configuration names a database that is gone. *)
Definition first_start : state :=
  State [] [] false (<["C:\db\settings.db" := "SQLite format 3"]> ∅) editor0.

Definition stale_config : state :=
  State [] [] false
    (<[config_path := JsonText.dumps (JObj [("db_path", JStr "C:\old\settings.db")])]>
       (<["C:\db\settings.db" := "SQLite format 3"]> ∅)) editor0.

(** A disk whose configuration names the database file and holds a key
    of its own. *)
Definition settings : json :=
  JObj [("db_path", JStr "C:\db\settings.db"); ("theme", JStr "dark")].

Definition configured : state :=
  State [] [] false
    (<[config_path := JsonText.dumps settings]>
       (<["C:\db\settings.db" := "SQLite format 3"]> ∅)) editor0.

End Demo.

(** ** What the specification calls the parts of the program *)

(** The record after [save_changes] has written its three fields. *)
Definition written_record (e : editor) (d : list (string * pyval))
  : list (string * pyval) :=
  dict_store "posterPath" (VStr (icon_path_var e))
    (dict_store "applicationPath" (VStr (app_path_var e))
       (dict_store "name" (VStr (name_entry_var e)) d)).

(** The key the display order sorts a handle by: the lower-cased name,
    when the record is a dictionary whose name, if it has one, is a
    string. *)
Definition name_key (h : heap) (it : item) : option string :=
  match profile it with
  | VRef a =>
      match h !! a with
      | Some (ODict d) =>
          match dict_lookup "name" d with
          | None => Some (PyStr.lower "")
          | Some (VStr s) => Some (PyStr.lower s)
          | Some _ => None
          end
      | _ => None
      end
  | _ => None
  end.

Definition display_key (h : heap) (it : item) : string :=
  default EmptyString (name_key h it).

(** The order [list.sort] leaves the keyed entries in. *)
Definition key_le {A} (x y : string * A) : Prop :=
  String.leb (fst x) (fst y) = true.

(** The record behind the selected line of the list box, when it is a
    dictionary: its address and its entries. *)
Definition selected_record (st : state) : option (addr * list (string * pyval)) :=
  match selected_profile_index (self st) with
  | Some idx =>
      match profiles (self st) !! idx with
      | Some it =>
          match profile it with
          | VRef a =>
              match mem st !! a with
              | Some (ODict d) => Some (a, d)
              | _ => None
              end
          | _ => None
          end
      | None => None
      end
  | None => None
  end.

(** A field of a record that holds a string; a missing field reads as
    the empty string. *)
Definition str_field (k : string) (d : list (string * pyval)) : option string :=
  match dict_lookup k d with
  | None => Some EmptyString
  | Some (VStr s) => Some s
  | Some _ => None
  end.

Section Target.
Variable is_sep : ascii -> bool.
Variable path_join : string -> string -> string.

(** The path [browse_icon] computes for a record with the given
    [posterPath] and [name]. *)
Definition target_path (cache_folder poster name : string) : string :=
  final_path_of is_sep path_join cache_folder (PyStr.strip poster)
    (safe_name_of (PyStr.or_else (PyStr.strip name) "app_unknown")).

(** The same path, for the selected record of a state. *)
Definition derived_target (st : state) : option string :=
  match selected_record st with
  | Some (_, d) =>
      match str_field "posterPath" d, str_field "name" d with
      | Some poster, Some name =>
          Some (target_path (icon_cache_folder (self st)) poster name)
      | _, _ => None
      end
  | None => None
  end.
End Target.

(** The image [Image.open] returns for a path, if any. *)
Definition opened {image : Type} (decode_image : string -> option image)
    (st : state) (file_path : string) : option image :=
  match files st !! file_path with
  | Some bytes => decode_image bytes
  | None => None
  end.

(** The state after a [browse_icon] that wrote [bytes] to [target] and
    linked the record at [a] to it. *)
Definition icon_set (a : addr) (d : list (string * pyval))
    (target bytes : string) (st : state) : state :=
  State (<[a := ODict (dict_store "posterPath" (VStr target) d)]> (mem st))
        (db st) (db_write_fails st)
        (<[target := bytes]> (files st))
        (set_icon_path_var target (self st)).

(** The file name [browse_icon] gives a record that has no icon yet:
    the trimmed name, or [app_unknown] when that is empty; without the
    characters that are neither word characters, white space nor hyphens;
    trimmed; with an underscore for every space; or [icon] when nothing
    is left. *)
Definition sanitize (name : string) : string :=
  let shown :=
    match PyStr.strip name with
    | EmptyString => "app_unknown"
    | s => s
    end in
  let kept :=
    filter (fun c => PyStr.isword c = true \/ PyStr.isspace c = true \/ c = "-"%char)
           (PyStr.chars shown) in
  let trimmed := PyStr.rstrip (PyStr.lstrip kept) in
  let joined := map (fun c => if decide (c = " "%char) then "_"%char else c) trimmed in
  match joined with
  | [] => "icon"
  | _ => PyStr.str joined
  end.

Section Claimed.
Variable is_sep : ascii -> bool.
Variable path_join : string -> string -> string.

(** The rule with one placeholder and no trimming of the fields. *)
Definition one_placeholder_sanitize (placeholder name : string) : string :=
  PyStr.or_else
    (PyStr.replace_space (PyStr.strip (PyStr.re_sub_nonword name))) placeholder.

Definition one_placeholder_target (placeholder cache_folder poster name : string)
  : string :=
  match poster with
  | EmptyString =>
      path_join cache_folder (one_placeholder_sanitize placeholder name +:+ ".bmp")
  | _ => fst (OsPath.splitext is_sep poster) +:+ ".bmp"
  end.
End Claimed.

(** The [posterPath] of the selected record. *)
Definition selected_poster (st : state) : option pyval :=
  match selected_record st with
  | Some (_, d) => dict_lookup "posterPath" d
  | None => None
  end.

(** ** Computations that only add objects

    [allocates m]: whatever [m] returns or raises, the objects that were
    there are still there, unchanged, and so are the store and the files;
    [m] may have created new objects and changed the editor.
    [appends m] says this of the objects alone. *)

Definition mem_grows (st st' : state) : Prop := mem st `prefix_of` mem st'.

Definition only_allocated (st st' : state) : Prop :=
  mem st `prefix_of` mem st' /\ db st' = db st
  /\ db_write_fails st' = db_write_fails st /\ files st' = files st.

Definition keeps (R : relation state) {A} (m : M A) : Prop :=
  forall st, R st (snd (m st)).

Definition appends {A} (m : M A) : Prop := keeps mem_grows m.
Definition allocates {A} (m : M A) : Prop := keeps only_allocated m.


(** The object a document keeps under ["applications"], with its
    entries: the one it has, or the empty dictionary [add_entry] has just
    created when it has none. *)
Definition section_of (h : heap) (dd : list (string * pyval))
  : option (addr * list (string * pyval)) :=
  match dict_lookup "applications" dd with
  | None => Some (length h, [])
  | Some (VRef sa) =>
      match h !! sa with
      | Some (ODict sd) => Some (sa, sd)
      | _ => None
      end
  | Some _ => None
  end.

(** The list that object keeps under ["applications"], with its items:
    the one it has, or the empty list [add_entry] has just created. *)
Definition records_of (h : heap) (sd : list (string * pyval))
  : option (addr * list pyval) :=
  match dict_lookup "applications" sd with
  | None => Some (S (length h), [])
  | Some (VRef la) =>
      match h !! la with
      | Some (OList items) => Some (la, items)
      | _ => None
      end
  | Some _ => None
  end.

(** The objects after [add_entry] has attached the new record. *)
Definition heap_after_add (h : heap) (doc : addr) (dd : list (string * pyval))
    (sa : addr) (sd : list (string * pyval)) (la : addr) (items : list pyval)
  : heap :=
  <[doc := ODict (dict_store "applications" (VRef sa) dd)]>
    (<[sa := ODict (dict_store "applications" (VRef la) sd)]>
       (<[la := OList (items ++ [VRef (length h + 2)%nat])]>
          (h ++ [ODict []; OList []; ODict new_profile]))).

(** The rows after [save_profile_to_db]. *)
Definition saved_rows (dumps : json -> string) (row_id : Z) (entire_json : pyval)
    (h : heap) (st : state) : list (Z * sqlval) :=
  match py_dumps h entire_json with
  | Some j =>
      if db_write_fails st then db st
      else sql_update row_id (SqlBlob (dumps j)) (db st)
  | None => db st
  end.



(** ** Reading objects back as JSON *)

(** [reads_as h v J]: the walk of [json.dumps] over [v] finds the tree
    [J] without nesting deeper than the heap is large. *)
Definition reads_as (h : heap) (v : pyval) (J : json) : Prop :=
  exists f, (f <= S (length h))%nat /\ py_to_json f h v = Some J.

(** Two dictionaries with the same keys in the same places and related
    values. *)
Definition entries_rel {V W} (R : V -> W -> Prop)
    (kv : string * V) (kw : string * W) : Prop :=
  fst kv = fst kw /\ R (snd kv) (snd kw).

(** ** What a store holds *)

Section StoreContents.
Variable loads : string -> option json.

(** The JSON a row's payload holds, when the payload is a non-empty
    byte string that decodes and parses. *)
Definition payload_json (data_blob : sqlval) : option json :=
  if sql_falsy data_blob then None
  else match data_blob with
       | SqlBlob b => loads b
       | _ => None
       end.

(** The profiles of a row, each with the row's identifier. *)
Definition row_profiles (row : Z * sqlval) : list (Z * json) :=
  match payload_json (snd row) with
  | Some j => map (pair (fst row)) (json_records (norm j))
  | None => []
  end.

Definition store_profiles (rows : list (Z * sqlval)) : list (Z * json) :=
  flat_map row_profiles rows.
End StoreContents.

(** A profile record: an object whose name, if it has one, is a string. *)
Definition record_shaped (r : json) : Prop :=
  exists kvs, r = JObj kvs
              /\ (dict_lookup "name" kvs = None
                  \/ exists s, dict_lookup "name" kvs = Some (JStr s)).

(** A document: an object whose profile list holds profile records. *)
Definition document_shaped (j : json) : Prop :=
  (exists kvs, j = JObj kvs) /\ Forall record_shaped (json_records (norm j)).

(** The handle [it] stands for the profile [p] of the store. *)
Definition handle_of (h : heap) (it : item) (p : Z * json) : Prop :=
  db_row_id it = fst p /\ reads_as h (profile it) (snd p).

(** ** Paths that name a file *)

(** The last component of a path: what follows the last separator. *)
Definition last_component (is_sep : ascii -> bool) (p : string) : list ascii :=
  let l := PyStr.chars p in
  drop (Z.to_nat (OsPath.rfind is_sep l + 1)) l.

(** The last component has a character other than a dot: it is neither
    empty nor made of dots only. *)
Definition named (is_sep : ascii -> bool) (p : string) : Prop :=
  existsb (fun c => negb (OsPath.is_dot c)) (last_component is_sep p) = true.

(** A text that does not begin with white space. *)
Definition starts_clean (l : list ascii) : Prop :=
  match l with
  | c :: _ => PyStr.isspace c = false
  | [] => True
  end.

(** ** What the further properties speak of *)

(** [untouched st st']: the objects of [st] are still there, unchanged,
    and the store, the files and the editor are what they were. *)
Definition untouched (st st' : state) : Prop :=
  mem st `prefix_of` mem st' /\ db st' = db st
  /\ db_write_fails st' = db_write_fails st /\ files st' = files st
  /\ self st' = self st.

(** [same_handles st st']: the objects of [st] are still there,
    unchanged, and the editor holds the same handles. *)
Definition same_handles (st st' : state) : Prop :=
  mem st `prefix_of` mem st' /\ profiles (self st') = profiles (self st).

(** [after m st Q]: if [m] returns from [st], [Q] holds of what it
    returns and of the state it leaves. *)
Definition after {A} (m : M A) (st : state) (Q : A -> state -> Prop) : Prop :=
  match m st with
  | (Ok a, st') => Q a st'
  | (Raise _, _) => True
  end.

(** The handle [it] points into its document: the document is a
    dictionary whose ["applications"] is a dictionary whose
    ["applications"] is a list, and the record of the handle is an item
    of that list. *)
Definition owned (h : heap) (it : item) : Prop :=
  exists doc dd sa sd la items,
    entire_json it = VRef doc /\ h !! doc = Some (ODict dd)
    /\ dict_lookup "applications" dd = Some (VRef sa)
    /\ h !! sa = Some (ODict sd)
    /\ dict_lookup "applications" sd = Some (VRef la)
    /\ h !! la = Some (OList items)
    /\ profile it ∈ items.

(** The profiles the store holds once the document [J] is the payload of
    the rows [row_id]. *)
Definition profiles_after_save (loads : string -> option json) (row_id : Z)
    (J : json) (rows : list (Z * sqlval)) : list (Z * json) :=
  flat_map (fun row => if fst row =? row_id
                       then map (pair row_id) (json_records (norm J))
                       else row_profiles loads row) rows.

(** What an entry field shows for the key [k] of a record: the value
    when it is a string, nothing when the key is missing. *)
Definition field_text (tk_other : heap -> pyval -> string) (h : heap)
    (k : string) (d : list (string * pyval)) : string :=
  match dict_lookup k d with
  | None => EmptyString
  | Some (VStr s) => s
  | Some v => tk_other h v
  end.

(** The editor after a click on the line [idx], which shows the record
    [d]. *)
Definition showing (tk_other : heap -> pyval -> string) (h : heap) (idx : nat)
    (d : list (string * pyval)) (e : editor) : editor :=
  set_icon_path_var (field_text tk_other h "posterPath" d)
    (set_app_path_var (field_text tk_other h "applicationPath" d)
       (set_name_entry_var (field_text tk_other h "name" d)
          (set_selected (Some idx) e))).

(** Whether the record of a handle is a dictionary with the name
    [name]. *)
Definition is_named (h : heap) (name : string) (it : item) : bool :=
  match profile it with
  | VRef a =>
      match h !! a with
      | Some (ODict d) =>
          match dict_lookup "name" d with
          | Some v => eq_str v name
          | None => false
          end
      | _ => false
      end
  | _ => false
  end.

(** The position of the first item that satisfies [P]. *)
Fixpoint first_index {A} (P : A -> bool) (l : list A) : option nat :=
  match l with
  | [] => None
  | x :: l' => if P x then Some O else S <$> first_index P l'
  end.

(** The record of a handle is a dictionary. *)
Definition is_record (h : heap) (it : item) : Prop :=
  exists a d, profile it = VRef a /\ h !! a = Some (ODict d).

(** The editor with its three fields empty. *)
Definition cleared (e : editor) : editor :=
  set_icon_path_var "" (set_app_path_var "" (set_name_entry_var "" e)).

(** The computation [m], run from [st], does not end in the exception
    [e]. *)
Definition avoids {A} (e : exn) (m : M A) (st : state) : Prop :=
  fst (m st) <> Raise e.

(** The computation [m] never ends in the exception [e]. *)
Definition never {A} (e : exn) (m : M A) : Prop := forall st, avoids e m st.

(** The handles of the editor are sound: the record of each handle is a
    dictionary, and it is an item of the list of the handle's
    document. *)
Definition handles_sound (st : state) : Prop :=
  Forall (fun it => owned (mem st) it /\ is_record (mem st) it)
         (profiles (self st)).

(** * Properties *)

(** ** Running computations *)

Lemma bind_ok {A B} (m : M A) (k : A -> M B) st a st' :
  m st = (Ok a, st') -> bind m k st = k a st'.
Proof. intros H. unfold bind. by rewrite H. Qed.

Lemma bind_raise {A B} (m : M A) (k : A -> M B) st e st' :
  m st = (Raise e, st') -> bind m k st = (Raise e, st').
Proof. intros H. unfold bind. by rewrite H. Qed.

(** ** [add_entry] on an empty profile list *)

(** C10. When [self.profiles] is empty, [add_entry] returns without an
    error and changes nothing: no object is created or modified, the
    store is not written, the editor is as it was. *)
Theorem add_entry_without_profiles_is_noop
    (loads : string -> option json) (dumps : json -> string)
    (tk_other : heap -> pyval -> string) (st : state) :
  profiles (self st) = [] ->
  add_entry loads dumps tk_other st = (Ok tt, st).
Proof.
  intros Hempty. unfold add_entry, bind, get_self. cbn. by rewrite Hempty.
Qed.

(** A store whose only row holds no JSON text: the editor starts with no
    profile, and adding an entry leaves the store as it is. *)
Lemma add_entry_without_profiles_is_noop_witness :
  let st := Demo.started [(7, SqlBlob "not json")] in
  profiles (self st) = [] /\ Demo.add_entry st = (Ok tt, st).
Proof.
  split; [reflexivity |].
  apply (add_entry_without_profiles_is_noop
           JsonText.loads JsonText.dumps Demo.tk_other).
  reflexivity.
Defined.

(** ** [save_profile_to_db] *)

(** C9. When the document cannot be serialized, [save_profile_to_db]
    returns before it opens the database: the store, and everything
    else, is unchanged. *)
Theorem save_profile_serialize_failure_keeps_store
    (dumps : json -> string) (row_id : Z) (entire_json : pyval) (st : state) :
  py_dumps (mem st) entire_json = None ->
  save_profile_to_db dumps row_id entire_json st = (Ok tt, st)
  /\ db (snd (save_profile_to_db dumps row_id entire_json st)) = db st.
Proof.
  intros Hfail.
  assert (save_profile_to_db dumps row_id entire_json st = (Ok tt, st)) as Hrun.
  { unfold save_profile_to_db, bind, get_state. cbv beta iota. by rewrite Hfail. }
  split; [exact Hrun | by rewrite Hrun].
Qed.

Lemma save_profile_serialize_failure_keeps_store_witness :
  py_dumps (mem Demo.circular_state) (VRef 0%nat) = None
  /\ save_profile_to_db JsonText.dumps 1 (VRef 0%nat) Demo.circular_state
     = (Ok tt, Demo.circular_state)
  /\ db (snd (save_profile_to_db JsonText.dumps 1 (VRef 0%nat) Demo.circular_state))
     = db Demo.circular_state.
Proof.
  split; [reflexivity |].
  apply (save_profile_serialize_failure_keeps_store
           JsonText.dumps 1 (VRef 0%nat) Demo.circular_state).
  reflexivity.
Defined.

Lemma try_ok {A} (m : M A) (h : exn -> M A) st a st' :
  m st = (Ok a, st') -> try_except m h st = (Ok a, st').
Proof. intros H. unfold try_except. by rewrite H. Qed.

Lemma try_raise {A} (m : M A) (h : exn -> M A) st e st' :
  m st = (Raise e, st') -> try_except m h st = h e st'.
Proof. intros H. unfold try_except. by rewrite H. Qed.

(** *** Computations that only add objects *)

#[local] Instance mem_grows_preorder : PreOrder mem_grows.
Proof.
  split; [intros st; by unfold mem_grows|].
  intros st1 st2 st3. unfold mem_grows. by etrans.
Qed.

#[local] Instance only_allocated_preorder : PreOrder only_allocated.
Proof.
  split; [intros st; by unfold only_allocated|].
  intros st1 st2 st3 (H1 & H2 & H3 & H4) (H1' & H2' & H3' & H4').
  split_and!; [by etrans | congruence..].
Qed.

Lemma allocates_appends {A} (m : M A) : allocates m -> appends m.
Proof. intros H st. apply H. Qed.

Section Keeps.
Context (R : relation state) `{!PreOrder R}.

Lemma keeps_ret {A} (a : A) : keeps R (ret a).
Proof. by intros st. Qed.

Lemma keeps_raise {A} (e : exn) : keeps R (@raise A e).
Proof. by intros st. Qed.

Lemma keeps_bind {A B} (m : M A) (k : A -> M B) :
  keeps R m -> (forall a, keeps R (k a)) -> keeps R (bind m k).
Proof.
  intros Hm Hk st. unfold bind. specialize (Hm st).
  destruct (m st) as [[a|e] st1]; cbn in *; [|done].
  etrans; [exact Hm | apply Hk].
Qed.

Lemma keeps_try {A} (m : M A) (h : exn -> M A) :
  keeps R m -> (forall e, keeps R (h e)) -> keeps R (try_except m h).
Proof.
  intros Hm Hh st. unfold try_except. specialize (Hm st).
  destruct (m st) as [[a|e] st1]; cbn in *; [done|].
  etrans; [exact Hm | apply Hh].
Qed.

Lemma keeps_get_state : keeps R get_state.
Proof. by intros st. Qed.

Lemma keeps_get_self : keeps R get_self.
Proof. by intros st. Qed.

Lemma keeps_deref a : keeps R (deref a).
Proof. intros st. unfold deref. by destruct (mem st !! a). Qed.

Lemma keeps_traverse {A B} (f : A -> M B) l :
  (forall x, keeps R (f x)) -> keeps R (traverse f l).
Proof.
  intros Hf. induction l as [|x l IH]; cbn.
  - apply keeps_ret.
  - apply keeps_bind; [apply Hf|]. intros y.
    apply keeps_bind; [apply IH|]. intros ys. apply keeps_ret.
Qed.

Lemma keeps_foldM {A B} (f : B -> A -> M B) acc l :
  (forall b x, keeps R (f b x)) -> keeps R (foldM f acc l).
Proof.
  intros Hf. revert acc. induction l as [|x l IH]; intros acc; cbn.
  - apply keeps_ret.
  - apply keeps_bind; [apply Hf|]. intros b. apply IH.
Qed.

End Keeps.

Lemma allocates_ret {A} (a : A) : allocates (ret a).
Proof. apply keeps_ret, _. Qed.

Lemma allocates_raise {A} (e : exn) : allocates (@raise A e).
Proof. apply keeps_raise, _. Qed.

Lemma allocates_bind {A B} (m : M A) (k : A -> M B) :
  allocates m -> (forall a, allocates (k a)) -> allocates (bind m k).
Proof. apply keeps_bind, _. Qed.

Lemma allocates_try {A} (m : M A) (h : exn -> M A) :
  allocates m -> (forall e, allocates (h e)) -> allocates (try_except m h).
Proof. apply keeps_try, _. Qed.

Lemma allocates_get_state : allocates get_state.
Proof. apply keeps_get_state, _. Qed.

Lemma allocates_get_self : allocates get_self.
Proof. apply keeps_get_self, _. Qed.

Lemma allocates_deref a : allocates (deref a).
Proof. apply keeps_deref, _. Qed.

Lemma allocates_traverse {A B} (f : A -> M B) l :
  (forall x, allocates (f x)) -> allocates (traverse f l).
Proof. apply keeps_traverse, _. Qed.

Lemma allocates_foldM {A B} (f : B -> A -> M B) acc l :
  (forall b x, allocates (f b x)) -> allocates (foldM f acc l).
Proof. apply keeps_foldM, _. Qed.

Lemma appends_ret {A} (a : A) : appends (ret a).
Proof. apply keeps_ret, _. Qed.

Lemma appends_bind {A B} (m : M A) (k : A -> M B) :
  appends m -> (forall a, appends (k a)) -> appends (bind m k).
Proof. apply keeps_bind, _. Qed.

Lemma allocates_update_self f : allocates (update_self f).
Proof. by intros st. Qed.

Lemma allocates_alloc o : allocates (alloc o).
Proof. intros st. split_and!; [|done..]. cbn. by apply prefix_app_r. Qed.

Ltac allocates_step :=
  first
    [ apply allocates_ret | apply allocates_raise | apply allocates_get_state
    | apply allocates_get_self | apply allocates_update_self
    | apply allocates_alloc | apply allocates_deref
    | apply allocates_bind; [|intros ?]
    | apply allocates_try; [|intros ?] ].

Ltac allocates_auto :=
  repeat first [ allocates_step | progress case_match | done ].

Lemma allocates_py_get v k dflt : allocates (py_get v k dflt).
Proof. unfold py_get. allocates_auto. Qed.

Lemma allocates_py_getitem v k : allocates (py_getitem v k).
Proof. unfold py_getitem. allocates_auto. Qed.

Lemma allocates_isinstance_dict v : allocates (isinstance_dict v).
Proof. unfold isinstance_dict. allocates_auto. Qed.

Lemma allocates_isinstance_list v : allocates (isinstance_list v).
Proof. unfold isinstance_list. allocates_auto. Qed.

Lemma allocates_list_items v : allocates (list_items v).
Proof. unfold list_items. allocates_auto. Qed.

(** ** Parsed texts and the objects made from them *)

(** Induction over a parsed text, with the hypothesis for every item of
    an array and every value of an object. *)
Lemma json_induction (P : json -> Prop)
    (HNull : P JNull) (HBool : forall b, P (JBool b))
    (HInt : forall n, P (JInt n)) (HStr : forall s, P (JStr s))
    (HArr : forall xs, Forall P xs -> P (JArr xs))
    (HObj : forall kvs, Forall (fun kv => P (snd kv)) kvs -> P (JObj kvs))
  : forall j, P j.
Proof.
  fix go 1. intros [| |n|s|xs|kvs]; [done..| |].
  - apply HArr. induction xs as [|x xs IH]; constructor; [apply go | exact IH].
  - apply HObj. induction kvs as [|kv kvs IH]; constructor; [apply go | exact IH].
Qed.

Lemma alloc_json_arr xs h :
  alloc_json (JArr xs) h =
  let '(vs, h') := alloc_items xs h in (VRef (length h'), h' ++ [OList vs]).
Proof. reflexivity. Qed.

Lemma alloc_json_obj kvs h :
  alloc_json (JObj kvs) h =
  let '(d, h') := alloc_members kvs h in
  (VRef (length h'), h' ++ [ODict (build_dict d)]).
Proof. reflexivity. Qed.

Lemma alloc_items_cons x xs h :
  alloc_items (x :: xs) h =
  let '(v, h1) := alloc_json x h in
  let '(vs, h2) := alloc_items xs h1 in (v :: vs, h2).
Proof. reflexivity. Qed.

Lemma alloc_members_cons k x kvs h :
  alloc_members ((k, x) :: kvs) h =
  let '(v, h1) := alloc_json x h in
  let '(d, h2) := alloc_members kvs h1 in ((k, v) :: d, h2).
Proof. reflexivity. Qed.

(** [json.loads] only creates objects. *)
Lemma alloc_json_prefix j : forall h, h `prefix_of` snd (alloc_json j h).
Proof.
  induction j as [| | | |xs IH|kvs IH] using json_induction; intros h; try done.
  - rewrite alloc_json_arr.
    assert (forall h, h `prefix_of` snd (alloc_items xs h)) as Hitems.
    { induction IH as [|x xs Hx _ IHxs]; intros h0; [done|].
      rewrite alloc_items_cons.
      specialize (Hx h0). destruct (alloc_json x h0) as [v h1].
      specialize (IHxs h1). destruct (alloc_items xs h1) as [vs h2].
      cbn in *. by etrans. }
    specialize (Hitems h). destruct (alloc_items xs h) as [vs h'].
    cbn in *. by apply prefix_app_r.
  - rewrite alloc_json_obj.
    assert (forall h, h `prefix_of` snd (alloc_members kvs h)) as Hmem.
    { induction IH as [|[k x] kvs Hx _ IHkvs]; intros h0; [done|].
      rewrite alloc_members_cons. cbn in Hx.
      specialize (Hx h0). destruct (alloc_json x h0) as [v h1].
      specialize (IHkvs h1). destruct (alloc_members kvs h1) as [d h2].
      cbn in *. by etrans. }
    specialize (Hmem h). destruct (alloc_members kvs h) as [d h'].
    cbn in *. by apply prefix_app_r.
Qed.

Section ProgramFrames.
Variable loads : string -> option json.
Variable dumps : json -> string.
Variable tk_other : heap -> pyval -> string.

Lemma allocates_decode_and_parse blob : allocates (decode_and_parse loads blob).
Proof.
  unfold decode_and_parse. destruct blob; try apply allocates_raise.
  destruct (loads b) as [j|]; [|apply allocates_raise].
  intros st. pose proof (alloc_json_prefix j (mem st)) as Hp.
  destruct (alloc_json j (mem st)) as [v h]. by split_and!.
Qed.

Lemma allocates_load_row acc row : allocates (load_row loads acc row).
Proof.
  unfold load_row. destruct row as [row_id blob].
  destruct (sql_falsy blob); [allocates_auto|].
  apply allocates_bind.
  { apply allocates_try; [|intros; allocates_auto].
    apply allocates_bind; [apply allocates_decode_and_parse|].
    intros; allocates_auto. }
  intros [parsed|]; [|allocates_auto].
  apply allocates_bind; [apply allocates_py_get|]. intros apps_section.
  apply allocates_bind; [apply allocates_isinstance_dict|].
  intros [|]; [|allocates_auto].
  apply allocates_bind; [apply allocates_alloc|]. intros empty.
  apply allocates_bind; [apply allocates_py_get|]. intros apps_list.
  apply allocates_bind; [apply allocates_isinstance_list|].
  intros [|]; [|allocates_auto].
  apply allocates_bind; [apply allocates_list_items|]. intros; allocates_auto.
Qed.

Lemma allocates_sort_key p : allocates (sort_key p).
Proof.
  unfold sort_key. apply allocates_bind; [apply allocates_py_get|].
  intros []; allocates_auto.
Qed.

Lemma allocates_sort_profiles l : allocates (sort_profiles l).
Proof.
  unfold sort_profiles. apply allocates_bind.
  - apply allocates_traverse. apply allocates_sort_key.
  - intros; allocates_auto.
Qed.

Lemma allocates_load_profiles_from_db : allocates (load_profiles_from_db loads).
Proof.
  unfold load_profiles_from_db.
  apply allocates_bind; [apply allocates_get_state|]. intros st.
  apply allocates_bind.
  - apply allocates_foldM. apply allocates_load_row.
  - intros; apply allocates_sort_profiles.
Qed.

Lemma allocates_reload : allocates (reload loads).
Proof.
  unfold reload. apply allocates_bind; [apply allocates_load_profiles_from_db|].
  intros; apply allocates_update_self.
Qed.

Lemma appends_save_profile_to_db row_id v :
  appends (save_profile_to_db dumps row_id v).
Proof.
  unfold save_profile_to_db.
  apply appends_bind; [apply allocates_appends, allocates_get_state|]. intros st.
  destruct (py_dumps (mem st) v); [|apply appends_ret].
  destruct (db_write_fails st); [apply appends_ret|].
  intros st'. by unfold mem_grows.
Qed.

Lemma allocates_populate_list : allocates populate_list.
Proof.
  unfold populate_list.
  apply allocates_bind; [apply allocates_get_self|]. intros e.
  apply allocates_bind; [|intros; allocates_auto].
  apply allocates_traverse. intros; apply allocates_py_get.
Qed.

Lemma allocates_profile_at idx : allocates (profile_at idx).
Proof. unfold profile_at. allocates_auto. Qed.

Lemma allocates_tk_string v : allocates (tk_string tk_other v).
Proof. unfold tk_string. destruct v; allocates_auto. Qed.

Lemma allocates_on_profile_select sel : allocates (on_profile_select tk_other sel).
Proof.
  unfold on_profile_select. destruct sel as [idx|]; [|apply allocates_update_self].
  repeat first
    [ apply allocates_update_self | apply allocates_profile_at
    | apply allocates_py_get | apply allocates_tk_string
    | apply allocates_bind; [|intros ?] ].
Qed.

Lemma allocates_find_name name l : forall i, allocates (find_name name i l).
Proof.
  induction l as [|p l IH]; intros i; cbn; [allocates_auto|].
  apply allocates_bind; [apply allocates_py_get|]. intros n.
  destruct (eq_str n name); [allocates_auto | apply IH].
Qed.

Lemma allocates_select_by_name name : allocates (select_by_name tk_other name).
Proof.
  unfold select_by_name.
  apply allocates_bind; [apply allocates_get_self|]. intros e.
  apply allocates_bind; [apply allocates_find_name|].
  intros [i|]; [|allocates_auto].
  apply allocates_try; [apply allocates_on_profile_select|intros; allocates_auto].
Qed.

End ProgramFrames.

(** ** Dictionaries *)

Lemma dict_lookup_store_eq {V} k (v : V) d :
  dict_lookup k (dict_store k v d) = Some v.
Proof.
  induction d as [|[k' v'] d IH]; cbn.
  - by rewrite String.eqb_refl.
  - destruct (String.eqb_spec k k') as [->|Hne]; cbn.
    + by rewrite String.eqb_refl.
    + by apply String.eqb_neq in Hne as ->.
Qed.

Lemma dict_lookup_store_ne {V} k k' (v : V) d :
  k <> k' -> dict_lookup k' (dict_store k v d) = dict_lookup k' d.
Proof.
  intros Hne. induction d as [|[k0 v0] d IH]; cbn.
  - assert (String.eqb k' k = false) as -> by (apply String.eqb_neq; congruence).
    done.
  - destruct (String.eqb_spec k k0) as [->|Hne0]; cbn.
    + assert (String.eqb k' k0 = false) as -> by (apply String.eqb_neq; congruence).
      done.
    + by rewrite IH.
Qed.

(** The keys that were there keep their places. *)
Lemma dict_store_keys_prefix {V} k (v : V) d :
  map fst d `prefix_of` map fst (dict_store k v d).
Proof.
  induction d as [|[k' v'] d IH]; cbn.
  - apply prefix_nil.
  - destruct (String.eqb_spec k k') as [->|Hne]; cbn; [done|].
    by apply prefix_cons.
Qed.

(** ** Running the operations on objects *)

Lemma py_setitem_run st a d k x :
  mem st !! a = Some (ODict d) ->
  py_setitem (VRef a) k x st
  = (Ok tt, with_mem (<[a := ODict (dict_store k x d)]> (mem st)) st).
Proof.
  intros Ha. unfold py_setitem, bind, deref. by rewrite Ha.
Qed.

Lemma py_get_run st a d k dflt :
  mem st !! a = Some (ODict d) ->
  py_get (VRef a) k dflt st = (Ok (from_option id dflt (dict_lookup k d)), st).
Proof.
  intros Ha. unfold py_get, bind, deref. by rewrite Ha.
Qed.

Lemma bind_run {A B} (m : M A) (k : A -> M B) st :
  bind m k st = match m st with
                | (Ok a, st') => k a st'
                | (Raise e, st') => (Raise e, st')
                end.
Proof. reflexivity. Qed.

Lemma get_self_run st : get_self st = (Ok (self st), st).
Proof. reflexivity. Qed.

(** Reading never changes the state. *)
Lemma py_get_read v k dflt st :
  py_get v k dflt st
  = (match v with
     | VRef a =>
         match mem st !! a with
         | Some (ODict d) => Ok (from_option id dflt (dict_lookup k d))
         | Some (OList _) => Raise AttributeError
         | None => Raise SystemError
         end
     | _ => Raise AttributeError
     end, st).
Proof.
  destruct v as [| | | |a]; try done.
  unfold py_get, bind, deref. by destruct (mem st !! a) as [[]|].
Qed.

Lemma py_strip_read v st :
  py_strip v st
  = (match v with VStr s => Ok (PyStr.strip s) | _ => Raise AttributeError end, st).
Proof. by destruct v. Qed.

Lemma profile_at_read st idx :
  profile_at idx st
  = (match profiles (self st) !! idx with
     | Some it => Ok it
     | None => Raise IndexError
     end, st).
Proof.
  unfold profile_at, bind, get_self. cbv beta iota.
  by destruct (profiles (self st) !! idx).
Qed.

Lemma profile_at_run st idx it :
  profiles (self st) !! idx = Some it -> profile_at idx st = (Ok it, st).
Proof.
  intros Hit. unfold profile_at, bind, get_self. cbv beta iota. by rewrite Hit.
Qed.

(** ** [save_changes] *)

(** C7. [save_changes] writes the three entry fields into the selected
    record and nothing else: the record keeps every other key with its
    value and its place, and every other object (the other records of the
    list, the list, the rest of the document, the other documents) is
    what it was. *)
Theorem save_changes_writes_three_fields
    (loads : string -> option json) (dumps : json -> string)
    (tk_other : heap -> pyval -> string)
    (st : state) (idx : nat) (it : item) (a : addr) (d : list (string * pyval)) :
  selected_profile_index (self st) = Some idx ->
  profiles (self st) !! idx = Some it ->
  profile it = VRef a ->
  mem st !! a = Some (ODict d) ->
  let st' := snd (save_changes loads dumps tk_other st) in
  let d' := written_record (self st) d in
  mem st' !! a = Some (ODict d')
  /\ dict_lookup "name" d' = Some (VStr (name_entry_var (self st)))
  /\ dict_lookup "applicationPath" d' = Some (VStr (app_path_var (self st)))
  /\ dict_lookup "posterPath" d' = Some (VStr (icon_path_var (self st)))
  /\ (forall k, k <> "name" -> k <> "applicationPath" -> k <> "posterPath" ->
        dict_lookup k d' = dict_lookup k d)
  /\ map fst d `prefix_of` map fst d'
  /\ (forall b o, b <> a -> mem st !! b = Some o -> mem st' !! b = Some o).
Proof.
  intros Hsel Hit Hprof Ha st' d'.
  assert (a < length (mem st))%nat as Hlt by (by eapply lookup_lt_Some).
  set (h3 := <[a := ODict d']> (mem st)).
  assert (h3 `prefix_of` mem st') as Hpre.
  { subst st'. unfold save_changes.
    rewrite (bind_ok _ _ st (self st) st) by done.
    rewrite Hsel.
    rewrite (bind_ok _ _ st it st) by (by apply profile_at_run).
    rewrite Hprof.
    erewrite bind_ok by (by apply py_setitem_run).
    erewrite bind_ok.
    2:{ apply py_setitem_run. cbn [mem with_mem]. by apply list_lookup_insert_eq. }
    erewrite bind_ok.
    2:{ apply py_setitem_run. cbn [mem with_mem].
        rewrite list_lookup_insert_eq; [done|]. by rewrite length_insert. }
    cbn [with_mem mem]. rewrite !list_insert_insert_eq.
    match goal with
    | |- _ `prefix_of` mem (snd (?m ?s)) =>
        assert (appends m) as Happ; [|exact (Happ s)]
    end.
    repeat first
      [ apply appends_save_profile_to_db
      | apply allocates_appends, allocates_reload
      | apply allocates_appends, allocates_populate_list
      | apply allocates_appends, allocates_py_getitem
      | apply allocates_appends, allocates_select_by_name
      | apply appends_ret
      | apply appends_bind; [|intros ?] | progress case_match ]. }
  split.
  { eapply prefix_lookup_Some; [|exact Hpre]. subst h3.
    by apply list_lookup_insert_eq. }
  subst d'. unfold written_record.
  split; [by rewrite !dict_lookup_store_ne, dict_lookup_store_eq by done|].
  split; [by rewrite dict_lookup_store_ne, dict_lookup_store_eq by done|].
  split; [by rewrite dict_lookup_store_eq|].
  split.
  { intros k H1 H2 H3. by rewrite !dict_lookup_store_ne by done. }
  split.
  { etrans; [|apply dict_store_keys_prefix].
    etrans; [|apply dict_store_keys_prefix]. apply dict_store_keys_prefix. }
  intros b o Hb Hbo. eapply prefix_lookup_Some; [|exact Hpre].
  subst h3. by rewrite list_lookup_insert_ne.
Qed.

Lemma save_changes_writes_three_fields_witness :
  let d := [("applicationId", VStr "id-1"); ("name", VStr "b");
            ("categoryColors", VRef 0%nat); ("posterPath", VStr "C:\old.png")] in
  let st' := snd (Demo.save_changes Demo.editing) in
  let d' := written_record (self Demo.editing) d in
  mem st' !! 1%nat = Some (ODict d')
  /\ dict_lookup "name" d' = Some (VStr "Zed")
  /\ dict_lookup "applicationPath" d' = Some (VStr "C:\app.exe")
  /\ dict_lookup "posterPath" d' = Some (VStr "C:\new.bmp")
  /\ (forall k, k <> "name" -> k <> "applicationPath" -> k <> "posterPath" ->
        dict_lookup k d' = dict_lookup k d)
  /\ map fst d `prefix_of` map fst d'
  /\ (forall b o, b <> 1%nat -> mem Demo.editing !! b = Some o -> mem st' !! b = Some o).
Proof.
  apply (save_changes_writes_three_fields
           JsonText.loads JsonText.dumps Demo.tk_other Demo.editing 1%nat
           (Item 1 (VRef 5%nat) (VRef 1%nat)) 1%nat); reflexivity.
Defined.

(** The document as it is stored after the edit: the record keeps its
    identifier and its colours, and the other record is as it was. *)
Example save_changes_stored :
  Demo.stored (snd (Demo.save_changes Demo.editing))
  = [(1, Some (Demo.document
                 [JObj [("applicationId", JStr "id-1"); ("name", JStr "Zed");
                        ("categoryColors", JArr [JInt 1; JInt 2]);
                        ("posterPath", JStr "C:\new.bmp");
                        ("applicationPath", JStr "C:\app.exe")];
                  Demo.record "A"]))].
Proof. reflexivity. Qed.

(** ** The display order *)

Lemma ltb_false_leb x y : PyStr.ltb y x = false <-> String.leb x y = true.
Proof.
  unfold PyStr.ltb, String.ltb, String.leb.
  rewrite (String.compare_antisym x y).
  destruct (String.compare y x); cbn; intuition congruence.
Qed.

Lemma leb_trans x y z :
  String.leb x y = true -> String.leb y z = true -> String.leb x z = true.
Proof.
  intros Hxy Hyz.
  pose proof (@transitivity _ String.le _ x y z) as Ht.
  unfold String.le in Ht. apply Is_true_true, Ht; by apply Is_true_true.
Qed.

Section Sorting.
Context {A : Type}.
Implicit Types (x y : string * A) (l : list (string * A)).

Lemma insert_by_key_perm x l : insert_by_key x l ≡ₚ x :: l.
Proof.
  induction l as [|y l IH]; cbn; [done|].
  destruct (PyStr.ltb (fst y) (fst x)); [|done].
  rewrite IH. apply Permutation_swap.
Qed.

Lemma sort_by_key_perm l : sort_by_key l ≡ₚ l.
Proof.
  induction l as [|x l IH]; cbn; [done|].
  by rewrite insert_by_key_perm, IH.
Qed.

Lemma insert_by_key_sorted x l :
  StronglySorted key_le l -> StronglySorted key_le (insert_by_key x l).
Proof.
  induction l as [|y l IH]; cbn; intros Hs.
  - by repeat constructor.
  - apply StronglySorted_cons in Hs as [Hy Hs].
    destruct (PyStr.ltb (fst y) (fst x)) eqn:Hlt.
    + apply StronglySorted_cons. split; [|by apply IH].
      rewrite insert_by_key_perm. constructor; [|done].
      unfold key_le. unfold PyStr.ltb, String.ltb in Hlt.
      unfold String.leb. by destruct (String.compare (fst y) (fst x)).
    + apply ltb_false_leb in Hlt.
      apply StronglySorted_cons. split; [|by apply StronglySorted_cons].
      constructor; [done|].
      eapply Forall_impl; [exact Hy|]. intros z Hz. by eapply leb_trans.
Qed.

Lemma sort_by_key_sorted l : StronglySorted key_le (sort_by_key l).
Proof.
  induction l as [|x l IH]; cbn; [constructor|].
  by apply insert_by_key_sorted.
Qed.

(** Among equal keys the order of arrival is kept. *)
Lemma insert_by_key_stable k x l :
  filter (fun y => fst y = k) (insert_by_key x l)
  = filter (fun y => fst y = k) (x :: l).
Proof.
  induction l as [|y l IH]; [done|].
  cbn [insert_by_key]. destruct (PyStr.ltb (fst y) (fst x)) eqn:Hlt; [|done].
  rewrite !filter_cons, IH, filter_cons.
  destruct (decide (fst x = k)) as [Hx|Hx], (decide (fst y = k)) as [Hy|Hy];
    try done.
  exfalso. rewrite <- Hx in Hy. rewrite Hy in Hlt.
  unfold PyStr.ltb, String.ltb in Hlt.
  pose proof (String.compare_antisym (fst x) (fst x)) as Has.
  by destruct (String.compare (fst x) (fst x)).
Qed.

Lemma sort_by_key_stable k l :
  filter (fun y => fst y = k) (sort_by_key l) = filter (fun y => fst y = k) l.
Proof.
  induction l as [|x l IH]; [done|].
  cbn [sort_by_key]. by rewrite insert_by_key_stable, !filter_cons, IH.
Qed.

End Sorting.

Lemma sort_key_run st it k :
  name_key (mem st) it = Some k -> sort_key it st = (Ok k, st).
Proof.
  unfold name_key, sort_key, py_get, bind, deref.
  destruct (profile it) as [| | | |a]; try done.
  destruct (mem st !! a) as [[d|]|]; try done.
  destruct (dict_lookup "name" d) as [[| | |s|]|]; cbn; try done.
  all: by intros [= <-].
Qed.

Lemma traverse_sort_key_run st l :
  Forall (fun it => is_Some (name_key (mem st) it)) l ->
  traverse sort_key l st = (Ok (map (display_key (mem st)) l), st).
Proof.
  induction 1 as [|it l [k Hk] _ IH]; cbn; [done|].
  rewrite (bind_ok _ _ _ _ _ (sort_key_run st it k Hk)).
  rewrite (bind_ok _ _ _ _ _ IH).
  unfold ret, display_key. by rewrite Hk.
Qed.

Lemma zip_map_key {A} (f : A -> string) (l : list A) :
  zip (map f l) l = map (fun x => (f x, x)) l.
Proof. induction l; cbn; by f_equal. Qed.

Lemma filter_key_map_snd {A} (f : A -> string) k (l : list (string * A)) :
  Forall (fun p => fst p = f (snd p)) l ->
  filter (fun x => f x = k) (map snd l) = map snd (filter (fun p => fst p = k) l).
Proof.
  induction 1 as [|p l Hp _ IH]; [done|].
  cbn [map]. rewrite !filter_cons, IH.
  destruct (decide (f (snd p) = k)), (decide (fst p = k)); try done; congruence.
Qed.

(** C8. [all_profiles.sort(key=...)] returns the handles ordered by
    their lower-cased names, and handles with the same lower-cased name
    stay in the order in which they were met. *)
Theorem display_order_sorted_and_stable (st : state) (l : list item) :
  Forall (fun it => is_Some (name_key (mem st) it)) l ->
  exists l',
    sort_profiles l st = (Ok l', st)
    /\ l' ≡ₚ l
    /\ StronglySorted
         (fun x y => String.leb (display_key (mem st) x) (display_key (mem st) y) = true)
         l'
    /\ forall k,
        filter (fun it => display_key (mem st) it = k) l'
        = filter (fun it => display_key (mem st) it = k) l.
Proof.
  intros Hkeys. set (key := display_key (mem st)).
  set (pairs := map (fun x => (key x, x)) l).
  exists (map snd (sort_by_key pairs)).
  assert (Forall (fun p : string * item => fst p = key (snd p)) (sort_by_key pairs))
    as Hfst.
  { rewrite sort_by_key_perm. subst pairs. apply Forall_forall.
    intros p [x [-> _]]%list_elem_of_fmap. done. }
  assert (map snd pairs = l) as Hsnd.
  { subst pairs. rewrite <- list_fmap_compose. cbn. apply list_fmap_id. }
  split.
  { unfold sort_profiles.
    rewrite (bind_ok _ _ _ _ _ (traverse_sort_key_run st l Hkeys)).
    by rewrite zip_map_key. }
  split.
  { by rewrite sort_by_key_perm, Hsnd. }
  split.
  { pose proof (sort_by_key_sorted pairs) as Hs.
    induction Hs as [|p ps Hs IH Hp]; cbn; [constructor|].
    apply Forall_cons in Hfst as [Hp1 Hfst].
    constructor; [by apply IH|].
    apply Forall_fmap. eapply Forall_impl.
    { apply Forall_and. split; [exact Hp | exact Hfst]. }
    intros q [Hle Hq]. cbn. unfold key_le in Hle. by rewrite <- Hp1, <- Hq. }
  intros k.
  rewrite (filter_key_map_snd key k _ Hfst), sort_by_key_stable.
  rewrite <- (filter_key_map_snd key k pairs), Hsnd; [done|].
  subst pairs. apply Forall_forall. by intros p [x [-> _]]%list_elem_of_fmap.
Qed.

(** Names [b], [A], [c] are shown as [A], [b], [c]. *)
Example display_order_b_A_c :
  Demo.shown_names Demo.b_A_c = [Some (JStr "A"); Some (JStr "b"); Some (JStr "c")].
Proof. reflexivity. Qed.

Lemma display_order_sorted_and_stable_witness :
  let st := Demo.boot [] in
  let st := snd (foldM (load_row JsonText.loads) []
                   [(1, Demo.blob (Demo.document
                          [Demo.record "b"; Demo.record "A"; Demo.record "B"]))] st) in
  let l := [Item 1 (VRef 5%nat) (VRef 0%nat); Item 1 (VRef 5%nat) (VRef 1%nat);
            Item 1 (VRef 5%nat) (VRef 2%nat)] in
  exists l',
    sort_profiles l st = (Ok l', st)
    /\ l' ≡ₚ l
    /\ StronglySorted
         (fun x y => String.leb (display_key (mem st) x) (display_key (mem st) y) = true)
         l'
    /\ forall k,
        filter (fun it => display_key (mem st) it = k) l'
        = filter (fun it => display_key (mem st) it = k) l.
Proof.
  apply display_order_sorted_and_stable.
  repeat constructor; by eexists.
Defined.

(** ** Strings *)

Lemma chars_str l : PyStr.chars (PyStr.str l) = l.
Proof. apply list_ascii_of_string_of_list_ascii. Qed.

Lemma str_chars s : PyStr.str (PyStr.chars s) = s.
Proof. apply string_of_list_ascii_of_string. Qed.

Lemma str_app l1 l2 : PyStr.str (l1 ++ l2) = PyStr.str l1 +:+ PyStr.str l2.
Proof.
  unfold PyStr.str. induction l1 as [|c l1 IH]; cbn; [done|].
  rewrite IH. reflexivity.
Qed.

Lemma chars_app s1 s2 : PyStr.chars (s1 +:+ s2) = PyStr.chars s1 ++ PyStr.chars s2.
Proof.
  unfold PyStr.chars. induction s1 as [|c s1 IH]; [done|].
  change (String c s1 +:+ s2) with (String c (s1 +:+ s2)). cbn. by rewrite IH.
Qed.

Lemma str_nil_iff l : PyStr.str l = EmptyString <-> l = [].
Proof. by destruct l. Qed.

Lemma lstrip_suffix l : PyStr.lstrip l `suffix_of` l.
Proof.
  induction l as [|c l IH]; cbn; [done|].
  destruct (PyStr.isspace c); [by apply suffix_cons_r | done].
Qed.

Lemma Forall_lstrip (P : ascii -> Prop) l : Forall P l -> Forall P (PyStr.lstrip l).
Proof.
  intros H. destruct (lstrip_suffix l) as [k Hk].
  rewrite Hk in H. by apply Forall_app in H as [_ H].
Qed.

Lemma Forall_rstrip (P : ascii -> Prop) l : Forall P l -> Forall P (PyStr.rstrip l).
Proof.
  intros H. unfold PyStr.rstrip.
  by apply List.Forall_rev, Forall_lstrip, List.Forall_rev.
Qed.

(** The name computed by the two lines of [browse_icon] is [sanitize]. *)
Lemma safe_name_is_sanitize name :
  safe_name_of (PyStr.or_else (PyStr.strip name) "app_unknown") = sanitize name.
Proof.
  unfold sanitize, safe_name_of.
  replace (PyStr.or_else (PyStr.strip name) "app_unknown")
    with (match PyStr.strip name with
          | EmptyString => "app_unknown"
          | s => s
          end) by (by destruct (PyStr.strip name)).
  set (shown := match PyStr.strip name with EmptyString => _ | s => s end).
  unfold PyStr.replace_space, PyStr.strip, PyStr.re_sub_nonword.
  rewrite !chars_str.
  assert (filter (fun c => negb (PyStr.stripped_class c) = true) (PyStr.chars shown)
          = filter (fun c => PyStr.isword c = true \/ PyStr.isspace c = true
                             \/ c = "-"%char) (PyStr.chars shown)) as ->.
  { apply list_filter_iff. intros c. unfold PyStr.stripped_class.
    rewrite negb_involutive, !orb_true_iff.
    by destruct (Ascii.eqb_spec c "-"); intuition. }
  set (trimmed := PyStr.rstrip (PyStr.lstrip _)).
  assert (map (fun c => if Ascii.eqb c " " then "_"%char else c) trimmed
          = map (fun c => if decide (c = " "%char) then "_"%char else c) trimmed) as ->.
  { apply map_ext. intros c. by destruct (Ascii.eqb_spec c " "), (decide (c = " "%char)). }
  by destruct (map _ trimmed).
Qed.

Lemma sanitize_nonempty name : sanitize name <> EmptyString.
Proof.
  unfold sanitize. by destruct (map _ _).
Qed.

(** What [sanitize] returns contains word characters, hyphens and white
    space other than the space, and nothing else. *)
Lemma sanitize_chars name :
  Forall (fun c => (PyStr.isword c = true \/ PyStr.isspace c = true \/ c = "-"%char)
                   /\ c <> " "%char)
         (PyStr.chars (sanitize name)).
Proof.
  unfold sanitize.
  set (shown := match PyStr.strip name with EmptyString => _ | s => s end).
  set (P := fun c => PyStr.isword c = true \/ PyStr.isspace c = true \/ c = "-"%char).
  set (trimmed := PyStr.rstrip (PyStr.lstrip (filter P (PyStr.chars shown)))).
  assert (Forall P trimmed) as Htrim.
  { apply Forall_rstrip, Forall_lstrip, Forall_forall.
    by intros c [Hc _]%list_elem_of_filter. }
  destruct (map _ trimmed) eqn:Hmap.
  { cbn. repeat (apply Forall_cons_2; [split; [by left | done]|]).
    apply Forall_nil_2. }
  rewrite <- Hmap, chars_str. apply Forall_fmap.
  eapply Forall_impl; [exact Htrim|]. intros c Hc. cbn.
  destruct (decide (c = " "%char)); [split; [by left | done] | done].
Qed.

Lemma splitext_app is_sep p :
  p = fst (OsPath.splitext is_sep p) +:+ snd (OsPath.splitext is_sep p).
Proof.
  unfold OsPath.splitext. case_match; cbn [fst snd].
  - by rewrite <- str_app, take_drop, str_chars.
  - clear. induction p as [|c p IH]; [done|].
    change (String c p +:+ "") with (String c (p +:+ "")). by rewrite <- IH.
Qed.

(** ** [browse_icon] *)

Section Icon.
Variable is_sep : ascii -> bool.
Variable path_join : string -> string -> string.
Variable image : Type.
Variable decode_image : string -> option image.
Variable encode_bmp : image -> option string.
Variable write_ok : string -> bool.
Variable save_debris : image -> string -> gmap string string -> gmap string string.

Local Abbreviation browse_icon :=
  (browse_icon is_sep path_join image decode_image encode_bmp write_ok save_debris).
Local Abbreviation image_open := (image_open image decode_image).
Local Abbreviation image_save := (image_save image encode_bmp write_ok save_debris).

Lemma image_open_run st file_path :
  image_open file_path st
  = (match opened decode_image st file_path with
     | Some img => Ok img
     | None => Raise OSError
     end, st).
Proof.
  unfold image_open, opened. destruct (files st !! file_path) as [bytes|]; [|done].
  by destruct (decode_image bytes).
Qed.

(** A save either writes the whole file or raises. *)
Lemma image_save_run st img target :
  image_save img target st
  = match encode_bmp img with
    | Some bytes =>
        if write_ok target
        then (Ok tt, with_files (<[target := bytes]> (files st)) st)
        else (Raise OSError, with_files (save_debris img target (files st)) st)
    | None => (Raise OSError, with_files (save_debris img target (files st)) st)
    end.
Proof. reflexivity. Qed.

(** What [browse_icon] does, case by case: it links the record to a new
    file only when the source opens and the bitmap is written; in every
    other case no object changes. *)
Lemma try_open_run st file_path :
  try_except (let* img := image_open file_path in ret (Some img))%py
             (fun _ => ret None) st
  = (Ok (opened decode_image st file_path), st).
Proof.
  unfold try_except. rewrite bind_run, image_open_run.
  by destruct (opened decode_image st file_path).
Qed.

Lemma try_save_run st img target :
  try_except (let* _ := image_save img target in ret true)%py
             (fun _ => ret false) st
  = match encode_bmp img with
    | Some bytes =>
        if write_ok target
        then (Ok true, with_files (<[target := bytes]> (files st)) st)
        else (Ok false, with_files (save_debris img target (files st)) st)
    | None => (Ok false, with_files (save_debris img target (files st)) st)
    end.
Proof.
  unfold try_except. rewrite bind_run, image_save_run.
  destruct (encode_bmp img); [|done]. by destruct (write_ok target).
Qed.

Lemma browse_icon_cases st file_path :
  let res := browse_icon file_path st in
  (mem (snd res) = mem st /\ self (snd res) = self st /\ db (snd res) = db st
   /\ (opened decode_image st file_path = None -> snd res = st)
   /\ (forall img t,
         opened decode_image st file_path = Some img ->
         derived_target is_sep path_join st = Some t ->
         file_path <> EmptyString ->
         encode_bmp img = None \/ write_ok t = false))
  \/ (exists a d img bytes t,
        selected_record st = Some (a, d)
        /\ file_path <> EmptyString
        /\ opened decode_image st file_path = Some img
        /\ derived_target is_sep path_join st = Some t
        /\ encode_bmp img = Some bytes
        /\ write_ok t = true
        /\ res = (Ok tt, icon_set a d t bytes st)).
Proof.
  intros res. subst res.
  unfold browse_icon, derived_target, selected_record, str_field, target_path.
  rewrite bind_run, get_self_run. cbv beta iota.
  destruct (selected_profile_index (self st)) as [idx|]; [|left; by cbn].
  destruct (String.eqb_spec file_path "") as [->|Hfile]; [left; cbn; by intuition|].
  rewrite bind_run, try_open_run. cbv beta iota.
  destruct (opened decode_image st file_path) as [img|] eqn:Hopen;
    [|left; cbn; by intuition].
  rewrite bind_run, profile_at_read. cbv beta iota.
  destruct (profiles (self st) !! idx) as [it|] eqn:Hit; [|left; cbn; by intuition].
  rewrite bind_run, py_get_read. cbv beta iota.
  destruct (profile it) as [| | | |a] eqn:Hprof; try (left; cbn; by intuition).
  destruct (mem st !! a) as [[d|l]|] eqn:Ha; try (left; cbn; by intuition).
  rewrite bind_run, py_strip_read. cbv beta iota.
  destruct (dict_lookup "posterPath" d) as [[| | |poster|]|] eqn:Hposter;
    cbn [from_option id]; cbv beta iota; try (left; cbn; by intuition).
  all: rewrite bind_run, py_get_read, Ha; cbv beta iota.
  all: rewrite bind_run, py_strip_read; cbv beta iota.
  all: destruct (dict_lookup "name" d) as [[| | |name|]|] eqn:Hname;
    cbn [from_option id]; cbv beta iota; try (left; cbn; by intuition).
  all: match goal with
       | |- context [final_path_of ?s ?j ?c ?p ?n] =>
           set (t := final_path_of s j c p n)
       end.
  all: rewrite bind_run, try_save_run.
  all: destruct (encode_bmp img) as [bytes|] eqn:Henc.
  all: try destruct (write_ok t) eqn:Hw.
  all: cbv beta iota.
  all: try (left; cbn; split_and!; try done; intros ?? [= <-] [= <-] ?; by auto).
  all: right; exists a, d, img, bytes, t; split_and!; try done.
  all: rewrite bind_run; erewrite py_setitem_run by exact Ha; reflexivity.
Qed.

End Icon.

(** C4. [browse_icon] changes no object when the source does not open or
    the bitmap is not written; the record is linked to the derived target
    path, and only in its [posterPath], when both steps succeed. *)
Theorem browse_icon_failure_keeps_record
    (is_sep : ascii -> bool) (path_join : string -> string -> string)
    (image : Type) (decode_image : string -> option image)
    (encode_bmp : image -> option string) (write_ok : string -> bool)
    (save_debris : image -> string -> gmap string string -> gmap string string)
    (st : state) (file_path : string) :
  let st' := snd (browse_icon is_sep path_join image decode_image encode_bmp
                    write_ok save_debris file_path st) in
  (opened decode_image st file_path = None -> st' = st)
  /\ (forall img t,
        opened decode_image st file_path = Some img ->
        derived_target is_sep path_join st = Some t ->
        encode_bmp img = None \/ write_ok t = false ->
        mem st' = mem st)
  /\ (mem st' <> mem st ->
      exists a d img bytes t,
        selected_record st = Some (a, d)
        /\ opened decode_image st file_path = Some img
        /\ derived_target is_sep path_join st = Some t
        /\ encode_bmp img = Some bytes
        /\ write_ok t = true
        /\ mem st' = <[a := ODict (dict_store "posterPath" (VStr t) d)]> (mem st)).
Proof.
  intros st'. subst st'.
  destruct (browse_icon_cases is_sep path_join image decode_image encode_bmp
              write_ok save_debris st file_path)
    as [(Hmem & _ & _ & Hnone & _)
       |(a & d & img & bytes & t & Hrec & _ & Hopen & Ht & Henc & Hw & Hres)].
  - split_and!; [done | done | by intros []].
  - rewrite Hres. cbn [snd]. split_and!.
    + intros Hnone. by rewrite Hnone in Hopen.
    + intros img' t' Hopen' Ht' [Hnone|Hfalse].
      * rewrite Hopen in Hopen'. injection Hopen' as <-. by rewrite Hnone in Henc.
      * rewrite Ht in Ht'. injection Ht' as <-. by rewrite Hfalse in Hw.
    + intros _. by exists a, d, img, bytes, t.
Qed.

(** A file that is no image, a disk that cannot be written, and a
    picture that is converted. *)
Lemma browse_icon_failure_keeps_record_witness :
  snd (Demo.browse_icon "C:\pics\broken.png" (Demo.browsing "My: App?" ""))
  = Demo.browsing "My: App?" ""
  /\ mem (snd (browse_icon Demo.is_sep Demo.path_join Demo.image Demo.decode_image
                 Demo.encode_bmp (fun _ => false) Demo.save_debris
                 "C:\pics\app.png" (Demo.browsing "My: App?" "")))
     = mem (Demo.browsing "My: App?" "")
  /\ selected_poster (snd (Demo.browse_icon "C:\pics\app.png"
                             (Demo.browsing "My: App?" "")))
     = Some (VStr "C:\db\icon_cache\My_App.bmp").
Proof.
  split_and!.
  - apply (browse_icon_failure_keeps_record Demo.is_sep Demo.path_join
             Demo.image Demo.decode_image Demo.encode_bmp Demo.write_ok
             Demo.save_debris (Demo.browsing "My: App?" "") "C:\pics\broken.png").
    reflexivity.
  - apply (browse_icon_failure_keeps_record Demo.is_sep Demo.path_join
             Demo.image Demo.decode_image Demo.encode_bmp (fun _ => false)
             Demo.save_debris (Demo.browsing "My: App?" "") "C:\pics\app.png")
      with (img := "PNGDATA") (t := "C:\db\icon_cache\My_App.bmp");
      [reflexivity | reflexivity | by right].
  - reflexivity.
Defined.

(** C5, as the program has it. For a selected record whose [posterPath]
    and [name] are strings (a missing one reads as empty), a
    [browse_icon] that opens the source and writes the bitmap links the
    record to this path: when the trimmed [posterPath] is not empty, that
    path with the extension [os.path.splitext] finds in it replaced by
    [.bmp]; otherwise the cache folder joined with [sanitize name] and
    [.bmp]. [sanitize] never returns the empty string, and what it
    returns has no character outside the word characters, the hyphen and
    the white space other than the space. *)
Theorem browse_icon_target_path_derivation
    (is_sep : ascii -> bool) (path_join : string -> string -> string)
    (image : Type) (decode_image : string -> option image)
    (encode_bmp : image -> option string) (write_ok : string -> bool)
    (save_debris : image -> string -> gmap string string -> gmap string string)
    (st : state) (file_path : string)
    (a : addr) (d : list (string * pyval)) (poster name : string)
    (img : image) (bytes : string) :
  selected_record st = Some (a, d) ->
  str_field "posterPath" d = Some poster ->
  str_field "name" d = Some name ->
  file_path <> EmptyString ->
  opened decode_image st file_path = Some img ->
  let t := match PyStr.strip poster with
           | EmptyString =>
               path_join (icon_cache_folder (self st)) (sanitize name +:+ ".bmp")
           | p => fst (OsPath.splitext is_sep p) +:+ ".bmp"
           end in
  encode_bmp img = Some bytes ->
  write_ok t = true ->
  browse_icon is_sep path_join image decode_image encode_bmp write_ok
    save_debris file_path st = (Ok tt, icon_set a d t bytes st)
  /\ PyStr.strip poster
     = fst (OsPath.splitext is_sep (PyStr.strip poster))
       +:+ snd (OsPath.splitext is_sep (PyStr.strip poster))
  /\ sanitize name <> EmptyString
  /\ Forall (fun c => (PyStr.isword c = true \/ PyStr.isspace c = true
                       \/ c = "-"%char) /\ c <> " "%char)
            (PyStr.chars (sanitize name)).
Proof.
  intros Hrec Hposter Hname Hfile Hopen t Henc Hw.
  split; [|split_and!; [apply splitext_app | apply sanitize_nonempty
                        | apply sanitize_chars]].
  assert (derived_target is_sep path_join st = Some t) as Ht.
  { unfold derived_target. rewrite Hrec, Hposter, Hname. f_equal.
    unfold target_path, final_path_of. rewrite safe_name_is_sanitize.
    subst t. by destruct (PyStr.strip poster). }
  destruct (browse_icon_cases is_sep path_join image decode_image encode_bmp
              write_ok save_debris st file_path)
    as [(_ & _ & _ & _ & Hfail)
       |(a' & d' & img' & bytes' & t' & Hrec' & _ & Hopen' & Ht' & Henc' & _ & Hres)].
  - destruct (Hfail img t Hopen Ht Hfile) as [Hnone|Hfalse]; congruence.
  - rewrite Hres. congruence.
Qed.

(** The three cases of [sanitize]. *)
Example sanitize_examples :
  sanitize "My: App?" = "My_App"
  /\ sanitize "" = "app_unknown"
  /\ sanitize "?!" = "icon".
Proof. by vm_compute. Qed.

Lemma browse_icon_target_path_derivation_witness :
  Demo.browse_icon "C:\pics\app.png" (Demo.browsing "My: App?" " C:\icons\old.png ")
  = (Ok tt, icon_set 0%nat
              [("name", VStr "My: App?"); ("applicationPath", VStr "");
               ("posterPath", VStr " C:\icons\old.png ")]
              "C:\icons\old.bmp" "BMPNGDATA"
              (Demo.browsing "My: App?" " C:\icons\old.png "))
  /\ PyStr.strip " C:\icons\old.png "
     = fst (OsPath.splitext Demo.is_sep (PyStr.strip " C:\icons\old.png "))
       +:+ snd (OsPath.splitext Demo.is_sep (PyStr.strip " C:\icons\old.png "))
  /\ sanitize "My: App?" <> EmptyString
  /\ Forall (fun c => (PyStr.isword c = true \/ PyStr.isspace c = true
                       \/ c = "-"%char) /\ c <> " "%char)
            (PyStr.chars (sanitize "My: App?")).
Proof.
  apply (browse_icon_target_path_derivation Demo.is_sep Demo.path_join
           Demo.image Demo.decode_image Demo.encode_bmp Demo.write_ok
           Demo.save_debris (Demo.browsing "My: App?" " C:\icons\old.png ")
           "C:\pics\app.png" 0%nat _ " C:\icons\old.png " "My: App?" "PNGDATA");
    by vm_compute.
Defined.

(** The rule with one placeholder and untrimmed fields is not what
    [browse_icon] computes: an empty name gives [app_unknown] while a
    name of which nothing is left gives [icon], and an icon path of one
    space counts as no icon path. *)
Lemma browse_icon_target_path_counterexample :
  selected_poster (snd (Demo.browse_icon "C:\pics\app.png" (Demo.browsing "" "")))
  = Some (VStr "C:\db\icon_cache\app_unknown.bmp")
  /\ selected_poster (snd (Demo.browse_icon "C:\pics\app.png" (Demo.browsing "?!" "")))
     = Some (VStr "C:\db\icon_cache\icon.bmp")
  /\ selected_poster (snd (Demo.browse_icon "C:\pics\app.png" (Demo.browsing "x" " ")))
     = Some (VStr "C:\db\icon_cache\x.bmp")
  /\ (forall placeholder,
        ~ (one_placeholder_target Demo.is_sep Demo.path_join placeholder
             "C:\db\icon_cache" "" "" = "C:\db\icon_cache\app_unknown.bmp"
           /\ one_placeholder_target Demo.is_sep Demo.path_join placeholder
                "C:\db\icon_cache" "" "?!" = "C:\db\icon_cache\icon.bmp"))
  /\ (forall placeholder,
        one_placeholder_target Demo.is_sep Demo.path_join placeholder
          "C:\db\icon_cache" " " "x" <> "C:\db\icon_cache\x.bmp").
Proof.
  split_and!; try by vm_compute.
  intros placeholder [H1 H2]. vm_compute in H1, H2.
  rewrite H1 in H2. discriminate H2.
Qed.

(** ** [add_entry] *)

Lemma alloc_run o st :
  alloc o st = (Ok (VRef (length (mem st))), with_mem (mem st ++ [o]) st).
Proof. reflexivity. Qed.

Lemma py_append_run st a l x :
  mem st !! a = Some (OList l) ->
  py_append (VRef a) x st
  = (Ok tt, with_mem (<[a := OList (l ++ [x])]> (mem st)) st).
Proof.
  intros Ha. unfold py_append, bind, deref. by rewrite Ha.
Qed.

Lemma save_profile_to_db_run dumps row_id v st :
  save_profile_to_db dumps row_id v st
  = (Ok tt, with_db (saved_rows dumps row_id v (mem st) st) st).
Proof.
  unfold save_profile_to_db, saved_rows, bind, get_state. cbv beta iota.
  destruct (py_dumps (mem st) v); [|by destruct st].
  destruct (db_write_fails st); by destruct st.
Qed.

Lemma section_of_get h dd sa sd :
  section_of h dd = Some (sa, sd) ->
  from_option id (VRef (length h)) (dict_lookup "applications" dd) = VRef sa
  /\ (h ++ [ODict []]) !! sa = Some (ODict sd).
Proof.
  unfold section_of. destruct (dict_lookup "applications" dd) as [[| | | |a]|]; try done.
  - destruct (h !! a) as [[d|]|] eqn:Ha; try done. intros [= <- <-].
    split; [done|]. by apply lookup_app_l_Some.
  - intros [= <- <-]. split; [done|]. by rewrite list_lookup_middle.
Qed.

Lemma records_of_get h sd la items o :
  records_of h sd = Some (la, items) ->
  from_option id (VRef (S (length h))) (dict_lookup "applications" sd) = VRef la
  /\ (h ++ [o; OList []]) !! la = Some (OList items).
Proof.
  unfold records_of. destruct (dict_lookup "applications" sd) as [[| | | |a]|]; try done.
  - destruct (h !! a) as [[|l]|] eqn:Ha; try done. intros [= <- <-].
    split; [done|]. by apply lookup_app_l_Some.
  - intros [= <- <-]. split; [done|].
    rewrite (lookup_app_r h) by lia. by replace (S (length h) - length h)%nat with 1%nat by lia.
Qed.

(** C2, as the program has it. When [self.profiles] is not empty,
    [add_entry] appends a new record with the five template fields to the
    end of the list of the document that owns the first handle of the
    display order, creating the two wrappers when the document lacks
    them, and writes that document to its row; nothing else changes. *)
Theorem add_entry_appends_to_first_shown_document
    (loads : string -> option json) (dumps : json -> string)
    (tk_other : heap -> pyval -> string)
    (st : state) (first : item) (rest : list item)
    (doc : addr) (dd : list (string * pyval))
    (sa : addr) (sd : list (string * pyval)) (la : addr) (items : list pyval) :
  profiles (self st) = first :: rest ->
  entire_json first = VRef doc ->
  mem st !! doc = Some (ODict dd) ->
  section_of (mem st) dd = Some (sa, sd) ->
  records_of (mem st) sd = Some (la, items) ->
  sa <> doc ->
  let st' := snd (add_entry loads dumps tk_other st) in
  let n := (length (mem st) + 2)%nat in
  let h := heap_after_add (mem st) doc dd sa sd la items in
  h `prefix_of` mem st'
  /\ db st' = saved_rows dumps (db_row_id first) (VRef doc) h st
  /\ h !! n = Some (ODict new_profile)
  /\ h !! la = Some (OList (items ++ [VRef n]))
  /\ h !! sa = Some (ODict (dict_store "applications" (VRef la) sd))
  /\ h !! doc = Some (ODict (dict_store "applications" (VRef sa) dd))
  /\ (forall b o, b <> la -> b <> sa -> b <> doc ->
        mem st !! b = Some o -> h !! b = Some o).
Proof.
  intros Hprofs Hdoc Hdd Hsec Hrec Hne st' n h.
  set (h0 := mem st) in *.
  set (h3 := h0 ++ [ODict []; OList []; ODict new_profile]).
  destruct (section_of_get _ _ _ _ Hsec) as [Hsa_get Hsa1].
  destruct (records_of_get _ _ _ _ (ODict []) Hrec) as [Hla_get Hla2].
  assert (h3 !! doc = Some (ODict dd)) as Hdoc3 by (by apply lookup_app_l_Some).
  assert (h3 !! sa = Some (ODict sd)) as Hsa3.
  { subst h3. change [ODict []; OList []; ODict new_profile]
      with ([ODict []] ++ [OList []; ODict new_profile]).
    rewrite app_assoc. by apply lookup_app_l_Some. }
  assert (h3 !! la = Some (OList items)) as Hla3.
  { subst h3. change [ODict []; OList []; ODict new_profile]
      with ([ODict []; OList []] ++ [ODict new_profile]).
    rewrite app_assoc. by apply lookup_app_l_Some. }
  assert (la <> sa) as Hla_sa by (intros ->; congruence).
  assert (la <> doc) as Hla_doc by (intros ->; congruence).
  assert (length h3 = (length h0 + 3)%nat) as Hlen3
    by (subst h3; rewrite length_app; cbn; lia).
  assert (la < length h3 /\ sa < length h3 /\ doc < length h3)%nat as (Hl1 & Hl2 & Hl3)
    by (split_and!; by eapply lookup_lt_Some).
  assert (h !! n = Some (ODict new_profile)
          /\ h !! la = Some (OList (items ++ [VRef n]))
          /\ h !! sa = Some (ODict (dict_store "applications" (VRef la) sd))
          /\ h !! doc = Some (ODict (dict_store "applications" (VRef sa) dd))
          /\ (forall b o, b <> la -> b <> sa -> b <> doc ->
                h0 !! b = Some o -> h !! b = Some o)) as Hlook.
  { subst h. unfold heap_after_add. fold h0 h3. split_and!.
    - assert (n <> doc /\ n <> sa /\ n <> la) as (? & ? & ?).
      { subst n h3. split_and!; intros <-.
        - apply lookup_lt_Some in Hdd. fold h0 in Hdd. lia.
        - rewrite (lookup_app_r h0) in Hsa1 by lia. 
          by replace (length h0 + 2 - length h0)%nat with 2%nat in Hsa1 by lia.
        - rewrite (lookup_app_r h0) in Hla2 by lia.
          by replace (length h0 + 2 - length h0)%nat with 2%nat in Hla2 by lia. }
      rewrite !list_lookup_insert_ne by done. subst h3 n.
      rewrite (lookup_app_r h0) by lia.
      by replace (length h0 + 2 - length h0)%nat with 2%nat by lia.
    - rewrite !list_lookup_insert_ne by done. by apply list_lookup_insert_eq.
    - rewrite list_lookup_insert_ne by done.
      apply list_lookup_insert_eq. by rewrite length_insert.
    - apply list_lookup_insert_eq. by rewrite !length_insert.
    - intros b o ? ? ? Hb. rewrite !list_lookup_insert_ne by done.
      by apply lookup_app_l_Some. }
  split; [|split; [|exact Hlook]].
  all: subst st'; unfold add_entry.
  all: rewrite bind_run, get_self_run; cbv beta iota; rewrite Hprofs, Hdoc.
  all: rewrite bind_run, alloc_run; cbv beta iota.
  all: rewrite bind_run, py_get_read; cbn [mem with_mem]; fold h0.
  all: rewrite (lookup_app_l_Some _ _ _ _ Hdd), Hsa_get; cbv beta iota.
  all: rewrite bind_run, alloc_run; cbn [mem with_mem]; cbv beta iota.
  all: rewrite length_app, Nat.add_1_r; cbn [length].
  all: rewrite bind_run, py_get_read; cbn [mem with_mem].
  all: rewrite (lookup_app_l_Some _ [OList []] _ _ Hsa1), Hla_get; cbv beta iota.
  all: rewrite bind_run, alloc_run; cbn [mem with_mem]; cbv beta iota.
  all: rewrite <- !app_assoc; cbn [app]; fold h3.
  all: rewrite !length_app; cbn [length].
  all: replace (length h0 + 1 + 1)%nat with n by (subst n; fold h0; lia).
  all: rewrite bind_run; erewrite py_append_run by exact Hla3; cbv beta iota.
  all: rewrite bind_run; erewrite py_setitem_run
         by (cbn [mem with_mem]; by rewrite list_lookup_insert_ne); cbv beta iota.
  all: rewrite bind_run; erewrite py_setitem_run
         by (cbn [mem with_mem]; by rewrite !list_lookup_insert_ne); cbv beta iota.
  all: cbn [mem with_mem]; fold (heap_after_add h0 doc dd sa sd la items); fold h.
  all: rewrite bind_run, save_profile_to_db_run; cbv beta iota; cbn [mem with_mem].
  all: match goal with
       | |- context [snd (?m ?s)] =>
           assert (allocates m) as Halloc;
           [|destruct (Halloc s) as (Hmem & Hdb & _ & _)]
       end.
  1,3: repeat first
         [ apply allocates_reload | apply allocates_populate_list
         | apply allocates_select_by_name
         | apply allocates_bind; [|intros ?] ].
  - exact Hmem.
  - rewrite Hdb. reflexivity.
Qed.

Lemma add_entry_appends_to_first_shown_document_witness :
  (let st := Demo.b_then_a in
   let st' := snd (Demo.add_entry st) in
   let h := heap_after_add (mem st) 8 [("applications", VRef 7%nat)]
              7 [("applications", VRef 6%nat)] 6 [VRef 5%nat] in
   h `prefix_of` mem st'
   /\ db st' = saved_rows JsonText.dumps 2 (VRef 8%nat) h st
   /\ h !! 6%nat = Some (OList [VRef 5%nat; VRef 12%nat])
   /\ h !! 12%nat = Some (ODict new_profile))
  /\ (let st := Demo.bare_document in
      let st' := snd (Demo.add_entry st) in
      let h := heap_after_add (mem st) 0 [("version", VInt 3)] 2 [] 3 [] in
      h `prefix_of` mem st'
      /\ h !! 3%nat = Some (OList [VRef 4%nat])
      /\ h !! 2%nat = Some (ODict [("applications", VRef 3%nat)])
      /\ h !! 0%nat = Some (ODict [("version", VInt 3); ("applications", VRef 2%nat)])).
Proof.
  split.
  - pose proof (add_entry_appends_to_first_shown_document
                  JsonText.loads JsonText.dumps Demo.tk_other Demo.b_then_a
                  (Item 2 (VRef 8%nat) (VRef 5%nat)) [Item 1 (VRef 3%nat) (VRef 0%nat)]
                  8%nat [("applications", VRef 7%nat)]
                  7%nat [("applications", VRef 6%nat)] 6%nat [VRef 5%nat]) as H.
    destruct H as (H1 & H2 & H3 & H4 & _); [reflexivity..|lia|].
    split_and!; [exact H1 | exact H2 | exact H4 | exact H3].
  - pose proof (add_entry_appends_to_first_shown_document
                  JsonText.loads JsonText.dumps Demo.tk_other Demo.bare_document
                  (Item 1 (VRef 0%nat) (VRef 1%nat)) []
                  0%nat [("version", VInt 3)] 2%nat [] 3%nat []) as H.
    destruct H as (H1 & _ & _ & H4 & H5 & H6 & _); [reflexivity..|lia|].
    split_and!; [exact H1 | exact H4 | exact H5 | exact H6].
Defined.

(** With the rows [b] and [a], the new record goes to the document of
    the second row, whose record sorts first, and the document loaded
    first is written back unchanged; and a store that has a row but no
    profile gets no record at all. *)
Lemma add_entry_first_loaded_document_counterexample :
  Demo.first_row_records Demo.b_then_a = [Demo.record "b"]
  /\ Demo.first_row_records (snd (Demo.add_entry Demo.b_then_a))
     <> Demo.first_row_records Demo.b_then_a ++ [Demo.new_entry]
  /\ Demo.stored (snd (Demo.add_entry Demo.b_then_a))
     = [(1, Some (Demo.document [Demo.record "b"]));
        (2, Some (Demo.document [Demo.record "a"; Demo.new_entry]))]
  /\ db Demo.no_profiles <> []
  /\ Demo.first_row_records (snd (Demo.add_entry Demo.no_profiles))
     <> Demo.first_row_records Demo.no_profiles ++ [Demo.new_entry].
Proof. split_and!; by vm_compute. Qed.

(** ** [delete_entry] *)

(** [list.remove] takes out the first item that compares equal, which
    need not be the object it was given. *)
Lemma index_of_first h x l i :
  index_of h x l = Some (Some i) ->
  (exists y, l !! i = Some y /\ py_eq h y x = Some true)
  /\ (forall j z, (j < i)%nat -> l !! j = Some z -> py_eq h z x = Some false).
Proof.
  revert i. induction l as [|y l IH]; intros i; cbn [index_of]; [done|].
  destruct (py_eq h y x) as [[|]|] eqn:Hy; try done.
  - intros ?; simplify_eq. split; [|intros; lia].
    exists y. split; [reflexivity | exact Hy].
  - destruct (index_of h x l) as [[i'|]|]; try done. cbn. intros ?; simplify_eq.
    destruct (IH i' eq_refl) as [Hfound Hbefore]. split; [done|].
    intros [|j] z Hj; cbn; [by intros [= <-] | intros Hz].
    apply (Hbefore j z); [lia | done].
Qed.

(** C1 fails on the program. The document holds the records [x], [a],
    [x]; the user selects the third line of the list box, which is the
    handle of the third record, and confirms. [delete_entry] takes the
    first record out of the list: the record of the handle stays, and the
    document is stored as [a], [x], not as [x], [a]. With only the two
    equal records in the list, the one that stays is again the record of
    the handle. *)
Theorem delete_entry_removes_first_equal_record :
  (let st := Demo.select 2 Demo.x_a_x in
   let st' := snd (Demo.delete_entry true st) in
   profile <$> profiles (self st) !! 2%nat = Some (VRef 2%nat)
   /\ mem st !! 3%nat = Some (OList [VRef 0%nat; VRef 1%nat; VRef 2%nat])
   /\ mem st' !! 3%nat = Some (OList [VRef 1%nat; VRef 2%nat])
   /\ mem st' !! 3%nat <> Some (OList [VRef 0%nat; VRef 1%nat])
   /\ Demo.stored st
      = [(1, Some (Demo.document [Demo.record "x"; Demo.record "a"; Demo.record "x"]))]
   /\ Demo.stored st'
      = [(1, Some (Demo.document [Demo.record "a"; Demo.record "x"]))]
   /\ Demo.stored st'
      <> [(1, Some (Demo.document [Demo.record "x"; Demo.record "a"]))])
  /\ (let st := Demo.select 1 Demo.x_x in
      let st' := snd (Demo.delete_entry true st) in
      profile <$> profiles (self st) !! 1%nat = Some (VRef 1%nat)
      /\ mem st !! 2%nat = Some (OList [VRef 0%nat; VRef 1%nat])
      /\ mem st' !! 2%nat = Some (OList [VRef 1%nat])).
Proof. split; split_and!; by vm_compute. Qed.

(** ** Objects and the JSON they were made from *)

Lemma py_to_json_mono f : forall f' h h' v J,
  py_to_json f h v = Some J -> (f <= f')%nat -> h `prefix_of` h' ->
  py_to_json f' h' v = Some J.
Proof.
  induction f as [|f IH]; intros f' h h' v J Hv Hf Hh; [done|].
  destruct f' as [|f']; [lia|]. assert (f <= f')%nat as Hf' by lia.
  destruct v as [| | | |a]; try done. cbn in *.
  destruct (h !! a) as [o|] eqn:Ha; [|done].
  rewrite (prefix_lookup_Some _ _ _ _ Ha Hh).
  destruct o as [d|l].
  - apply fmap_Some in Hv as (kjs & Hm & ->). apply fmap_Some. exists kjs.
    split; [|done]. apply mapM_Some. apply mapM_Some in Hm.
    eapply Forall2_impl; [exact Hm|]. intros kv kj Hkv. cbn in *.
    apply fmap_Some in Hkv as (j & Hj & ->). apply fmap_Some. exists j.
    split; [|done]. by eapply IH.
  - apply fmap_Some in Hv as (js & Hm & ->). apply fmap_Some. exists js.
    split; [|done]. apply mapM_Some. apply mapM_Some in Hm.
    eapply Forall2_impl; [exact Hm|]. intros x j Hx.
    exact (IH _ _ _ _ _ Hx Hf' Hh).
Qed.

Lemma reads_as_dumps h v J : reads_as h v J -> py_dumps h v = Some J.
Proof. intros (f & Hf & Hv). unfold py_dumps. by eapply py_to_json_mono. Qed.

Lemma reads_as_mono h h' v J :
  reads_as h v J -> h `prefix_of` h' -> reads_as h' v J.
Proof.
  intros (f & Hf & Hv) Hh. exists f. split.
  - apply prefix_length in Hh. lia.
  - by eapply py_to_json_mono.
Qed.

Lemma reads_as_obj_inv h v kjs :
  reads_as h v (JObj kjs) ->
  exists a d, v = VRef a /\ h !! a = Some (ODict d)
              /\ Forall2 (entries_rel (reads_as h)) d kjs.
Proof.
  intros (f & Hf & Hv). destruct f as [|f]; [done|].
  destruct v as [| | | |a]; try done. cbn in Hv.
  destruct (h !! a) as [[d|l]|] eqn:Ha; try done.
  - apply fmap_Some in Hv as (kjs' & Hm & [= <-]). exists a, d.
    split_and!; [done..|]. apply mapM_Some in Hm.
    eapply Forall2_impl; [exact Hm|]. intros kv kj Hkv. cbn in Hkv.
    apply fmap_Some in Hkv as (j & Hj & ->). split; [done|].
    exists f. split; [lia | done].
  - by apply fmap_Some in Hv as (js & Hm & [=]).
Qed.

Lemma reads_as_arr_inv h v js :
  reads_as h v (JArr js) ->
  exists a l, v = VRef a /\ h !! a = Some (OList l)
              /\ Forall2 (reads_as h) l js.
Proof.
  intros (f & Hf & Hv). destruct f as [|f]; [done|].
  destruct v as [| | | |a]; try done. cbn in Hv.
  destruct (h !! a) as [[d|l]|] eqn:Ha; try done.
  - by apply fmap_Some in Hv as (kjs' & Hm & [=]).
  - apply fmap_Some in Hv as (js' & Hm & [= <-]). exists a, l.
    split_and!; [done..|]. apply mapM_Some in Hm.
    eapply Forall2_impl; [exact Hm|]. intros x j Hx.
    exists f. split; [lia | done].
Qed.

Lemma reads_as_str_inv h v s : reads_as h v (JStr s) -> v = VStr s.
Proof.
  intros (f & Hf & Hv). destruct f as [|f]; [done|].
  destruct v as [| | | |a]; try done; cbn in Hv; [congruence|].
  destruct (h !! a) as [[d|l]|]; try done.
  - by apply fmap_Some in Hv as (? & _ & [=]).
  - by apply fmap_Some in Hv as (? & _ & [=]).
Qed.

(** What reads as something other than an object is no dictionary, and
    what reads as something other than an array is no list. *)
Lemma reads_as_not_obj h v J a d :
  reads_as h v J -> v = VRef a -> h !! a = Some (ODict d) -> exists kjs, J = JObj kjs.
Proof.
  intros (f & Hf & Hv) -> Ha. destruct f as [|f]; [done|]. cbn in Hv.
  rewrite Ha in Hv. apply fmap_Some in Hv as (kjs & _ & ->). by exists kjs.
Qed.

Lemma reads_as_not_arr h v J a l :
  reads_as h v J -> v = VRef a -> h !! a = Some (OList l) -> exists js, J = JArr js.
Proof.
  intros (f & Hf & Hv) -> Ha. destruct f as [|f]; [done|]. cbn in Hv.
  rewrite Ha in Hv. apply fmap_Some in Hv as (js & _ & ->). by exists js.
Qed.

Lemma reads_as_ref h a J : reads_as h (VRef a) J -> is_Some (h !! a).
Proof.
  intros (f & Hf & Hv). destruct f as [|f]; [done|]. cbn in Hv.
  by destruct (h !! a).
Qed.

Lemma entries_rel_lookup {V W} (R : V -> W -> Prop) k d kjs :
  Forall2 (entries_rel R) d kjs ->
  option_Forall2 R (dict_lookup k d) (dict_lookup k kjs).
Proof.
  induction 1 as [|[k1 v] [k2 w] d kjs [Hk Hv] _ IH]; cbn in *; [constructor|].
  subst k2. destruct (String.eqb k k1); [by constructor | done].
Qed.

Lemma entries_rel_store {V W} (R : V -> W -> Prop) k v w d kjs :
  R v w -> Forall2 (entries_rel R) d kjs ->
  Forall2 (entries_rel R) (dict_store k v d) (dict_store k w kjs).
Proof.
  intros Hvw. induction 1 as [|[k1 v1] [k2 w1] d kjs [Hk Hv] Hrest IH]; cbn in *.
  - by repeat constructor.
  - subst k2. destruct (String.eqb k k1); constructor; try done.
Qed.

Lemma entries_rel_build {V W} (R : V -> W -> Prop) d kjs :
  Forall2 (entries_rel R) d kjs ->
  Forall2 (entries_rel R) (build_dict d) (build_dict kjs).
Proof.
  unfold build_dict.
  assert (forall acc acc',
            Forall2 (entries_rel R) acc acc' ->
            Forall2 (entries_rel R) d kjs ->
            Forall2 (entries_rel R)
              (fold_left (fun d kv => dict_store (fst kv) (snd kv) d) d acc)
              (fold_left (fun d kv => dict_store (fst kv) (snd kv) d) kjs acc'))
    as Hgen.
  { intros acc acc' Hacc Hd. revert acc acc' Hacc.
    induction Hd as [|[k1 v] [k2 w] d kjs [Hk Hv] _ IH]; intros acc acc' Hacc;
      cbn in *; [done|].
    subst k2. apply IH. by apply entries_rel_store. }
  intros Hd. apply Hgen; [constructor | done].
Qed.

Lemma alloc_items_prefix xs : forall h, h `prefix_of` snd (alloc_items xs h).
Proof.
  induction xs as [|x xs IH]; intros h; [done|].
  rewrite alloc_items_cons.
  pose proof (alloc_json_prefix x h) as Hx. destruct (alloc_json x h) as [v h1].
  specialize (IH h1). destruct (alloc_items xs h1) as [vs h2]. cbn in *. by etrans.
Qed.

Lemma alloc_members_prefix kvs : forall h, h `prefix_of` snd (alloc_members kvs h).
Proof.
  induction kvs as [|[k x] kvs IH]; intros h; [done|].
  rewrite alloc_members_cons.
  pose proof (alloc_json_prefix x h) as Hx. destruct (alloc_json x h) as [v h1].
  specialize (IH h1). destruct (alloc_members kvs h1) as [d h2]. cbn in *. by etrans.
Qed.

Lemma depth_le_max xs :
  Forall (fun x => depth x <= foldr (fun x n => Nat.max (depth x) n) O xs)%nat xs.
Proof.
  induction xs as [|x xs IH]; constructor; cbn; [lia|].
  eapply Forall_impl; [exact IH|]. intros y Hy. cbn in Hy. lia.
Qed.

Lemma depth_le_max_members (kvs : list (string * json)) :
  Forall (fun kv => depth (snd kv)
                    <= foldr (fun kv n => Nat.max (depth (snd kv)) n) O kvs)%nat kvs.
Proof.
  induction kvs as [|x xs IH]; constructor; cbn; [lia|].
  eapply Forall_impl; [exact IH|]. intros y Hy. cbn in Hy. lia.
Qed.

Lemma readback_lift m h h' vs xs :
  Forall2 (fun v x => py_to_json (S (depth x)) h v = Some (norm x)) vs xs ->
  Forall (fun x => depth x <= m)%nat xs ->
  h `prefix_of` h' ->
  Forall2 (fun v x => py_to_json (S m) h' v = Some (norm x)) vs xs.
Proof.
  intros Hr Hm Hh. induction Hr as [|v x vs xs Hv _ IH]; [constructor|].
  apply Forall_cons in Hm as [Hx Hm]. constructor; [|by apply IH].
  eapply py_to_json_mono; [exact Hv | lia | done].
Qed.

Lemma readback_lift_members m h h' (d : list (string * pyval))
    (kvs : list (string * json)) :
  Forall2 (entries_rel (fun v x => py_to_json (S (depth x)) h v = Some (norm x)))
          d kvs ->
  Forall (fun kv => depth (snd kv) <= m)%nat kvs ->
  h `prefix_of` h' ->
  Forall2 (entries_rel (fun v (J : json) => py_to_json (S m) h' v = Some J))
          d (map (fun kv => (fst kv, norm (snd kv))) kvs).
Proof.
  intros Hr Hm Hh. apply Forall2_fmap_r.
  induction Hr as [|kv kx d kvs [Hk Hv] _ IH]; [constructor|].
  apply Forall_cons in Hm as [Hx Hm]. constructor; [|by apply IH].
  split; [done|]. cbn [snd].
  eapply py_to_json_mono; [exact Hv | lia | done].
Qed.

(** The objects made from a parsed text read back as that text, with the
    keys of every object once. *)
Lemma alloc_json_readback j : forall h,
  (depth j <= length (snd (alloc_json j h)) - length h)%nat
  /\ py_to_json (S (depth j)) (snd (alloc_json j h)) (fst (alloc_json j h))
     = Some (norm j).
Proof.
  induction j as [| | | |xs IH|kvs IH] using json_induction; intros h;
    try (split; [cbn; lia | done]).
  - assert (forall h,
              (foldr (fun x n => Nat.max (depth x) n) O xs
               <= length (snd (alloc_items xs h)) - length h)%nat
              /\ Forall2 (fun v x => py_to_json (S (depth x))
                                       (snd (alloc_items xs h)) v = Some (norm x))
                         (fst (alloc_items xs h)) xs) as Hitems.
    { clear h. induction IH as [|x xs Hx _ IHxs]; intros h.
      { split; [cbn; lia | constructor]. }
      rewrite alloc_items_cons.
      destruct (Hx h) as [Hd Hr]. pose proof (alloc_json_prefix x h) as Hp.
      destruct (alloc_json x h) as [v h1]. cbn [fst snd] in *.
      destruct (IHxs h1) as [Hds Hrs].
      pose proof (alloc_items_prefix xs h1) as Hps.
      destruct (alloc_items xs h1) as [vs h2]. cbn [fst snd foldr] in *.
      apply prefix_length in Hp as Hl1. apply prefix_length in Hps as Hl2.
      split; [lia|]. constructor; [|done].
      eapply py_to_json_mono; [exact Hr | lia | done]. }
    rewrite alloc_json_arr. destruct (Hitems h) as [Hd Hr].
    pose proof (alloc_items_prefix xs h) as Hp. apply prefix_length in Hp.
    destruct (alloc_items xs h) as [vs h1]. cbn [fst snd depth norm] in *.
    set (m := foldr (fun x n => Nat.max (depth x) n) O xs) in *.
    split; [rewrite length_app; cbn; lia|].
    cbn [py_to_json]. rewrite list_lookup_middle by done.
    apply fmap_Some. exists (map norm xs). split; [|done].
    apply mapM_Some. apply Forall2_fmap_r.
    eapply readback_lift; [exact Hr | apply depth_le_max | by apply prefix_app_r].
  - assert (forall h,
              (foldr (fun kv n => Nat.max (depth (snd kv)) n) O kvs
               <= length (snd (alloc_members kvs h)) - length h)%nat
              /\ Forall2 (entries_rel
                            (fun v x => py_to_json (S (depth x))
                                          (snd (alloc_members kvs h)) v
                                        = Some (norm x)))
                         (fst (alloc_members kvs h)) kvs) as Hmembers.
    { clear h. induction IH as [|[k x] kvs Hx _ IHkvs]; intros h.
      { split; [cbn; lia | constructor]. }
      rewrite alloc_members_cons. cbn [snd] in Hx.
      destruct (Hx h) as [Hd Hr]. pose proof (alloc_json_prefix x h) as Hp.
      destruct (alloc_json x h) as [v h1]. cbn [fst snd] in *.
      destruct (IHkvs h1) as [Hds Hrs].
      pose proof (alloc_members_prefix kvs h1) as Hps.
      destruct (alloc_members kvs h1) as [d h2]. cbn [fst snd foldr] in *.
      apply prefix_length in Hp as Hl1. apply prefix_length in Hps as Hl2.
      split; [lia|]. constructor; [|done]. split; [done|]. cbn [snd].
      eapply py_to_json_mono; [exact Hr | lia | done]. }
    rewrite alloc_json_obj. destruct (Hmembers h) as [Hd Hr].
    pose proof (alloc_members_prefix kvs h) as Hp. apply prefix_length in Hp.
    destruct (alloc_members kvs h) as [d h1]. cbn [fst snd depth norm] in *.
    set (m := foldr (fun kv n => Nat.max (depth (snd kv)) n) O kvs) in *.
    split; [rewrite length_app; cbn; lia|].
    cbn [py_to_json]. rewrite list_lookup_middle by done.
    apply fmap_Some.
    exists (build_dict (map (fun kv => (fst kv, norm (snd kv))) kvs)).
    split; [|done]. apply mapM_Some.
    assert (Forall2 (entries_rel (fun v (J : json) =>
                       py_to_json (S m) (h1 ++ [ODict (build_dict d)]) v = Some J))
                    d (map (fun kv => (fst kv, norm (snd kv))) kvs)) as Hrel.
    { eapply readback_lift_members;
        [exact Hr | apply depth_le_max_members | by apply prefix_app_r]. }
    apply entries_rel_build in Hrel.
    eapply Forall2_impl; [exact Hrel|]. intros [k v] [k' J] [Hk HJ]. cbn in *.
    subst k'. by rewrite HJ.
Qed.

Lemma alloc_json_reads_as j h :
  reads_as (snd (alloc_json j h)) (fst (alloc_json j h)) (norm j).
Proof.
  destruct (alloc_json_readback j h) as [Hd Hr].
  exists (S (depth j)). split; [lia | done].
Qed.

(** ** [load_profiles_from_db] *)

Lemma isinstance_dict_reads st x jx :
  reads_as (mem st) x jx ->
  isinstance_dict x st
  = (Ok (match jx with JObj _ => true | _ => false end), st).
Proof.
  intros Hx. destruct x as [| | | |a].
  1-4: destruct jx; try done;
       by apply reads_as_obj_inv in Hx as (? & ? & ? & _).
  destruct (reads_as_ref _ _ _ Hx) as [o Ho].
  unfold isinstance_dict, bind, deref. rewrite Ho. destruct o as [d|l].
  - by destruct (reads_as_not_obj _ _ _ _ _ Hx eq_refl Ho) as [kjs ->].
  - by destruct (reads_as_not_arr _ _ _ _ _ Hx eq_refl Ho) as [js ->].
Qed.

Lemma isinstance_list_reads st x jx :
  reads_as (mem st) x jx ->
  isinstance_list x st
  = (Ok (match jx with JArr _ => true | _ => false end), st).
Proof.
  intros Hx. destruct x as [| | | |a].
  1-4: destruct jx; try done;
       by apply reads_as_arr_inv in Hx as (? & ? & ? & _).
  destruct (reads_as_ref _ _ _ Hx) as [o Ho].
  unfold isinstance_list, bind, deref. rewrite Ho. destruct o as [d|l].
  - by destruct (reads_as_not_obj _ _ _ _ _ Hx eq_refl Ho) as [kjs ->].
  - by destruct (reads_as_not_arr _ _ _ _ _ Hx eq_refl Ho) as [js ->].
Qed.

Lemma list_items_run st a l :
  mem st !! a = Some (OList l) -> list_items (VRef a) st = (Ok l, st).
Proof. intros Ha. unfold list_items, bind, deref. by rewrite Ha. Qed.

Section Load.
Variable loads : string -> option json.

(** One turn of the loop adds the handles of the row's profiles, and
    nothing for a row without a readable document. *)
Lemma load_row_spec st acc row_id data_blob :
  (forall j, payload_json loads data_blob = Some j -> exists kvs, j = JObj kvs) ->
  exists items st',
    load_row loads acc (row_id, data_blob) st = (Ok (acc ++ items), st')
    /\ Forall2 (handle_of (mem st')) items
               (row_profiles loads (row_id, data_blob)).
Proof.
  intros Hshape. unfold load_row, row_profiles, payload_json in *. cbn [fst snd].
  destruct (sql_falsy data_blob).
  { exists [], st. by rewrite app_nil_r. }
  rewrite bind_run. unfold try_except. rewrite bind_run.
  destruct data_blob as [|n|s|b];
    try (exists [], st; by rewrite app_nil_r).
  unfold decode_and_parse.
  destruct (loads b) as [j|] eqn:Hj; [|exists [], st; by rewrite app_nil_r].
  destruct (Hshape j eq_refl) as [kvs ->].
  pose proof (alloc_json_reads_as (JObj kvs) (mem st)) as Hv.
  destruct (alloc_json (JObj kvs) (mem st)) as [v h]. cbn [fst snd] in Hv.
  cbv beta iota. cbn [ret].
  set (st1 := with_mem h st).
  set (NK := build_dict (map (fun kv => (fst kv, norm (snd kv))) kvs)) in *.
  change (norm (JObj kvs)) with (JObj NK) in *.
  destruct (reads_as_obj_inv _ _ _ Hv) as (a & dd & -> & Ha & Hdd).
  rewrite bind_run, py_get_read. cbn [mem st1 with_mem]. rewrite Ha. cbv beta iota.
  pose proof (entries_rel_lookup _ "applications" _ _ Hdd) as Hsec.
  unfold json_records.
  destruct Hsec as [x jx Hx|]; cbn [from_option id].
  2:{ rewrite bind_run. cbn. exists [], st1. by rewrite app_nil_r. }
  rewrite bind_run, (isinstance_dict_reads st1 x jx Hx). cbv beta iota.
  destruct jx as [| | | | |section];
    try (exists [], st1; by rewrite app_nil_r).
  destruct (reads_as_obj_inv _ _ _ Hx) as (sa & sd & -> & Hsa & Hsd).
  rewrite bind_run, alloc_run. cbv beta iota. cbn [mem st1 with_mem].
  set (st2 := with_mem (h ++ [OList []]) st1).
  assert (h `prefix_of` mem st2) as Hpre by (by apply prefix_app_r).
  rewrite bind_run, py_get_read. cbn [mem st2 with_mem].
  rewrite (lookup_app_l_Some _ _ _ _ Hsa). cbv beta iota.
  pose proof (entries_rel_lookup _ "applications" _ _ Hsd) as Hlist.
  destruct Hlist as [y jy Hy|]; cbn [from_option id].
  2:{ rewrite bind_run. unfold isinstance_list at 1.
      rewrite bind_run. unfold deref. cbn [mem st2 with_mem].
      rewrite list_lookup_middle by done. cbv beta iota. cbn [ret].
      rewrite bind_run. erewrite list_items_run
        by (cbn [mem st2 with_mem]; by apply list_lookup_middle).
      exists [], st2. split; [reflexivity | constructor]. }
  assert (reads_as (mem st2) y jy) as Hy2 by (by eapply reads_as_mono).
  rewrite bind_run, (isinstance_list_reads st2 y jy Hy2). cbv beta iota.
  destruct jy as [| | | |xs|];
    try (exists [], st2; by rewrite app_nil_r).
  destruct (reads_as_arr_inv _ _ _ Hy2) as (la & items & -> & Hla & Hitems).
  rewrite bind_run. erewrite list_items_run by exact Hla.
  exists (map (Item row_id (VRef a)) items), st2. split; [done|].
  apply Forall2_fmap. eapply Forall2_impl; [exact Hitems|].
  intros it r Hr. by split.
Qed.

Lemma handle_of_mono h h' it p :
  handle_of h it p -> h `prefix_of` h' -> handle_of h' it p.
Proof. intros [Hid Hr] Hh. split; [done|]. by eapply reads_as_mono. Qed.

Lemma load_rows_spec rows : forall st acc expected,
  (forall row j, row ∈ rows -> payload_json loads (snd row) = Some j ->
                 exists kvs, j = JObj kvs) ->
  Forall2 (handle_of (mem st)) acc expected ->
  exists l st',
    foldM (load_row loads) acc rows st = (Ok l, st')
    /\ only_allocated st st'
    /\ Forall2 (handle_of (mem st')) l (expected ++ store_profiles loads rows).
Proof.
  induction rows as [|[row_id data_blob] rows IH]; intros st acc expected Hshape Hacc.
  { exists acc, st. cbn. rewrite app_nil_r. split_and!; [done| |done]. reflexivity. }
  destruct (load_row_spec st acc row_id data_blob) as (items & st1 & Hrun & Hitems).
  { intros j Hj. apply (Hshape (row_id, data_blob)); [by left | done]. }
  pose proof (allocates_load_row loads acc (row_id, data_blob) st) as Hgrow.
  rewrite Hrun in Hgrow. cbn [snd] in Hgrow.
  destruct (IH st1 (acc ++ items)
              (expected ++ row_profiles loads (row_id, data_blob)))
    as (l & st' & Hfold & Hgrow' & Hl).
  { intros row j Hrow. apply Hshape. by right. }
  { apply Forall2_app; [|done].
    eapply Forall2_impl; [exact Hacc|]. intros it p Hp.
    eapply handle_of_mono; [exact Hp | apply Hgrow]. }
  exists l, st'. split_and!.
  - cbn [foldM]. by rewrite bind_run, Hrun.
  - by etrans.
  - unfold store_profiles. cbn [flat_map]. by rewrite app_assoc.
Qed.

Lemma store_profiles_shaped rows :
  (forall row j, row ∈ rows -> payload_json loads (snd row) = Some j ->
                 document_shaped j) ->
  Forall (fun p => record_shaped (snd p)) (store_profiles loads rows).
Proof.
  induction rows as [|row rows IH]; intros Hshape; [constructor|].
  unfold store_profiles. cbn [flat_map]. apply Forall_app. split.
  - unfold row_profiles.
    destruct (payload_json loads (snd row)) as [j|] eqn:Hj; [|constructor].
    destruct (Hshape row j) as [_ Hrecords]; [by left | done |].
    apply Forall_fmap. eapply Forall_impl; [exact Hrecords|]. by intros r Hr.
  - apply IH. intros row' j Hrow. apply Hshape. by right.
Qed.

End Load.

Lemma name_key_of_record h it p :
  handle_of h it p -> record_shaped (snd p) -> is_Some (name_key h it).
Proof.
  intros [_ Hr] (kvs & Hp & Hname). rewrite Hp in Hr.
  destruct (reads_as_obj_inv _ _ _ Hr) as (a & d & Hprof & Ha & Hd).
  unfold name_key. rewrite Hprof, Ha.
  pose proof (entries_rel_lookup _ "name" _ _ Hd) as Hlook.
  destruct Hlook as [x jx Hx|]; [|done].
  destruct Hname as [[=]|[s [= ->]]].
  by rewrite (reads_as_str_inv _ _ _ Hx).
Qed.

Lemma sort_profiles_run st l :
  Forall (fun it => is_Some (name_key (mem st) it)) l ->
  sort_profiles l st
  = (Ok (map snd (sort_by_key (map (fun x => (display_key (mem st) x, x)) l))), st).
Proof.
  intros Hkeys. unfold sort_profiles.
  rewrite (bind_ok _ _ _ _ _ (traverse_sort_key_run st l Hkeys)).
  by rewrite zip_map_key.
Qed.

Lemma sorted_handles_perm {A} (key : A -> string) (l : list A) :
  map snd (sort_by_key (map (fun x => (key x, x)) l)) ≡ₚ l.
Proof.
  rewrite sort_by_key_perm, <- list_fmap_compose. cbn. by rewrite list_fmap_id.
Qed.

Lemma Forall2_fmap_eq {A B C} (f : A -> C) (g : B -> C) l k :
  Forall2 (fun x y => f x = g y) l k -> map f l = map g k.
Proof. induction 1; cbn; [done|]. by f_equal. Qed.

(** C3, as the program has it. When every payload that decodes and
    parses is a document (an object whose profile list holds records with
    string names), [load_profiles_from_db] returns a handle for each
    profile of each such row and for nothing else: a row whose payload is
    empty, is no byte string, does not decode or does not parse adds no
    handle and does not stop the load. The store is not written. *)
Theorem load_skips_unreadable_rows
    (loads : string -> option json) (st : state) :
  (forall row j, row ∈ db st -> payload_json loads (snd row) = Some j ->
                 document_shaped j) ->
  exists l st',
    load_profiles_from_db loads st = (Ok l, st')
    /\ map (fun it => (db_row_id it, py_dumps (mem st') (profile it))) l
       ≡ₚ map (fun p => (fst p, Some (snd p))) (store_profiles loads (db st))
    /\ db st' = db st.
Proof.
  intros Hshape.
  destruct (load_rows_spec loads (db st) st [] []) as (l0 & st1 & Hfold & Hgrow & Hl0).
  { intros row j Hrow Hj. by destruct (Hshape row j Hrow Hj). }
  { constructor. }
  cbn [app] in Hl0.
  pose proof (store_profiles_shaped loads (db st) Hshape) as Hrecords.
  assert (Forall (fun it => is_Some (name_key (mem st1) it)) l0) as Hkeys.
  { clear Hfold. induction Hl0 as [|it p l0 ps Hp _ IH]; [constructor|].
    apply Forall_cons in Hrecords as [Hr Hrecords].
    constructor; [by eapply name_key_of_record | by apply IH]. }
  eexists _, st1. split_and!.
  - unfold load_profiles_from_db.
    rewrite bind_run. unfold get_state. cbv beta iota.
    rewrite bind_run, Hfold. by apply sort_profiles_run.
  - rewrite sorted_handles_perm.
    erewrite Forall2_fmap_eq; [done|].
    eapply Forall2_impl; [exact Hl0|]. intros it p [Hid Hr]. cbv beta.
    by rewrite Hid, (reads_as_dumps _ _ _ Hr).
  - by destruct Hgrow as (_ & Hdb & _).
Qed.

(** With the second of three rows unreadable, the handles are those of
    the first and the third row. *)
Example load_three_rows :
  Demo.loaded Demo.second_row_unreadable
  = Ok [(3, Some (Demo.record "a")); (1, Some (Demo.record "b"));
        (3, Some (Demo.record "c"))].
Proof. reflexivity. Qed.

Lemma load_skips_unreadable_rows_witness :
  let st := Demo.boot Demo.second_row_unreadable in
  exists l st',
    load_profiles_from_db JsonText.loads st = (Ok l, st')
    /\ map (fun it => (db_row_id it, py_dumps (mem st') (profile it))) l
       ≡ₚ map (fun p => (fst p, Some (snd p)))
            (store_profiles JsonText.loads (db st))
    /\ db st' = db st.
Proof.
  apply (load_skips_unreadable_rows JsonText.loads
           (Demo.boot Demo.second_row_unreadable)).
  intros row j Hrow Hj. cbn in Hrow.
  assert (forall name, record_shaped (Demo.record name)) as Hrecord.
  { intros name. eexists. split; [reflexivity|]. right. by eexists. }
  apply elem_of_cons in Hrow as [->|Hrow]; [|apply elem_of_cons in Hrow as [->|Hrow]].
  - vm_compute in Hj. injection Hj as <-. split; [by eexists|].
    repeat constructor. apply (Hrecord "b").
  - vm_compute in Hj. discriminate Hj.
  - apply list_elem_of_singleton in Hrow as ->.
    vm_compute in Hj. injection Hj as <-. split; [by eexists|].
    repeat constructor; [apply (Hrecord "a") | apply (Hrecord "c")].
Defined.

(** A payload that parses but is no document stops the load: with a JSON
    array in the second row, or with a record whose name is [null], no
    handle is returned at all. *)
Lemma load_every_set_of_rows_counterexample :
  JsonText.loads "[]" = Some (JArr [])
  /\ store_profiles JsonText.loads Demo.second_row_array
     = [(1, Demo.record "b"); (3, Demo.record "a")]
  /\ Demo.loaded Demo.second_row_array = Raise AttributeError
  /\ store_profiles JsonText.loads Demo.null_name
     = [(1, JObj [("name", JNull)])]
  /\ Demo.loaded Demo.null_name = Raise AttributeError.
Proof. split_and!; by vm_compute. Qed.

(** ** Paths *)

Lemma rfind_from_app P l1 : forall l2 i last,
  OsPath.rfind_from P i (l1 ++ l2) last
  = OsPath.rfind_from P (i + Z.of_nat (length l1)) l2 (OsPath.rfind_from P i l1 last).
Proof.
  induction l1 as [|c l1 IH]; intros l2 i last; cbn [app OsPath.rfind_from length].
  - f_equal. lia.
  - rewrite IH. f_equal. lia.
Qed.

Lemma rfind_from_none P l : forall i last,
  Forall (fun c => P c = false) l -> OsPath.rfind_from P i l last = last.
Proof.
  induction l as [|c l IH]; intros i last Hl; [done|].
  apply Forall_cons in Hl as [Hc Hl]. cbn. rewrite Hc. by apply IH.
Qed.

(** Nothing in [k] matches: the last match of [l ++ k] is that of [l]. *)
Lemma rfind_app_none P l k :
  Forall (fun c => P c = false) k -> OsPath.rfind P (l ++ k) = OsPath.rfind P l.
Proof.
  intros Hk. unfold OsPath.rfind. rewrite rfind_from_app. by apply rfind_from_none.
Qed.

Lemma rfind_app_last P l c k :
  P c = true -> Forall (fun c => P c = false) k ->
  OsPath.rfind P (l ++ c :: k) = Z.of_nat (length l).
Proof.
  intros Hc Hk. unfold OsPath.rfind. rewrite rfind_from_app. cbn. rewrite Hc.
  rewrite rfind_from_none by done. lia.
Qed.

Lemma rfind_none P l : Forall (fun c => P c = false) l -> OsPath.rfind P l = -1.
Proof. intros Hl. unfold OsPath.rfind. by apply rfind_from_none. Qed.

(** Either nothing matches, or the list splits at its last match. *)
Lemma rfind_spec P l :
  (OsPath.rfind P l = -1 /\ Forall (fun c => P c = false) l)
  \/ (exists l1 c l2, l = l1 ++ c :: l2 /\ P c = true
                      /\ Forall (fun c => P c = false) l2
                      /\ OsPath.rfind P l = Z.of_nat (length l1)).
Proof.
  induction l as [|c l IH] using rev_ind.
  { left. by split. }
  destruct (P c) eqn:Hc.
  { right. exists l, c, []. split_and!; [done..|constructor|].
    by apply rfind_app_last. }
  destruct IH as [[Hr Hl]|(l1 & c' & l2 & -> & Hc' & Hl2 & Hr)].
  - left. split.
    + rewrite rfind_app_none; [done|]. by repeat constructor.
    + apply Forall_app. split; [done|]. by repeat constructor.
  - right. exists l1, c', (l2 ++ [c]). split_and!.
    + by rewrite <- app_assoc.
    + done.
    + apply Forall_app. split; [done|]. by repeat constructor.
    + rewrite <- app_assoc. cbn. apply rfind_app_last; [done|].
      apply Forall_app. split; [done|]. by repeat constructor.
Qed.

Lemma rfind_bounds P l : -1 <= OsPath.rfind P l < Z.of_nat (length l).
Proof.
  destruct (rfind_spec P l) as [[-> _]|(l1 & c & l2 & -> & _ & _ & ->)]; [lia|].
  rewrite length_app. cbn. lia.
Qed.

Section PathFacts.
Variable is_sep : ascii -> bool.
Hypothesis separators : forall c, is_sep c = true -> c = "/"%char \/ c = "\"%char.

Lemma bmp_no_sep : Forall (fun c => is_sep c = false) (PyStr.chars ".bmp").
Proof.
  cbn. repeat constructor.
  all: match goal with |- is_sep ?c = false =>
         destruct (is_sep c) eqn:H; [|done];
         by destruct (separators _ H)
       end.
Qed.

(** The path [b] followed by [.bmp] splits into [b] and [.bmp], when the
    last component of [b] is a name. *)
Lemma splitext_bmp b :
  named is_sep b -> OsPath.splitext is_sep (b +:+ ".bmp") = (b, ".bmp").
Proof.
  unfold named, last_component, OsPath.splitext. intros Hnamed.
  rewrite chars_app. set (l := PyStr.chars b) in *.
  rewrite (rfind_app_none is_sep) by apply bmp_no_sep.
  change (PyStr.chars ".bmp") with ("."%char :: PyStr.chars "bmp").
  rewrite (rfind_app_last OsPath.is_dot) by (by repeat constructor).
  pose proof (rfind_bounds is_sep l) as Hs.
  set (s := OsPath.rfind is_sep l) in *.
  assert ((s <? Z.of_nat (length l)) = true) as -> by (apply Z.ltb_lt; lia).
  rewrite Nat2Z.id.
  replace (Z.to_nat (Z.of_nat (length l) - (s + 1)))
    with (length l - Z.to_nat (s + 1))%nat by lia.
  rewrite drop_app_le by lia.
  rewrite take_app_ge by (rewrite length_drop; lia).
  rewrite length_drop, Nat.sub_diag, take_0, app_nil_r, take_app_length, drop_app_length.
  rewrite Hnamed. cbn [andb]. subst l. by rewrite str_chars.
Qed.

(** If the last component of a path is a name, so is the last component
    of what [splitext] leaves of it. *)
Lemma named_base p :
  named is_sep p -> named is_sep (fst (OsPath.splitext is_sep p)).
Proof.
  intros Hnamed. unfold OsPath.splitext.
  set (l := PyStr.chars p). set (s := OsPath.rfind is_sep l).
  set (d := OsPath.rfind OsPath.is_dot l).
  destruct (s <? d) eqn:Hsd; cbn [andb]; [|done].
  destruct (existsb _ _) eqn:Hslice; [|done]. cbn [fst].
  apply Z.ltb_lt in Hsd.
  pose proof (rfind_bounds is_sep l) as Hs. pose proof (rfind_bounds OsPath.is_dot l) as Hd.
  fold s in Hs. fold d in Hd.
  unfold named, last_component. rewrite chars_str.
  assert (OsPath.rfind is_sep (take (Z.to_nat d) l) = s) as ->.
  { subst s. destruct (rfind_spec is_sep l)
      as [[Hr Hl]|(l1 & c & l2 & Hl & Hc & Hl2 & Hr)].
    - rewrite Hr. apply rfind_none. by apply Forall_take.
    - rewrite Hr in *. rewrite Hl.
      rewrite take_app_ge by lia. 
      replace (Z.to_nat d - length l1)%nat with (S (Z.to_nat d - length l1 - 1)) by lia.
      cbn [take]. apply rfind_app_last; [done|]. by apply Forall_take. }
  replace (Z.to_nat d) with (Z.to_nat (s + 1) + Z.to_nat (d - (s + 1)))%nat by lia.
  by rewrite <- take_drop_commute.
Qed.

End PathFacts.

(** *** Trimming *)

Lemma starts_clean_lstrip l : starts_clean (PyStr.lstrip l).
Proof.
  induction l as [|c l IH]; cbn; [done|].
  destruct (PyStr.isspace c) eqn:Hc; [done|]. cbn. exact Hc.
Qed.

Lemma lstrip_clean l : starts_clean l -> PyStr.lstrip l = l.
Proof. destruct l as [|c l]; cbn; [done|]. by intros ->. Qed.

Lemma rstrip_prefix l : PyStr.rstrip l `prefix_of` l.
Proof.
  unfold PyStr.rstrip. destruct (lstrip_suffix (rev l)) as [k Hk].
  exists (rev k). rewrite <- rev_app_distr, <- Hk. by rewrite rev_involutive.
Qed.

Lemma starts_clean_prefix l l' :
  l `prefix_of` l' -> starts_clean l' -> starts_clean l.
Proof. intros [k ->]. by destruct l. Qed.

Lemma starts_clean_app l k :
  starts_clean l -> starts_clean k -> starts_clean (l ++ k).
Proof. by destruct l. Qed.

Lemma starts_clean_strip s : starts_clean (PyStr.chars (PyStr.strip s)).
Proof.
  unfold PyStr.strip. rewrite chars_str.
  eapply starts_clean_prefix; [apply rstrip_prefix | apply starts_clean_lstrip].
Qed.

Lemma strip_fixed l :
  starts_clean l -> starts_clean (rev l) -> PyStr.strip (PyStr.str l) = PyStr.str l.
Proof.
  intros Hl Hr. unfold PyStr.strip, PyStr.rstrip.
  rewrite chars_str, (lstrip_clean l Hl), (lstrip_clean _ Hr).
  by rewrite rev_involutive.
Qed.

Lemma strip_bmp b :
  starts_clean (PyStr.chars b) -> PyStr.strip (b +:+ ".bmp") = b +:+ ".bmp".
Proof.
  intros Hb. rewrite <- (str_chars (b +:+ ".bmp")), chars_app.
  apply strip_fixed.
  - by apply starts_clean_app.
  - by rewrite rev_app_distr.
Qed.

Lemma append_bmp_nonempty b : b +:+ ".bmp" <> EmptyString.
Proof. destruct b; intros H; cbv in H; discriminate H. Qed.

Lemma sanitize_starts_clean name : starts_clean (PyStr.chars (sanitize name)).
Proof.
  unfold sanitize.
  set (P := fun c => PyStr.isword c = true \/ PyStr.isspace c = true \/ c = "-"%char).
  set (shown := match PyStr.strip name with EmptyString => _ | s => s end).
  set (trimmed := PyStr.rstrip (PyStr.lstrip (filter P (PyStr.chars shown)))).
  assert (starts_clean trimmed) as Htrim.
  { eapply starts_clean_prefix; [apply rstrip_prefix | apply starts_clean_lstrip]. }
  destruct trimmed as [|c trimmed]; [done|].
  cbn [map]. rewrite chars_str. cbn in *.
  destruct (decide (c = " "%char)); [done | exact Htrim].
Qed.

Section Stable.
Variable is_sep : ascii -> bool.
Variable path_join : string -> string -> string.
Hypothesis separators : forall c, is_sep c = true -> c = "/"%char \/ c = "\"%char.

Lemma splitext_base_prefix p :
  PyStr.chars (fst (OsPath.splitext is_sep p)) `prefix_of` PyStr.chars p.
Proof.
  unfold OsPath.splitext. case_match; cbn [fst]; [|done].
  rewrite chars_str. apply prefix_take.
Qed.

(** A path [b] + [.bmp] whose [b] ends in a name and does not begin with
    white space is the target derived from itself. *)
Lemma target_path_fixed cache b name :
  named is_sep b -> starts_clean (PyStr.chars b) ->
  target_path is_sep path_join cache (b +:+ ".bmp") name = b +:+ ".bmp".
Proof.
  intros Hnamed Hclean. unfold target_path, final_path_of.
  rewrite (strip_bmp b Hclean).
  pose proof (append_bmp_nonempty b) as Hne.
  destruct (b +:+ ".bmp") eqn:Hb; [done|]. rewrite <- Hb.
  by rewrite (splitext_bmp is_sep separators b Hnamed).
Qed.

Lemma sanitize_named pre name : named is_sep (pre +:+ sanitize name).
Proof.
  unfold named, last_component. rewrite chars_app.
  pose proof (sanitize_chars name) as Hchars.
  pose proof (sanitize_nonempty name) as Hne.
  set (san := PyStr.chars (sanitize name)) in *.
  assert (Forall (fun c => is_sep c = false) san) as Hnosep.
  { eapply Forall_impl; [exact Hchars|]. intros c [Hc _]. cbn in Hc.
    destruct (is_sep c) eqn:Hs; [|done].
    destruct (separators c Hs) as [-> | ->]; by destruct Hc as [|[|]]. }
  rewrite (rfind_app_none is_sep) by done.
  pose proof (rfind_bounds is_sep (PyStr.chars pre)) as Hs.
  rewrite drop_app_le by lia. rewrite existsb_app.
  apply orb_true_iff. right.
  assert (san <> []) as Hsan.
  { subst san. intros Hnil. apply Hne. by rewrite <- (str_chars (sanitize name)), Hnil. }
  destruct san as [|c san]; [done|]. apply Forall_cons in Hchars as [[Hc _] _].
  cbn. apply orb_true_iff. left. unfold OsPath.is_dot.
  destruct (Ascii.eqb_spec c "."); [|done]. subst c. by destruct Hc as [|[|]].
Qed.

End Stable.

(** *** Browsing twice *)

Lemma dict_store_idem {V} k (v : V) d :
  dict_store k v (dict_store k v d) = dict_store k v d.
Proof.
  induction d as [|[k' v'] d IH]; cbn.
  - by rewrite String.eqb_refl.
  - destruct (String.eqb k k') eqn:Hk; cbn.
    + by rewrite String.eqb_refl.
    + by rewrite Hk, IH.
Qed.

Section Twice.
Variable is_sep : ascii -> bool.
Variable path_join : string -> string -> string.
Variable image : Type.
Variable decode_image : string -> option image.
Variable encode_bmp : image -> option string.
Variable write_ok : string -> bool.
Variable save_debris : image -> string -> gmap string string -> gmap string string.

Local Abbreviation browse_icon :=
  (browse_icon is_sep path_join image decode_image encode_bmp write_ok save_debris).

(** A [browse_icon] whose source opens and whose bitmap is written links
    the record to the derived target. *)
Lemma browse_icon_links st file_path a d poster name img bytes :
  selected_record st = Some (a, d) ->
  str_field "posterPath" d = Some poster ->
  str_field "name" d = Some name ->
  file_path <> EmptyString ->
  opened decode_image st file_path = Some img ->
  encode_bmp img = Some bytes ->
  write_ok (target_path is_sep path_join (icon_cache_folder (self st)) poster name)
  = true ->
  browse_icon file_path st
  = (Ok tt, icon_set a d
              (target_path is_sep path_join (icon_cache_folder (self st)) poster name)
              bytes st).
Proof.
  intros Hrec Hposter Hname Hfile Hopen Henc Hw.
  set (t := target_path _ _ _ _ _) in *.
  assert (derived_target is_sep path_join st = Some t) as Ht.
  { unfold derived_target. by rewrite Hrec, Hposter, Hname. }
  destruct (browse_icon_cases is_sep path_join image decode_image encode_bmp
              write_ok save_debris st file_path)
    as [(_ & _ & _ & _ & Hfail)
       |(a' & d' & img' & bytes' & t' & Hrec' & _ & Hopen' & Ht' & Henc' & _ & Hres)].
  - destruct (Hfail img t Hopen Ht Hfile) as [Hnone|Hfalse]; congruence.
  - rewrite Hres. congruence.
Qed.

(** After the record is linked to [t], a second [browse_icon] of the
    same source changes nothing, when [t] is the target derived from
    itself and the source is another file. *)
Lemma browse_icon_again st file_path a d name img bytes t :
  selected_record st = Some (a, d) ->
  str_field "name" d = Some name ->
  file_path <> EmptyString ->
  opened decode_image st file_path = Some img ->
  encode_bmp img = Some bytes ->
  write_ok t = true ->
  file_path <> t ->
  target_path is_sep path_join (icon_cache_folder (self st)) t name = t ->
  browse_icon file_path (icon_set a d t bytes st)
  = (Ok tt, icon_set a d t bytes st).
Proof.
  intros Hrec Hname Hfile Hopen Henc Hw Hsrc Hfix.
  set (st1 := icon_set a d t bytes st).
  set (d1 := dict_store "posterPath" (VStr t) d).
  assert (mem st !! a = Some (ODict d)) as Ha.
  { unfold selected_record in Hrec. repeat case_match; by simplify_eq. }
  assert (selected_record st1 = Some (a, d1)) as Hrec1.
  { unfold selected_record in *. cbn [st1 icon_set self mem set_icon_path_var
      selected_profile_index profiles].
    repeat case_match; simplify_eq.
    all: match goal with
         | H : <[_:=_]> _ !! _ = _ |- _ =>
             rewrite list_lookup_insert_eq in H by (by eapply lookup_lt_Some)
         end; by simplify_eq. }
  assert (str_field "posterPath" d1 = Some t) as Hposter1.
  { unfold str_field, d1. by rewrite dict_lookup_store_eq. }
  assert (str_field "name" d1 = Some name) as Hname1.
  { unfold str_field, d1 in *. by rewrite dict_lookup_store_ne. }
  assert (opened decode_image st1 file_path = Some img) as Hopen1.
  { unfold opened in *. cbn [st1 icon_set files].
    by rewrite lookup_insert_ne. }
  rewrite (browse_icon_links st1 file_path a d1 t name img bytes Hrec1 Hposter1
             Hname1 Hfile Hopen1 Henc);
    cbn [st1 icon_set self set_icon_path_var icon_cache_folder]; rewrite Hfix;
    [|done].
  subst st1. unfold icon_set. cbn [mem db db_write_fails files self].
  rewrite list_insert_insert_eq, insert_insert_eq. unfold d1.
  rewrite dict_store_idem. reflexivity.
Qed.

End Twice.

(** C6, as the program has it. Take a selected record whose name and
    [posterPath] are strings, a source that opens and is not the target
    file, and a bitmap that can be encoded and written. If the trimmed
    [posterPath] is not empty and its last component is a name (not
    empty, not dots only), or if it is empty and [os.path.join] puts the
    file name behind a cache-folder prefix that does not begin with
    white space, then browsing twice with the same source is browsing
    once: both calls end in the same state, with the same [posterPath]
    and the same bytes in the same file. *)
Theorem browse_icon_twice_is_once
    (is_sep : ascii -> bool) (path_join : string -> string -> string)
    (image : Type) (decode_image : string -> option image)
    (encode_bmp : image -> option string) (write_ok : string -> bool)
    (save_debris : image -> string -> gmap string string -> gmap string string)
    (st : state) (file_path : string)
    (a : addr) (d : list (string * pyval)) (poster name : string)
    (img : image) (bytes : string) :
  (forall c, is_sep c = true -> c = "/"%char \/ c = "\"%char) ->
  selected_record st = Some (a, d) ->
  str_field "posterPath" d = Some poster ->
  str_field "name" d = Some name ->
  file_path <> EmptyString ->
  opened decode_image st file_path = Some img ->
  let cache := icon_cache_folder (self st) in
  let t := target_path is_sep path_join cache poster name in
  encode_bmp img = Some bytes ->
  write_ok t = true ->
  file_path <> t ->
  (PyStr.strip poster <> EmptyString /\ named is_sep (PyStr.strip poster))
  \/ (PyStr.strip poster = EmptyString
      /\ exists pre,
           path_join cache (sanitize name +:+ ".bmp")
           = pre +:+ sanitize name +:+ ".bmp"
           /\ starts_clean (PyStr.chars pre)) ->
  let once := browse_icon is_sep path_join image decode_image encode_bmp
                write_ok save_debris file_path st in
  let twice := browse_icon is_sep path_join image decode_image encode_bmp
                 write_ok save_debris file_path (snd once) in
  once = (Ok tt, icon_set a d t bytes st)
  /\ twice = once
  /\ selected_poster (snd once) = Some (VStr t)
  /\ selected_poster (snd twice) = Some (VStr t)
  /\ files (snd once) !! t = Some bytes
  /\ files (snd twice) !! t = Some bytes.
Proof.
  intros Hsep Hrec Hposter Hname Hfile Hopen cache t Henc Hw Hsrc Hpath once twice.
  assert (once = (Ok tt, icon_set a d t bytes st)) as Honce.
  { by eapply browse_icon_links. }
  assert (target_path is_sep path_join cache t name = t) as Hfix.
  { subst t. unfold target_path at 2 3, final_path_of.
    destruct Hpath as [[Hne Hnamed]|[Hempty (pre & Hjoin & Hpre)]].
    - destruct (PyStr.strip poster) as [|c p] eqn:Hp; [done|]. rewrite <- Hp in *.
      apply (target_path_fixed is_sep path_join Hsep).
      + by apply named_base.
      + eapply starts_clean_prefix; [apply splitext_base_prefix|].
        apply starts_clean_strip.
    - rewrite Hempty, safe_name_is_sanitize. fold cache. rewrite Hjoin.
      assert (pre +:+ sanitize name +:+ ".bmp"
              = (pre +:+ sanitize name) +:+ ".bmp") as ->.
      { clear. induction pre as [|c pre IH]; [done|].
        change (String c pre +:+ sanitize name +:+ ".bmp")
          with (String c (pre +:+ sanitize name +:+ ".bmp")).
        rewrite IH. reflexivity. }
      apply (target_path_fixed is_sep path_join Hsep).
      + by apply sanitize_named.
      + rewrite chars_app. apply starts_clean_app; [done|].
        apply sanitize_starts_clean. }
  assert (twice = once) as Htwice.
  { subst twice. rewrite Honce. cbn [snd].
    by eapply browse_icon_again. }
  assert (mem st !! a = Some (ODict d)) as Ha.
  { unfold selected_record in Hrec. repeat case_match; by simplify_eq. }
  assert (selected_poster (icon_set a d t bytes st) = Some (VStr t)) as Hlinked.
  { unfold selected_poster, selected_record in *.
    cbn [icon_set self mem set_icon_path_var selected_profile_index profiles].
    repeat case_match; simplify_eq.
    all: match goal with
         | H : <[_:=_]> _ !! _ = _ |- _ =>
             rewrite list_lookup_insert_eq in H by (by eapply lookup_lt_Some)
         end; simplify_eq.
    by rewrite dict_lookup_store_eq. }
  rewrite Htwice, Honce. cbn [snd]. split_and!; try done.
  all: cbn [icon_set files]; by rewrite lookup_insert_eq.
Qed.

Lemma demo_separators c : Demo.is_sep c = true -> c = "/"%char \/ c = "\"%char.
Proof.
  unfold Demo.is_sep. intros [H|H]%orb_true_iff; apply Ascii.eqb_eq in H; auto.
Qed.

Lemma browse_icon_twice_is_once_witness :
  (let once := Demo.browse_icon "C:\pics\app.png"
                 (Demo.browsing "My: App?" " C:\icons\old.png ") in
   let twice := Demo.browse_icon "C:\pics\app.png" (snd once) in
   twice = once
   /\ selected_poster (snd twice) = Some (VStr "C:\icons\old.bmp")
   /\ files (snd twice) !! "C:\icons\old.bmp" = Some "BMPNGDATA")
  /\ (let once := Demo.browse_icon "C:\pics\app.png" (Demo.browsing "My: App?" "") in
      let twice := Demo.browse_icon "C:\pics\app.png" (snd once) in
      twice = once
      /\ selected_poster (snd twice) = Some (VStr "C:\db\icon_cache\My_App.bmp")
      /\ files (snd twice) !! "C:\db\icon_cache\My_App.bmp" = Some "BMPNGDATA").
Proof.
  split.
  - destruct (browse_icon_twice_is_once Demo.is_sep Demo.path_join Demo.image
                Demo.decode_image Demo.encode_bmp Demo.write_ok Demo.save_debris
                (Demo.browsing "My: App?" " C:\icons\old.png ") "C:\pics\app.png"
                0%nat
                [("name", VStr "My: App?"); ("applicationPath", VStr "");
                 ("posterPath", VStr " C:\icons\old.png ")]
                " C:\icons\old.png " "My: App?" "PNGDATA" "BMPNGDATA")
      as (_ & H2 & _ & H4 & _ & H6);
      [apply demo_separators | by vm_compute.. | | by split_and!].
    left. split; by vm_compute.
  - destruct (browse_icon_twice_is_once Demo.is_sep Demo.path_join Demo.image
                Demo.decode_image Demo.encode_bmp Demo.write_ok Demo.save_debris
                (Demo.browsing "My: App?" "") "C:\pics\app.png"
                0%nat
                [("name", VStr "My: App?"); ("applicationPath", VStr "");
                 ("posterPath", VStr "")]
                "" "My: App?" "PNGDATA" "BMPNGDATA")
      as (_ & H2 & _ & H4 & _ & H6);
      [apply demo_separators | by vm_compute.. | | by split_and!].
    right. split; [by vm_compute|]. exists "C:\db\icon_cache\".
    split; by vm_compute.
Defined.

(** A record whose icon path names a folder: the first call links it to
    [C:\icons\.bmp], the second to [C:\icons\.bmp.bmp], another file. *)
Lemma browse_icon_twice_counterexample :
  let once := Demo.browse_icon "C:\pics\app.png" (Demo.browsing "x" "C:\icons\") in
  let twice := Demo.browse_icon "C:\pics\app.png" (snd once) in
  fst once = Ok tt /\ fst twice = Ok tt
  /\ selected_poster (snd once) = Some (VStr "C:\icons\.bmp")
  /\ selected_poster (snd twice) = Some (VStr "C:\icons\.bmp.bmp")
  /\ selected_poster (snd twice) <> selected_poster (snd once)
  /\ files (snd once) !! "C:\icons\.bmp.bmp" = None
  /\ files (snd twice) !! "C:\icons\.bmp.bmp" = Some "BMPNGDATA".
Proof. split_and!; by vm_compute. Qed.

(** * Further properties *)

#[local] Instance untouched_preorder : PreOrder untouched.
Proof.
  split; [intros st; by unfold untouched|].
  intros st1 st2 st3 (H1 & H2 & H3 & H4 & H5) (H1' & H2' & H3' & H4' & H5').
  split_and!; [by etrans | congruence..].
Qed.

#[local] Instance same_handles_preorder : PreOrder same_handles.
Proof.
  split; [intros st; by unfold same_handles|].
  intros st1 st2 st3 (H1 & H2) (H1' & H2').
  split; [by etrans | congruence].
Qed.

Lemma after_ret {A} (a : A) st (Q : A -> state -> Prop) :
  Q a st -> after (ret a) st Q.
Proof. done. Qed.

Lemma after_bind {A B} (m : M A) (k : A -> M B) st (Q : B -> state -> Prop) :
  after m st (fun a st' => after (k a) st' Q) -> after (bind m k) st Q.
Proof. unfold after, bind. destruct (m st) as [[a|e] st'] eqn:Hm; [done|done]. Qed.

Lemma after_skip {A B} (m : M A) (k : A -> M B) st (Q : B -> state -> Prop) :
  (forall a st', after (k a) st' Q) -> after (bind m k) st Q.
Proof.
  intros Hk. unfold after, bind.
  destruct (m st) as [[a|e] st']; [apply Hk | done].
Qed.

Lemma after_run {A} (m : M A) st (Q : A -> state -> Prop) a st' :
  after m st Q -> m st = (Ok a, st') -> Q a st'.
Proof. unfold after. intros H Hm. by rewrite Hm in H. Qed.

Lemma after_keeps {A} (R : relation state) (m : M A) st (Q : A -> state -> Prop) :
  keeps R m -> (forall a st', R st st' -> Q a st') -> after m st Q.
Proof.
  intros Hm HQ. unfold after. specialize (Hm st).
  destruct (m st) as [[a|e] st']; [by apply HQ | done].
Qed.

(** *** Computations that read objects and create new ones *)

Section Reading.
Context (R : relation state) `{!PreOrder R}.
Hypothesis R_mem : forall st h, mem st `prefix_of` h -> R st (with_mem h st).

Lemma reading_alloc o : keeps R (alloc o).
Proof. intros st. apply R_mem. by apply prefix_app_r. Qed.

Ltac reading_step :=
  first
    [ apply (keeps_ret R) | apply (keeps_raise R) | apply (keeps_get_state R)
    | apply (keeps_get_self R) | apply reading_alloc | apply (keeps_deref R)
    | apply (keeps_bind R); [|intros ?]
    | apply (keeps_try R); [|intros ?] ].

Ltac reading_auto :=
  repeat first [ reading_step | progress case_match | done ].

Lemma reading_py_get v k dflt : keeps R (py_get v k dflt).
Proof. unfold py_get. reading_auto. Qed.

Lemma reading_py_getitem v k : keeps R (py_getitem v k).
Proof. unfold py_getitem. reading_auto. Qed.

Lemma reading_isinstance_dict v : keeps R (isinstance_dict v).
Proof. unfold isinstance_dict. reading_auto. Qed.

Lemma reading_isinstance_list v : keeps R (isinstance_list v).
Proof. unfold isinstance_list. reading_auto. Qed.

Lemma reading_list_items v : keeps R (list_items v).
Proof. unfold list_items. reading_auto. Qed.

Section Loading.
Variable loads : string -> option json.

Lemma reading_decode_and_parse blob : keeps R (decode_and_parse loads blob).
Proof.
  unfold decode_and_parse. destruct blob; try apply (keeps_raise R).
  destruct (loads b) as [j|]; [|apply (keeps_raise R)].
  intros st. pose proof (alloc_json_prefix j (mem st)) as Hp.
  destruct (alloc_json j (mem st)) as [v h]. cbn. by apply R_mem.
Qed.

Lemma reading_load_row acc row : keeps R (load_row loads acc row).
Proof.
  unfold load_row. destruct row as [row_id blob].
  destruct (sql_falsy blob); [reading_auto|].
  apply (keeps_bind R).
  { apply (keeps_try R); [|intros; reading_auto].
    apply (keeps_bind R); [apply reading_decode_and_parse|].
    intros; reading_auto. }
  intros [parsed|]; [|reading_auto].
  apply (keeps_bind R); [apply reading_py_get|]. intros apps_section.
  apply (keeps_bind R); [apply reading_isinstance_dict|].
  intros [|]; [|reading_auto].
  apply (keeps_bind R); [apply reading_alloc|]. intros empty.
  apply (keeps_bind R); [apply reading_py_get|]. intros apps_list.
  apply (keeps_bind R); [apply reading_isinstance_list|].
  intros [|]; [|reading_auto].
  apply (keeps_bind R); [apply reading_list_items|]. intros; reading_auto.
Qed.

Lemma reading_sort_key p : keeps R (sort_key p).
Proof.
  unfold sort_key. apply (keeps_bind R); [apply reading_py_get|].
  intros []; reading_auto.
Qed.

Lemma reading_sort_profiles l : keeps R (sort_profiles l).
Proof.
  unfold sort_profiles. apply (keeps_bind R).
  - apply (keeps_traverse R). apply reading_sort_key.
  - intros; reading_auto.
Qed.

Lemma reading_load_profiles_from_db : keeps R (load_profiles_from_db loads).
Proof.
  unfold load_profiles_from_db.
  apply (keeps_bind R); [apply (keeps_get_state R)|]. intros st.
  apply (keeps_bind R).
  - apply (keeps_foldM R). apply reading_load_row.
  - intros; apply reading_sort_profiles.
Qed.
End Loading.

Lemma reading_populate_list : keeps R populate_list.
Proof.
  unfold populate_list.
  apply (keeps_bind R); [apply (keeps_get_self R)|]. intros e.
  apply (keeps_bind R); [|intros; reading_auto].
  apply (keeps_traverse R). intros; apply reading_py_get.
Qed.

Lemma reading_profile_at idx : keeps R (profile_at idx).
Proof. unfold profile_at. reading_auto. Qed.

Lemma reading_tk_string tk_other v : keeps R (tk_string tk_other v).
Proof. unfold tk_string. destruct v; reading_auto. Qed.

Lemma reading_find_name name l : forall i, keeps R (find_name name i l).
Proof.
  induction l as [|p l IH]; intros i; cbn; [reading_auto|].
  apply (keeps_bind R); [apply reading_py_get|]. intros n.
  destruct (eq_str n name); [reading_auto | apply IH].
Qed.

End Reading.

Lemma untouched_mem st h : mem st `prefix_of` h -> untouched st (with_mem h st).
Proof. intros Hh. by split_and!. Qed.

Lemma same_handles_mem st h : mem st `prefix_of` h -> same_handles st (with_mem h st).
Proof. intros Hh. by split. Qed.

(** X1. Whatever the rows hold, and whether it returns or raises,
    [load_profiles_from_db] writes nothing: the rows of the store, the
    files and the editor are what they were, and every object that was
    there is still there, unchanged. *)
Theorem load_profiles_from_db_only_reads
    (loads : string -> option json) (st : state) :
  untouched st (snd (load_profiles_from_db loads st)).
Proof.
  apply (reading_load_profiles_from_db untouched untouched_mem loads).
Qed.

(** *** Reading the kind of an object *)

Lemma isinstance_dict_read v st :
  isinstance_dict v st
  = (match v with
     | VRef a =>
         match mem st !! a with
         | Some (ODict _) => Ok true
         | Some (OList _) => Ok false
         | None => Raise SystemError
         end
     | _ => Ok false
     end, st).
Proof.
  destruct v as [| | | |a]; try done.
  unfold isinstance_dict, bind, deref. by destruct (mem st !! a) as [[]|].
Qed.

Lemma isinstance_list_read v st :
  isinstance_list v st
  = (match v with
     | VRef a =>
         match mem st !! a with
         | Some (OList _) => Ok true
         | Some (ODict _) => Ok false
         | None => Raise SystemError
         end
     | _ => Ok false
     end, st).
Proof.
  destruct v as [| | | |a]; try done.
  unfold isinstance_list, bind, deref. by destruct (mem st !! a) as [[]|].
Qed.

Lemma list_items_read v st :
  list_items v st
  = (match v with
     | VRef a =>
         match mem st !! a with
         | Some (OList l) => Ok l
         | Some (ODict _) => Raise TypeError
         | None => Raise SystemError
         end
     | _ => Raise TypeError
     end, st).
Proof.
  destruct v as [| | | |a]; try done.
  unfold list_items, bind, deref. by destruct (mem st !! a) as [[]|].
Qed.

Lemma try_decode_run loads blob st :
  try_except (let* v := decode_and_parse loads blob in ret (Some v))%py
             (fun _ => ret None) st
  = match blob with
    | SqlBlob b =>
        match loads b with
        | Some j => (Ok (Some (fst (alloc_json j (mem st)))),
                     with_mem (snd (alloc_json j (mem st))) st)
        | None => (Ok None, st)
        end
    | _ => (Ok None, st)
    end.
Proof.
  unfold try_except. rewrite bind_run. unfold decode_and_parse.
  destruct blob as [| | |b]; try done.
  destruct (loads b) as [j|]; [|done]. by destruct (alloc_json j (mem st)).
Qed.

(** ** Handles point into their documents *)

Lemma owned_mono h h' it : owned h it -> h `prefix_of` h' -> owned h' it.
Proof.
  intros (doc & dd & sa & sd & la & items & H1 & H2 & H3 & H4 & H5 & H6 & H7) Hh.
  exists doc, dd, sa, sd, la, items.
  split_and!; try done; by eapply prefix_lookup_Some.
Qed.

Ltac inv_run H := unfold ret, raise in H; simplify_eq.

Section Owned.
Variable loads : string -> option json.
Variable Q : Z -> Prop.

Local Abbreviation good h := (fun it => owned h it /\ Q (db_row_id it)).

Lemma good_mono h h' l :
  Forall (good h) l -> h `prefix_of` h' -> Forall (good h') l.
Proof.
  intros Hl Hh. eapply Forall_impl; [exact Hl|].
  intros it [Ho Hq]. split; [by eapply owned_mono | done].
Qed.

Lemma load_row_owned acc row st acc' st' :
  load_row loads acc row st = (Ok acc', st') ->
  Forall (good (mem st)) acc -> Q (fst row) ->
  Forall (good (mem st')) acc'.
Proof.
  intros Hrun Hacc HQ.
  assert (mem st `prefix_of` mem st') as Hgrow.
  { pose proof (allocates_load_row loads acc row st) as Hg.
    rewrite Hrun in Hg. apply Hg. }
  pose proof (good_mono _ _ _ Hacc Hgrow) as Hacc'.
  unfold load_row in Hrun. destruct row as [row_id blob]. cbn [fst] in HQ.
  destruct (sql_falsy blob); [by inv_run Hrun|].
  rewrite bind_run, try_decode_run in Hrun.
  destruct blob as [| | |b]; try by inv_run Hrun.
  destruct (loads b) as [j|]; [|by inv_run Hrun].
  destruct (alloc_json j (mem st)) as [v h]. cbn [fst snd] in Hrun.
  rewrite bind_run, py_get_read in Hrun. cbn [mem with_mem] in Hrun.
  destruct v as [| | | |doc]; try done.
  destruct (h !! doc) as [[dd|]|] eqn:Hdoc; try done.
  rewrite bind_run, isinstance_dict_read in Hrun. cbn [mem with_mem] in Hrun.
  destruct (dict_lookup "applications" dd) as [[| | | |sa]|] eqn:Hsec;
    cbn [from_option id] in Hrun; try by inv_run Hrun.
  destruct (h !! sa) as [[sd|]|] eqn:Hsa; try by inv_run Hrun.
  rewrite bind_run, alloc_run in Hrun. cbn [mem with_mem] in Hrun.
  rewrite bind_run, py_get_read in Hrun. cbn [mem with_mem] in Hrun.
  rewrite (lookup_app_l_Some _ _ _ _ Hsa) in Hrun.
  rewrite bind_run, isinstance_list_read in Hrun. cbn [mem with_mem] in Hrun.
  destruct (dict_lookup "applications" sd) as [[| | | |la]|] eqn:Hlist;
    cbn [from_option id] in Hrun; try by inv_run Hrun.
  - destruct ((h ++ [OList []]) !! la) as [[|items]|] eqn:Hla; try by inv_run Hrun.
    rewrite bind_run, list_items_read in Hrun. cbn [mem with_mem] in Hrun.
    rewrite Hla in Hrun. inv_run Hrun. cbn [mem with_mem] in *.
    apply Forall_app. split; [done|].
    apply Forall_fmap, Forall_forall. intros x Hx. cbn. split; [|done].
    exists doc, dd, sa, sd, la, items.
    split_and!; try done; by apply lookup_app_l_Some.
  - rewrite list_lookup_middle in Hrun by done.
    rewrite bind_run, list_items_read in Hrun. cbn [mem with_mem] in Hrun.
    rewrite list_lookup_middle in Hrun by done. inv_run Hrun.
    by rewrite app_nil_r.
Qed.

Lemma load_rows_owned rows : forall acc st l st',
  foldM (load_row loads) acc rows st = (Ok l, st') ->
  Forall (good (mem st)) acc -> Forall Q (map fst rows) ->
  Forall (good (mem st')) l.
Proof.
  induction rows as [|row rows IH]; intros acc st l st' Hrun Hacc HQ.
  { cbn in Hrun. by inv_run Hrun. }
  cbn [foldM] in Hrun. rewrite bind_run in Hrun.
  destruct (load_row loads acc row st) as [[acc1|e] st1] eqn:Hrow; [|done].
  cbn [map] in HQ. apply Forall_cons in HQ as [Hq HQ].
  eapply IH; [exact Hrun | | exact HQ].
  by eapply load_row_owned.
Qed.

End Owned.

(** The key of a handle is computed without a change of the state, and
    only for a record that is a dictionary with a string for a name. *)
Lemma sort_key_ok it st k st' :
  sort_key it st = (Ok k, st') -> st' = st /\ name_key (mem st) it = Some k.
Proof.
  unfold sort_key, name_key. rewrite bind_run, py_get_read.
  destruct (profile it) as [| | | |a]; try done.
  destruct (mem st !! a) as [[d|]|]; try done.
  destruct (dict_lookup "name" d) as [[| | |s|]|]; cbn; try done.
  all: by intros H; inv_run H.
Qed.

Lemma traverse_sort_key_ok l : forall st keys st',
  traverse sort_key l st = (Ok keys, st') ->
  st' = st /\ Forall2 (fun it k => name_key (mem st) it = Some k) l keys.
Proof.
  induction l as [|it l IH]; intros st keys st' Hrun; cbn in Hrun.
  { inv_run Hrun. by split. }
  rewrite bind_run in Hrun.
  destruct (sort_key it st) as [[k|e] st1] eqn:Hk; [|done].
  apply sort_key_ok in Hk as [-> Hk].
  rewrite bind_run in Hrun.
  destruct (traverse sort_key l st) as [[ks|e] st2] eqn:Hks; [|done].
  apply IH in Hks as [-> Hks]. inv_run Hrun.
  split; [done|]. by constructor.
Qed.

Lemma sort_profiles_ok l st l' st' :
  sort_profiles l st = (Ok l', st') ->
  st' = st /\ l' ≡ₚ l /\ Forall (fun it => is_Some (name_key (mem st) it)) l.
Proof.
  unfold sort_profiles. rewrite bind_run.
  destruct (traverse sort_key l st) as [[keys|e] st1] eqn:Hkeys; [|done].
  apply traverse_sort_key_ok in Hkeys as [-> Hkeys]. intros H; inv_run H.
  split; [done|]. split.
  - rewrite sort_by_key_perm. rewrite snd_zip; [done|].
    by rewrite (Forall2_length _ _ _ Hkeys).
  - clear -Hkeys. induction Hkeys; constructor; [by eexists | done].
Qed.

Lemma load_profiles_from_db_ok loads st l st' :
  load_profiles_from_db loads st = (Ok l, st') ->
  exists l0,
    foldM (load_row loads) [] (db st) st = (Ok l0, st')
    /\ l ≡ₚ l0
    /\ Forall (fun it => is_Some (name_key (mem st') it)) l.
Proof.
  unfold load_profiles_from_db. rewrite bind_run. unfold get_state. cbv beta iota.
  rewrite bind_run.
  destruct (foldM (load_row loads) [] (db st) st) as [[l0|e] st1] eqn:Hfold; [|done].
  intros Hsort. apply sort_profiles_ok in Hsort as (-> & Hperm & Hkeys).
  exists l0. split_and!; [done..|]. by rewrite Hperm.
Qed.

(** X2. Every handle [load_profiles_from_db] returns points into its
    document: [entire_json] is a dictionary whose ["applications"] is a
    dictionary whose ["applications"] is a list, and [profile] is an item
    of that very list (the same object, not a copy); and [db_row_id] is
    the identifier of a row of the store. *)
Theorem load_handles_point_into_documents
    (loads : string -> option json) (st : state) (l : list item) (st' : state) :
  load_profiles_from_db loads st = (Ok l, st') ->
  Forall (fun it => owned (mem st') it /\ db_row_id it ∈ map fst (db st)) l.
Proof.
  intros Hrun.
  destruct (load_profiles_from_db_ok _ _ _ _ Hrun) as (l0 & Hfold & Hperm & _).
  rewrite Hperm.
  eapply (load_rows_owned loads (fun n => n ∈ map fst (db st)));
    [exact Hfold | constructor |].
  by apply Forall_forall.
Qed.

Lemma load_handles_point_into_documents_witness :
  exists l st',
    Demo.load (Demo.boot Demo.second_row_unreadable) = (Ok l, st')
    /\ length l = 3%nat
    /\ Forall (fun it => owned (mem st') it
                         /\ db_row_id it ∈ map fst Demo.second_row_unreadable) l.
Proof.
  eexists _, _. split; [vm_compute; reflexivity|]. split; [reflexivity|].
  apply (load_handles_point_into_documents JsonText.loads
           (Demo.boot Demo.second_row_unreadable)).
  vm_compute. reflexivity.
Defined.

(** ** Writing a row *)

Lemma sql_update_ids row_id blob rows :
  map fst (sql_update row_id blob rows) = map fst rows.
Proof.
  unfold sql_update. rewrite <- list_fmap_compose. apply list_fmap_ext.
  intros i row _. cbn. by destruct (fst row =? row_id).
Qed.

Lemma sql_update_lookup row_id blob rows i row :
  rows !! i = Some row ->
  sql_update row_id blob rows !! i
  = Some (if fst row =? row_id then (fst row, blob) else row).
Proof. intros Hrow. unfold sql_update. by rewrite list_lookup_fmap, Hrow. Qed.



(** ** Loading what was saved *)

Lemma load_profiles_from_db_run loads st :
  (forall row j, row ∈ db st -> payload_json loads (snd row) = Some j ->
                 document_shaped j) ->
  exists l st',
    load_profiles_from_db loads st = (Ok l, st')
    /\ untouched st st'
    /\ exists l0, l ≡ₚ l0
                  /\ Forall2 (handle_of (mem st')) l0 (store_profiles loads (db st)).
Proof.
  intros Hshape.
  destruct (load_rows_spec loads (db st) st [] []) as (l0 & st1 & Hfold & Hgrow & Hl0).
  { intros row j Hrow Hj. by destruct (Hshape row j Hrow Hj). }
  { constructor. }
  cbn [app] in Hl0.
  pose proof (store_profiles_shaped loads (db st) Hshape) as Hrecords.
  assert (Forall (fun it => is_Some (name_key (mem st1) it)) l0) as Hkeys.
  { clear Hfold. induction Hl0 as [|it p l0 ps Hp _ IH]; [constructor|].
    apply Forall_cons in Hrecords as [Hr Hrecords].
    constructor; [by eapply name_key_of_record | by apply IH]. }
  assert (load_profiles_from_db loads st
          = (Ok (map snd (sort_by_key
                            (map (fun x => (display_key (mem st1) x, x)) l0))), st1))
    as Hrun.
  { unfold load_profiles_from_db.
    rewrite bind_run. unfold get_state. cbv beta iota.
    rewrite bind_run, Hfold. by apply sort_profiles_run. }
  eexists _, st1. split; [exact Hrun|]. split.
  - pose proof (reading_load_profiles_from_db untouched untouched_mem loads st)
      as Hread.
    by rewrite Hrun in Hread.
  - exists l0. split; [apply sorted_handles_perm | done].
Qed.

Lemma store_profiles_after_save loads dumps row_id J rows :
  loads (dumps J) = Some J -> dumps J <> EmptyString ->
  store_profiles loads (sql_update row_id (SqlBlob (dumps J)) rows)
  = profiles_after_save loads row_id J rows.
Proof.
  intros Hround Hne. unfold store_profiles, profiles_after_save, sql_update.
  induction rows as [|row rows IH]; [done|]. cbn [map flat_map]. rewrite IH.
  f_equal. destruct (Z.eqb_spec (fst row) row_id) as [Heq|]; [|done].
  unfold row_profiles, payload_json. cbn [fst snd sql_falsy].
  apply String.eqb_neq in Hne as ->. by rewrite Hround, Heq.
Qed.

(** X4. What [save_profile_to_db] writes is what [load_profiles_from_db]
    reads next. If the document has the JSON text [J], the database
    accepts the write, the text of [J] is not empty and parses back to
    [J], and [J] and the payloads of the other rows are documents, then
    saving and loading returns one handle for each profile of the store
    in which the rows [row_id] hold [J]: the records of [J] for these
    rows, and the records the other rows had. *)
Theorem saved_document_loads_back
    (loads : string -> option json) (dumps : json -> string)
    (row_id : Z) (doc : pyval) (J : json) (st : state) :
  py_dumps (mem st) doc = Some J ->
  db_write_fails st = false ->
  loads (dumps J) = Some J ->
  dumps J <> EmptyString ->
  document_shaped J ->
  (forall row j, row ∈ db st -> fst row <> row_id ->
                 payload_json loads (snd row) = Some j -> document_shaped j) ->
  exists l st',
    (let* _ := save_profile_to_db dumps row_id doc in
     load_profiles_from_db loads)%py st = (Ok l, st')
    /\ map (fun it => (db_row_id it, py_dumps (mem st') (profile it))) l
       ≡ₚ map (fun p => (fst p, Some (snd p)))
            (profiles_after_save loads row_id J (db st)).
Proof.
  intros Hdump Hfail Hround Hne HJ Hothers.
  rewrite bind_run, save_profile_to_db_run. cbv beta iota.
  unfold saved_rows. rewrite Hdump, Hfail.
  set (st1 := with_db _ st).
  destruct (load_profiles_from_db_run loads st1) as (l & st' & Hrun & _ & l0 & Hperm & Hl0).
  { intros row j Hrow Hj. cbn [st1 db with_db] in Hrow. unfold sql_update in Hrow.
    apply list_elem_of_fmap in Hrow as (row0 & -> & Hrow0).
    destruct (Z.eqb_spec (fst row0) row_id) as [Heq|Hneq].
    - unfold payload_json in Hj. cbn [snd sql_falsy] in Hj.
      apply String.eqb_neq in Hne. rewrite Hne, Hround in Hj. by simplify_eq.
    - by eapply Hothers. }
  exists l, st'. split; [exact Hrun|].
  cbn [st1 db with_db] in Hl0.
  rewrite (store_profiles_after_save _ _ _ _ _ Hround Hne) in Hl0.
  rewrite Hperm. erewrite Forall2_fmap_eq; [done|].
  eapply Forall2_impl; [exact Hl0|]. intros it p [Hid Hr]. cbv beta.
  by rewrite Hid, (reads_as_dumps _ _ _ Hr).
Qed.

Lemma demo_record_shaped name : record_shaped (Demo.record name).
Proof. eexists. split; [reflexivity|]. right. by eexists. Qed.

(** The document of the store [b], [a] with its rows exchanged: the
    second row's document is written to the first row. *)
Lemma saved_document_loads_back_witness :
  exists l st',
    (let* _ := save_profile_to_db JsonText.dumps 1 (VRef 8%nat) in
     load_profiles_from_db JsonText.loads)%py Demo.b_then_a = (Ok l, st')
    /\ map (fun it => (db_row_id it, py_dumps (mem st') (profile it))) l
       ≡ₚ [(1, Some (Demo.record "a")); (2, Some (Demo.record "a"))].
Proof.
  apply (saved_document_loads_back JsonText.loads JsonText.dumps 1 (VRef 8%nat)
           (Demo.document [Demo.record "a"]) Demo.b_then_a).
  - reflexivity.
  - reflexivity.
  - reflexivity.
  - by vm_compute.
  - split; [by eexists|]. repeat constructor. apply (demo_record_shaped "a").
  - intros row j Hrow Hne Hj. vm_compute in Hrow.
    apply elem_of_cons in Hrow as [->|Hrow]; [done|].
    apply list_elem_of_singleton in Hrow as ->.
    vm_compute in Hj. injection Hj as <-. split; [by eexists|].
    repeat constructor. apply (demo_record_shaped "a").
Defined.

Lemma bind_ok_inv {A B} (m : M A) (k : A -> M B) st b st' :
  bind m k st = (Ok b, st') ->
  exists a st1, m st = (Ok a, st1) /\ k a st1 = (Ok b, st').
Proof.
  rewrite bind_run. destruct (m st) as [[a|e] st1]; [|done].
  intros Hk. by exists a, st1.
Qed.

Lemma py_setitem_read v k x st :
  py_setitem v k x st
  = match v with
    | VRef a =>
        match mem st !! a with
        | Some (ODict d) =>
            (Ok tt, with_mem (<[a := ODict (dict_store k x d)]> (mem st)) st)
        | Some (OList _) => (Raise TypeError, st)
        | None => (Raise SystemError, st)
        end
    | _ => (Raise TypeError, st)
    end.
Proof.
  destruct v as [| | | |a]; try done.
  unfold py_setitem, bind, deref. by destruct (mem st !! a) as [[]|].
Qed.

Lemma py_getitem_read v k st :
  py_getitem v k st
  = (match v with
     | VRef a =>
         match mem st !! a with
         | Some (ODict d) =>
             match dict_lookup k d with
             | Some x => Ok x
             | None => Raise KeyError
             end
         | Some (OList _) => Raise TypeError
         | None => Raise SystemError
         end
     | _ => Raise TypeError
     end, st).
Proof.
  destruct v as [| | | |a]; try done.
  unfold py_getitem, bind, deref. destruct (mem st !! a) as [[d|]|]; try done.
  by destruct (dict_lookup k d).
Qed.

Lemma tk_string_read tk_other v st :
  tk_string tk_other v st
  = (Ok (match v with VStr s => s | _ => tk_other (mem st) v end), st).
Proof. by destruct v. Qed.

Lemma update_self_run f st : update_self f st = (Ok tt, with_self (f (self st)) st).
Proof. reflexivity. Qed.

(** A click on a line whose record is a dictionary fills the three
    fields and selects the line. *)
Lemma on_profile_select_run tk_other st idx it a d :
  profiles (self st) !! idx = Some it ->
  profile it = VRef a ->
  mem st !! a = Some (ODict d) ->
  on_profile_select tk_other (Some idx) st
  = (Ok tt, with_self (showing tk_other (mem st) idx d (self st)) st).
Proof.
  intros Hit Hprof Ha. unfold on_profile_select.
  rewrite bind_run, update_self_run. cbv beta iota.
  rewrite bind_run, profile_at_read. cbn [self with_self set_selected profiles].
  rewrite Hit. cbv beta iota. rewrite Hprof.
  rewrite bind_run, py_get_read. cbn [mem with_self]. rewrite Ha. cbv beta iota.
  rewrite bind_run, tk_string_read. cbv beta iota.
  rewrite bind_run, update_self_run. cbv beta iota.
  rewrite bind_run, py_get_read. cbn [mem with_self]. rewrite Ha. cbv beta iota.
  rewrite bind_run, tk_string_read. cbv beta iota.
  rewrite bind_run, update_self_run. cbv beta iota.
  rewrite bind_run, py_get_read. cbn [mem with_self]. rewrite Ha. cbv beta iota.
  rewrite bind_run, tk_string_read. cbv beta iota.
  rewrite update_self_run. unfold showing, field_text. cbn [mem with_self self].
  by destruct (dict_lookup "name" d) as [[]|],
       (dict_lookup "applicationPath" d) as [[]|],
       (dict_lookup "posterPath" d) as [[]|].
Qed.

Lemma find_name_run name l st : forall i,
  Forall (is_record (mem st)) l ->
  find_name name i l st
  = (Ok (Nat.add i <$> first_index (is_named (mem st) name) l), st).
Proof.
  induction l as [|it l IH]; intros i Hl; [done|].
  apply Forall_cons in Hl as [(a & d & Hprof & Ha) Hl].
  cbn [find_name first_index]. rewrite bind_run, py_get_read, Hprof, Ha.
  cbv beta iota. unfold is_named. rewrite Hprof, Ha.
  assert (forall r : option nat,
            Nat.add (S i) <$> r = Nat.add i <$> (S <$> r)) as Hshift.
  { intros [n|]; cbn; [|done]. f_equal. lia. }
  destruct (dict_lookup "name" d) as [v|]; cbn [from_option id eq_str].
  - destruct (eq_str v name).
    + unfold ret. cbn. by rewrite Nat.add_0_r.
    + rewrite IH by done. by rewrite Hshift.
  - rewrite IH by done. by rewrite Hshift.
Qed.

Lemma first_index_Some {A} (P : A -> bool) l i :
  first_index P l = Some i ->
  exists x, l !! i = Some x /\ P x = true
            /\ forall j y, (j < i)%nat -> l !! j = Some y -> P y = false.
Proof.
  revert i. induction l as [|x l IH]; intros i; cbn; [done|].
  destruct (P x) eqn:Hx.
  - intros [= <-]. exists x. split_and!; [done..|]. intros; lia.
  - destruct (first_index P l) as [i'|]; [|done]. cbn. intros [= <-].
    destruct (IH i' eq_refl) as (y & Hy & HPy & Hbefore).
    exists y. split_and!; [done..|].
    intros [|j] z Hj; cbn; [by intros [= <-]|].
    intros Hz. apply (Hbefore j z); [lia | done].
Qed.

Lemma first_index_None {A} (P : A -> bool) l :
  first_index P l = None -> Forall (fun x => P x = false) l.
Proof.
  induction l as [|x l IH]; cbn; [constructor|].
  destruct (P x) eqn:Hx; [done|].
  destruct (first_index P l); [done|]. intros _. constructor; [done | by apply IH].
Qed.

(** The loops that look for a name: the first line of the list box whose
    record has the name is selected, and its fields are shown; without
    such a line nothing changes. *)
Lemma select_by_name_run tk_other name st :
  Forall (is_record (mem st)) (profiles (self st)) ->
  match first_index (is_named (mem st) name) (profiles (self st)) with
  | Some i =>
      exists it a d,
        profiles (self st) !! i = Some it /\ profile it = VRef a
        /\ mem st !! a = Some (ODict d)
        /\ dict_lookup "name" d = Some (VStr name)
        /\ select_by_name tk_other name st
           = (Ok tt, with_self (showing tk_other (mem st) i d (self st)) st)
  | None => select_by_name tk_other name st = (Ok tt, st)
  end.
Proof.
  intros Hrecords. unfold select_by_name.
  rewrite bind_run, get_self_run. cbv beta iota.
  rewrite bind_run, (find_name_run _ _ _ _ Hrecords). cbv beta iota.
  destruct (first_index _ _) as [i|] eqn:Hfirst; cbn [fmap option_fmap option_map];
    [|done].
  destruct (first_index_Some _ _ _ Hfirst) as (it & Hit & Hnamed & _).
  unfold is_named in Hnamed.
  destruct (profile it) as [| | | |a] eqn:Hprof; try done.
  destruct (mem st !! a) as [[d|]|] eqn:Ha; try done.
  destruct (dict_lookup "name" d) as [[| | |s|]|] eqn:Hname; try done.
  cbn in Hnamed. apply String.eqb_eq in Hnamed as ->.
  exists it, a, d. split_and!; try done.
  unfold try_except. cbn [Nat.add].
  by rewrite (on_profile_select_run _ _ _ _ _ _ Hit Hprof Ha).
Qed.

(** ** What the methods do before and after they load the store again *)

Lemma reload_ok loads st st' :
  reload loads st = (Ok tt, st') ->
  exists l st_l,
    load_profiles_from_db loads st = (Ok l, st_l)
    /\ st' = with_self (set_profiles l (self st_l)) st_l.
Proof.
  unfold reload. intros (l & st_l & Hload & Hset)%bind_ok_inv.
  rewrite update_self_run in Hset. exists l, st_l. by simplify_eq.
Qed.

Lemma populate_list_state st : snd (populate_list st) = st.
Proof.
  assert (keeps eq populate_list) as Hkeeps; [|symmetry; apply Hkeeps].
  unfold populate_list.
  apply (keeps_bind eq); [apply (keeps_get_self eq)|]. intros e.
  apply (keeps_bind eq); [|intros; apply (keeps_ret eq)].
  apply (keeps_traverse eq). intros it st0. by rewrite py_get_read.
Qed.

Lemma populate_list_ok st st' : populate_list st = (Ok tt, st') -> st' = st.
Proof. intros H. by rewrite <- (populate_list_state st), H. Qed.

(** After a load that returned, every handle is the handle of a record. *)
Lemma reload_records loads st st' :
  reload loads st = (Ok tt, st') ->
  Forall (is_record (mem st')) (profiles (self st'))
  /\ untouched st (with_self (self st) st')
  /\ self st' = set_profiles (profiles (self st')) (self st).
Proof.
  intros (l & st_l & Hload & ->)%reload_ok.
  pose proof (reading_load_profiles_from_db untouched untouched_mem loads st) as Hread.
  rewrite Hload in Hread. cbn [snd] in Hread.
  destruct (load_profiles_from_db_ok _ _ _ _ Hload) as (_ & _ & _ & Hkeys).
  cbn [mem self with_self set_profiles profiles]. split_and!.
  - eapply Forall_impl; [exact Hkeys|]. intros it [k Hk].
    unfold name_key in Hk. unfold is_record.
    destruct (profile it) as [| | | |a]; try done.
    destruct (mem st_l !! a) as [[d|]|] eqn:Ha; try done. by exists a, d.
  - destruct Hread as (? & ? & ? & ? & ?). by split_and!.
  - destruct Hread as (_ & _ & _ & _ & ->). by destruct (self st).
Qed.

Lemma save_changes_unfold loads dumps tk_other st idx it a d :
  selected_profile_index (self st) = Some idx ->
  profiles (self st) !! idx = Some it ->
  profile it = VRef a ->
  mem st !! a = Some (ODict d) ->
  let h := <[a := ODict (written_record (self st) d)]> (mem st) in
  let st_w :=
    with_db (saved_rows dumps (db_row_id it) (entire_json it) h st) (with_mem h st) in
  save_changes loads dumps tk_other st
  = (let* _ := reload loads in
     let* _ := populate_list in
     select_by_name tk_other (name_entry_var (self st)))%py st_w.
Proof.
  intros Hsel Hit Hprof Ha h st_w.
  assert (a < length (mem st))%nat as Hlt by (by eapply lookup_lt_Some).
  unfold save_changes.
  rewrite bind_run, get_self_run. cbv beta iota. rewrite Hsel.
  rewrite bind_run, (profile_at_run _ _ _ Hit). cbv beta iota. rewrite Hprof.
  rewrite bind_run, py_setitem_read, Ha. cbv beta iota.
  rewrite bind_run, py_setitem_read. cbn [mem with_mem].
  rewrite list_lookup_insert_eq by done. cbv beta iota.
  rewrite bind_run, py_setitem_read. cbn [mem with_mem].
  rewrite list_lookup_insert_eq by (by rewrite length_insert). cbv beta iota.
  rewrite !list_insert_insert_eq.
  fold (written_record (self st) d). fold h.
  rewrite bind_run, save_profile_to_db_run. cbv beta iota.
  cbn [mem with_mem].
  change (with_db _ _) with st_w.
  rewrite !bind_run.
  destruct (reload loads st_w) as [[u|e] st_r] eqn:Hreload; [destruct u|done].
  rewrite !bind_run.
  destruct (populate_list st_r) as [[u|e] st_p] eqn:Hpop; [destruct u|done].
  apply populate_list_ok in Hpop as ->.
  rewrite bind_run, py_getitem_read.
  destruct (reload_records _ _ _ Hreload) as (_ & (Hmem & _) & _).
  cbn [mem with_self] in Hmem.
  assert (mem st_r !! a = Some (ODict (written_record (self st) d))) as Har.
  { eapply prefix_lookup_Some; [|exact Hmem]. cbn [st_w mem with_db with_mem].
    subst h. by apply list_lookup_insert_eq. }
  rewrite Har. unfold written_record at 1.
  by rewrite !dict_lookup_store_ne, dict_lookup_store_eq by done.
Qed.

Lemma showing_profiles tk_other h idx d e :
  profiles (showing tk_other h idx d e) = profiles e.
Proof. reflexivity. Qed.

Lemma field_text_str tk_other h k d s :
  dict_lookup k d = Some (VStr s) -> field_text tk_other h k d = s.
Proof. unfold field_text. by intros ->. Qed.

(** What the search for a name leaves, read off the state it leaves. *)
Lemma select_by_name_ok tk_other name st st' :
  Forall (is_record (mem st)) (profiles (self st)) ->
  select_by_name tk_other name st = (Ok tt, st') ->
  mem st' = mem st /\ profiles (self st') = profiles (self st)
  /\ db st' = db st /\ files st' = files st
  /\ match first_index (is_named (mem st') name) (profiles (self st')) with
     | Some i => selected_profile_index (self st') = Some i
                 /\ name_entry_var (self st') = name
     | None => st' = st
     end.
Proof.
  intros Hrecords Hrun.
  pose proof (select_by_name_run tk_other name st Hrecords) as Hcase.
  destruct (first_index (is_named (mem st) name) (profiles (self st)))
    as [i|] eqn:Hfirst.
  - destruct Hcase as (it & a & d & Hit & Hprof & Ha & Hname & Hsel).
    rewrite Hsel in Hrun. simplify_eq.
    cbn [mem self with_self db files]. rewrite showing_profiles, Hfirst.
    split_and!; try done. cbn.
    by apply field_text_str.
  - rewrite Hcase in Hrun. simplify_eq. by rewrite Hfirst.
Qed.

(** X5. After [save_changes] has returned, the line it leaves selected
    is the first line of the new list whose record has the name that was
    in the name field, and the name field shows that name; when no
    record has this name, the selection and the three fields stay as
    they were. *)
Theorem save_changes_selects_first_line_with_name
    (loads : string -> option json) (dumps : json -> string)
    (tk_other : heap -> pyval -> string) (st : state) (idx : nat) (st' : state) :
  selected_profile_index (self st) = Some idx ->
  save_changes loads dumps tk_other st = (Ok tt, st') ->
  match first_index (is_named (mem st') (name_entry_var (self st)))
          (profiles (self st')) with
  | Some i => selected_profile_index (self st') = Some i
              /\ name_entry_var (self st') = name_entry_var (self st)
  | None => self st' = set_profiles (profiles (self st')) (self st)
  end.
Proof.
  intros Hsel Hrun. pose proof Hrun as Hrun0.
  unfold save_changes in Hrun.
  rewrite bind_run, get_self_run in Hrun. cbv beta iota in Hrun. rewrite Hsel in Hrun.
  rewrite bind_run, profile_at_read in Hrun.
  destruct (profiles (self st) !! idx) as [it|] eqn:Hit; [|done].
  cbv beta iota in Hrun. rewrite bind_run, py_setitem_read in Hrun.
  destruct (profile it) as [| | | |a] eqn:Hprof; try done.
  destruct (mem st !! a) as [[d|]|] eqn:Ha; try done. clear Hrun.
  rewrite (save_changes_unfold _ _ _ _ _ _ _ _ Hsel Hit Hprof Ha) in Hrun0.
  apply bind_ok_inv in Hrun0 as ([] & st_r & Hreload & Hrun0).
  apply bind_ok_inv in Hrun0 as ([] & st_p & Hpop & Hrun0).
  apply populate_list_ok in Hpop as ->.
  destruct (reload_records _ _ _ Hreload) as (Hrecords & _ & Hself).
  destruct (select_by_name_ok _ _ _ _ Hrecords Hrun0) as (_ & Hprofs & _ & _ & Hcase).
  destruct (first_index _ _) as [i|]; [done|]. by rewrite Hcase.
Qed.

(** The record [b] is renamed to [Zed]: the list is [A], [Zed], and the
    second line is selected. *)
Lemma save_changes_selects_first_line_with_name_witness :
  exists st',
    Demo.save_changes Demo.editing = (Ok tt, st')
    /\ selected_profile_index (self st') = Some 1%nat
    /\ name_entry_var (self st') = "Zed".
Proof.
  eexists. split; [by vm_compute|].
  match goal with
  | |- selected_profile_index (self ?s) = _ /\ _ =>
      pose proof (save_changes_selects_first_line_with_name
                    JsonText.loads JsonText.dumps Demo.tk_other
                    Demo.editing 1%nat s eq_refl) as H
  end.
  vm_compute in H. vm_compute. apply H. reflexivity.
Defined.

(** ** The editor object is only changed by the methods themselves *)

Lemma py_append_read v x st :
  py_append v x st
  = match v with
    | VRef a =>
        match mem st !! a with
        | Some (OList l) => (Ok tt, with_mem (<[a := OList (l ++ [x])]> (mem st)) st)
        | Some (ODict _) => (Raise AttributeError, st)
        | None => (Raise SystemError, st)
        end
    | _ => (Raise AttributeError, st)
    end.
Proof.
  destruct v as [| | | |a]; try done.
  unfold py_append, bind, deref. by destruct (mem st !! a) as [[]|].
Qed.

Lemma py_get_ok v k dflt st x st' :
  py_get v k dflt st = (Ok x, st') -> st' = st.
Proof. rewrite py_get_read. by intros [= _ <-]. Qed.

Lemma py_getitem_ok v k st x st' :
  py_getitem v k st = (Ok x, st') -> st' = st.
Proof. rewrite py_getitem_read. by intros [= _ <-]. Qed.

Lemma py_setitem_ok v k x st st' :
  py_setitem v k x st = (Ok tt, st') ->
  self st' = self st /\ db st' = db st /\ files st' = files st.
Proof. rewrite py_setitem_read. intros H. repeat case_match; by simplify_eq. Qed.

Lemma py_append_ok v x st st' :
  py_append v x st = (Ok tt, st') ->
  self st' = self st /\ db st' = db st /\ files st' = files st.
Proof. rewrite py_append_read. intros H. repeat case_match; by simplify_eq. Qed.

Lemma add_entry_ok loads dumps tk_other st st' :
  profiles (self st) <> [] ->
  add_entry loads dumps tk_other st = (Ok tt, st') ->
  exists st_w st_r,
    self st_w = self st
    /\ reload loads st_w = (Ok tt, st_r)
    /\ select_by_name tk_other "New Entry" st_r = (Ok tt, st').
Proof.
  intros Hne Hrun. unfold add_entry in Hrun.
  rewrite bind_run, get_self_run in Hrun. cbv beta iota in Hrun.
  destruct (profiles (self st)) as [|first rest]; [done|].
  rewrite bind_run, alloc_run in Hrun. cbv beta iota in Hrun.
  apply bind_ok_inv in Hrun as (apps_section & s1 & H1 & Hrun).
  apply py_get_ok in H1 as ->.
  rewrite bind_run, alloc_run in Hrun. cbv beta iota in Hrun.
  apply bind_ok_inv in Hrun as (apps_list & s2 & H2 & Hrun).
  apply py_get_ok in H2 as ->.
  rewrite bind_run, alloc_run in Hrun. cbv beta iota in Hrun.
  apply bind_ok_inv in Hrun as ([] & s3 & H3 & Hrun).
  apply py_append_ok in H3 as (Hs3 & _).
  apply bind_ok_inv in Hrun as ([] & s4 & H4 & Hrun).
  apply py_setitem_ok in H4 as (Hs4 & _).
  apply bind_ok_inv in Hrun as ([] & s5 & H5 & Hrun).
  apply py_setitem_ok in H5 as (Hs5 & _).
  rewrite bind_run, save_profile_to_db_run in Hrun. cbv beta iota in Hrun.
  apply bind_ok_inv in Hrun as ([] & st_r & Hreload & Hrun).
  apply bind_ok_inv in Hrun as ([] & st_p & Hpop & Hrun).
  apply populate_list_ok in Hpop as ->.
  eexists _, st_r. split_and!; [|exact Hreload | exact Hrun].
  cbn [self with_db]. by rewrite Hs5, Hs4, Hs3.
Qed.

(** X6. After [add_entry] has returned, the line it leaves selected is
    the first line of the new list whose record is named [New Entry] (the
    record it has just added, or an older one of that name), and the name
    field shows [New Entry]; when the new list has no such record, the
    selection and the three fields are what they were. *)
Theorem add_entry_selects_first_new_entry
    (loads : string -> option json) (dumps : json -> string)
    (tk_other : heap -> pyval -> string) (st st' : state) :
  profiles (self st) <> [] ->
  add_entry loads dumps tk_other st = (Ok tt, st') ->
  match first_index (is_named (mem st') "New Entry") (profiles (self st')) with
  | Some i => selected_profile_index (self st') = Some i
              /\ name_entry_var (self st') = "New Entry"
  | None => self st' = set_profiles (profiles (self st')) (self st)
  end.
Proof.
  intros Hne Hrun.
  destruct (add_entry_ok _ _ _ _ _ Hne Hrun) as (st_w & st_r & Hself & Hreload & Hsel).
  destruct (reload_records _ _ _ Hreload) as (Hrecords & _ & Hself_r).
  destruct (select_by_name_ok _ _ _ _ Hrecords Hsel) as (_ & _ & _ & _ & Hcase).
  destruct (first_index _ _) as [i|]; [done|]. by rewrite Hcase, Hself_r, Hself.
Qed.

(** A store with the records [b] and [a]: the new list is [a], [b],
    [New Entry], and the third line is selected. *)
Lemma add_entry_selects_first_new_entry_witness :
  exists st',
    Demo.add_entry Demo.b_then_a = (Ok tt, st')
    /\ selected_profile_index (self st') = Some 2%nat
    /\ name_entry_var (self st') = "New Entry".
Proof.
  eexists. split; [by vm_compute|].
  match goal with
  | |- selected_profile_index (self ?s) = _ /\ _ =>
      pose proof (add_entry_selects_first_new_entry
                    JsonText.loads JsonText.dumps Demo.tk_other
                    Demo.b_then_a s) as H
  end.
  vm_compute in H. vm_compute. apply H; [discriminate | reflexivity].
Defined.

(** ** [save_changes] and the store *)

Lemma saved_rows_facts dumps row_id v h st :
  let rows := saved_rows dumps row_id v h st in
  map fst rows = map fst (db st)
  /\ (forall i row, db st !! i = Some row -> fst row <> row_id ->
        rows !! i = Some row)
  /\ (forall j i row,
        py_dumps h v = Some j -> db_write_fails st = false ->
        db st !! i = Some row -> fst row = row_id ->
        rows !! i = Some (row_id, SqlBlob (dumps j)))
  /\ (py_dumps h v = None \/ db_write_fails st = true -> rows = db st).
Proof.
  cbv zeta. unfold saved_rows. split_and!.
  - destruct (py_dumps h v); [|done].
    destruct (db_write_fails st); [done | apply sql_update_ids].
  - intros i row Hrow Hne. destruct (py_dumps h v); [|done].
    destruct (db_write_fails st); [done|].
    rewrite (sql_update_lookup _ _ _ _ _ Hrow).
    by destruct (Z.eqb_spec (fst row) row_id).
  - intros j i row -> -> Hrow Heq.
    rewrite (sql_update_lookup _ _ _ _ _ Hrow).
    destruct (Z.eqb_spec (fst row) row_id); [by rewrite Heq | done].
  - intros [-> | ->]; [done|]. by destruct (py_dumps h v).
Qed.

(** X7. [save_changes] writes the document of the selected handle, as it
    reads once the three fields are in the record, to the rows with the
    handle's identifier, and writes nothing else: every other row keeps
    its payload, no row is added or removed, no file is touched. When the
    document has no JSON text or the database refuses the write, the
    store is left as it was, though the record in memory has changed. *)
Theorem save_changes_writes_the_document
    (loads : string -> option json) (dumps : json -> string)
    (tk_other : heap -> pyval -> string)
    (st : state) (idx : nat) (it : item) (a : addr) (d : list (string * pyval)) :
  selected_profile_index (self st) = Some idx ->
  profiles (self st) !! idx = Some it ->
  profile it = VRef a ->
  mem st !! a = Some (ODict d) ->
  let st' := snd (save_changes loads dumps tk_other st) in
  let h := <[a := ODict (written_record (self st) d)]> (mem st) in
  db st' = saved_rows dumps (db_row_id it) (entire_json it) h st
  /\ files st' = files st
  /\ map fst (db st') = map fst (db st)
  /\ (forall i row, db st !! i = Some row -> fst row <> db_row_id it ->
        db st' !! i = Some row)
  /\ (forall j i row,
        py_dumps h (entire_json it) = Some j -> db_write_fails st = false ->
        db st !! i = Some row -> fst row = db_row_id it ->
        db st' !! i = Some (db_row_id it, SqlBlob (dumps j)))
  /\ (py_dumps h (entire_json it) = None \/ db_write_fails st = true ->
      db st' = db st /\ h `prefix_of` mem st').
Proof.
  intros Hsel Hit Hprof Ha st' h.
  assert (db st' = saved_rows dumps (db_row_id it) (entire_json it) h st
          /\ files st' = files st /\ h `prefix_of` mem st') as (Hdb & Hfiles & Hmem).
  { subst st'. rewrite (save_changes_unfold _ _ _ _ _ _ _ _ Hsel Hit Hprof Ha).
    fold h.
    match goal with
    | |- context [snd (?m ?s)] =>
        assert (allocates m) as Halloc;
        [|destruct (Halloc s) as (Hm & Hd & _ & Hf)]
    end.
    { repeat first
        [ apply allocates_reload | apply allocates_populate_list
        | apply allocates_select_by_name
        | apply allocates_bind; [|intros ?] ]. }
    by split_and!. }
  destruct (saved_rows_facts dumps (db_row_id it) (entire_json it) h st)
    as (Hids & Hother & Hhit & Hkeep).
  rewrite Hdb. split_and!; try done.
  intros Hfail. split; [by apply Hkeep | done].
Qed.

Lemma save_changes_writes_the_document_witness :
  let st' := snd (Demo.save_changes Demo.editing) in
  Demo.stored st'
  = [(1, Some (Demo.document
                 [JObj [("applicationId", JStr "id-1"); ("name", JStr "Zed");
                        ("categoryColors", JArr [JInt 1; JInt 2]);
                        ("posterPath", JStr "C:\new.bmp");
                        ("applicationPath", JStr "C:\app.exe")];
                  Demo.record "A"]))]
  /\ files st' = files Demo.editing
  /\ map fst (db st') = [1].
Proof.
  destruct (save_changes_writes_the_document
              JsonText.loads JsonText.dumps Demo.tk_other Demo.editing 1%nat
              (Item 1 (VRef 5%nat) (VRef 1%nat)) 1%nat
              [("applicationId", VStr "id-1"); ("name", VStr "b");
               ("categoryColors", VRef 0%nat); ("posterPath", VStr "C:\old.png")])
    as (Hdb & Hfiles & Hids & _); [reflexivity..|].
  split_and!; [|exact Hfiles | exact Hids].
  unfold Demo.stored, Demo.save_changes. rewrite Hdb. by vm_compute.
Defined.

(** ** Selecting a line *)

(** X8. A click on a line of the list box whose record is a dictionary
    selects the line and puts the record's [name], [applicationPath] and
    [posterPath] into the three fields, a missing key as the empty
    string; no object, row or file changes. When the list box has no
    selection, the click only clears the selected index. *)
Theorem on_profile_select_shows_the_record
    (tk_other : heap -> pyval -> string)
    (st : state) (idx : nat) (it : item) (a : addr) (d : list (string * pyval)) :
  profiles (self st) !! idx = Some it ->
  profile it = VRef a ->
  mem st !! a = Some (ODict d) ->
  on_profile_select tk_other (Some idx) st
  = (Ok tt, with_self (showing tk_other (mem st) idx d (self st)) st)
  /\ (forall k s, dict_lookup k d = Some (VStr s) ->
        field_text tk_other (mem st) k d = s)
  /\ (forall k, dict_lookup k d = None ->
        field_text tk_other (mem st) k d = EmptyString)
  /\ on_profile_select tk_other None st
     = (Ok tt, with_self (set_selected None (self st)) st).
Proof.
  intros Hit Hprof Ha. split_and!.
  - by eapply on_profile_select_run.
  - intros k s Hk. by apply field_text_str.
  - intros k Hk. unfold field_text. by rewrite Hk.
  - reflexivity.
Qed.

Lemma on_profile_select_shows_the_record_witness :
  Demo.on_profile_select (Some 1%nat) Demo.two_records
  = (Ok tt,
     with_self (Editor (profiles (self Demo.two_records)) (Some 1%nat)
                  "b" "" "C:\old.png" "C:\db\icon_cache")
       Demo.two_records).
Proof.
  destruct (on_profile_select_shows_the_record Demo.tk_other Demo.two_records 1%nat
              (Item 1 (VRef 5%nat) (VRef 1%nat)) 1%nat
              [("applicationId", VStr "id-1"); ("name", VStr "b");
               ("categoryColors", VRef 0%nat); ("posterPath", VStr "C:\old.png")])
    as (Hrun & _); [reflexivity..|].
  unfold Demo.on_profile_select. rewrite Hrun. reflexivity.
Defined.

Lemma dict_store_same {V} k (v : V) d :
  dict_lookup k d = Some v -> dict_store k v d = d.
Proof.
  induction d as [|[k' v'] d IH]; cbn; [done|].
  destruct (String.eqb_spec k k') as [->|Hne].
  - by intros [= ->].
  - intros Hd. by rewrite IH.
Qed.






(** ** Equality of values *)

Lemma list_eq_mono (eq eq' : pyval -> pyval -> option bool) l1 : forall l2 b,
  (forall x y b, eq x y = Some b -> eq' x y = Some b) ->
  list_eq eq l1 l2 = Some b -> list_eq eq' l1 l2 = Some b.
Proof.
  induction l1 as [|x l1 IH]; intros [|y l2] b Heq; cbn; try done.
  destruct (eq x y) as [[|]|] eqn:Hxy; try done.
  - rewrite (Heq _ _ _ Hxy). by apply IH.
  - by rewrite (Heq _ _ _ Hxy).
Qed.

Lemma dict_sub_mono (eq eq' : pyval -> pyval -> option bool) d1 d2 b :
  (forall x y b, eq x y = Some b -> eq' x y = Some b) ->
  dict_sub eq d1 d2 = Some b -> dict_sub eq' d1 d2 = Some b.
Proof.
  intros Heq. induction d1 as [|[k v] d1 IH]; cbn; [done|].
  destruct (dict_lookup k d2) as [v'|]; [|done].
  destruct (eq v v') as [[|]|] eqn:Hv; try done.
  - by rewrite (Heq _ _ _ Hv).
  - by rewrite (Heq _ _ _ Hv).
Qed.

(** A comparison that has an answer keeps it when objects are added. *)
Lemma py_eq_fuel_mono f : forall f' h h' x y b,
  py_eq_fuel f h x y = Some b -> (f <= f')%nat -> h `prefix_of` h' ->
  py_eq_fuel f' h' x y = Some b.
Proof.
  induction f as [|f IH]; intros f' h h' x y b Hxy Hf Hh; [done|].
  destruct f' as [|f']; [lia|]. assert (f <= f')%nat as Hf' by lia.
  cbn [py_eq_fuel] in *.
  destruct x as [| | | |a], y as [| | | |c]; try done.
  destruct (Nat.eqb a c); [done|].
  destruct (h !! a) as [o1|] eqn:Ha; [|done].
  destruct (h !! c) as [o2|] eqn:Hc; [|by destruct o1].
  rewrite (prefix_lookup_Some _ _ _ _ Ha Hh), (prefix_lookup_Some _ _ _ _ Hc Hh).
  destruct o1 as [d1|l1], o2 as [d2|l2]; try done.
  - destruct (Nat.eqb (length d1) (length d2)); [|done].
    eapply dict_sub_mono; [|exact Hxy]. intros; by eapply IH.
  - destruct (Nat.eqb (length l1) (length l2)); [|done].
    eapply list_eq_mono; [|exact Hxy]. intros; by eapply IH.
Qed.

Lemma py_eq_mono h h' x y b :
  py_eq h x y = Some b -> h `prefix_of` h' -> py_eq h' x y = Some b.
Proof.
  unfold py_eq. intros Hxy Hh. eapply py_eq_fuel_mono; [exact Hxy| |done].
  apply prefix_length in Hh. lia.
Qed.

Lemma index_of_mono h h' x l : forall r,
  index_of h x l = Some r -> h `prefix_of` h' -> index_of h' x l = Some r.
Proof.
  induction l as [|y l IH]; intros r Hr Hh; cbn [index_of] in *; [done|].
  destruct (py_eq h y x) as [[|]|] eqn:Hy; try done.
  - by rewrite (py_eq_mono _ _ _ _ _ Hy Hh).
  - rewrite (py_eq_mono _ _ _ _ _ Hy Hh).
    destruct (index_of h x l) as [r'|]; [|done].
    by rewrite (IH r' eq_refl Hh).
Qed.

(** [x is x]: a value equals itself. *)
Lemma py_eq_refl h x : py_eq h x x = Some true.
Proof.
  unfold py_eq. cbn [py_eq_fuel]. destruct x as [|b|n|s|a]; cbn.
  - done.
  - by destruct b.
  - by rewrite Z.eqb_refl.
  - by rewrite String.eqb_refl.
  - by rewrite Nat.eqb_refl.
Qed.

Lemma py_contains_read x c st :
  py_contains x c st
  = (match c with
     | VRef a =>
         match mem st !! a with
         | Some (OList l) =>
             match index_of (mem st) x l with
             | None => Raise RecursionError
             | Some r => Ok (bool_decide (is_Some r))
             end
         | Some (ODict d) =>
             match x with
             | VRef _ => Raise TypeError
             | VStr k => Ok (bool_decide (is_Some (dict_lookup k d)))
             | _ => Ok false
             end
         | None => Raise SystemError
         end
     | VStr hay =>
         match x with
         | VStr needle => Ok (PyStr.is_substring needle hay)
         | _ => Raise TypeError
         end
     | _ => Raise TypeError
     end, st).
Proof.
  destruct c as [| | |hay|a]; try done.
  - by destruct x.
  - unfold py_contains. rewrite bind_run. unfold deref.
    destruct (mem st !! a) as [[d|l]|]; try done.
    + rewrite bind_run. unfold get_state. by destruct x.
    + rewrite bind_run. unfold get_state. cbv beta iota.
      by destruct (index_of (mem st) x l).
Qed.

Lemma py_remove_read c x st :
  py_remove c x st
  = match c with
    | VRef a =>
        match mem st !! a with
        | Some (OList l) =>
            match index_of (mem st) x l with
            | None => (Raise RecursionError, st)
            | Some None => (Raise ValueError, st)
            | Some (Some i) =>
                (Ok tt, with_mem (<[a := OList (delete i l)]> (mem st)) st)
            end
        | Some (ODict _) => (Raise AttributeError, st)
        | None => (Raise SystemError, st)
        end
    | _ => (Raise AttributeError, st)
    end.
Proof.
  destruct c as [| | | |a]; try done.
  unfold py_remove. rewrite bind_run. unfold deref.
  destruct (mem st !! a) as [[d|l]|]; try done.
  rewrite bind_run. unfold get_state. cbv beta iota.
  by destruct (index_of (mem st) x l) as [[i|]|].
Qed.

(** ** [delete_entry] *)

Lemma clear_fields_run st : clear_fields st = (Ok tt, with_self (cleared (self st)) st).
Proof. reflexivity. Qed.

(** What [delete_entry] does once the document is written, when the
    load returns. *)
Lemma delete_tail_ok loads st st' :
  (let* _ := reload loads in
   let* _ := update_self (set_selected None) in
   let* _ := populate_list in
   clear_fields)%py st = (Ok tt, st') ->
  selected_profile_index (self st') = None
  /\ name_entry_var (self st') = EmptyString
  /\ app_path_var (self st') = EmptyString
  /\ icon_path_var (self st') = EmptyString.
Proof.
  intros ([] & st_r & Hreload & Hrun)%bind_ok_inv.
  rewrite bind_run, update_self_run in Hrun. cbv beta iota in Hrun.
  apply bind_ok_inv in Hrun as ([] & st_p & Hpop & Hrun).
  apply populate_list_ok in Hpop as ->.
  rewrite clear_fields_run in Hrun. by simplify_eq.
Qed.

Lemma allocates_clear_fields : allocates clear_fields.
Proof. by intros st. Qed.

(** X10. With a line selected and the deletion confirmed, when the
    document of the handle has its list under
    [applications.applications], [delete_entry] takes one item out of
    that list: the first one that compares equal to the record of the
    handle, at a position not after the record's own; it writes the
    document to the rows of the handle and touches no file. When the
    load that follows returns, no line is selected and the three fields
    are empty. *)
Theorem delete_entry_removes_first_equal_item
    (loads : string -> option json) (dumps : json -> string)
    (st : state) (idx : nat) (it : item)
    (doc : addr) (dd : list (string * pyval))
    (sa : addr) (sd : list (string * pyval)) (la : addr) (items : list pyval)
    (i : nat) :
  selected_profile_index (self st) = Some idx ->
  profiles (self st) !! idx = Some it ->
  entire_json it = VRef doc ->
  mem st !! doc = Some (ODict dd) ->
  dict_lookup "applications" dd = Some (VRef sa) ->
  mem st !! sa = Some (ODict sd) ->
  dict_lookup "applications" sd = Some (VRef la) ->
  mem st !! la = Some (OList items) ->
  index_of (mem st) (profile it) items = Some (Some i) ->
  let r := delete_entry loads dumps true st in
  let h := <[la := OList (delete i items)]> (mem st ++ [ODict []; OList []]) in
  h `prefix_of` mem (snd r)
  /\ db (snd r) = saved_rows dumps (db_row_id it) (VRef doc) h st
  /\ files (snd r) = files st
  /\ (exists y, items !! i = Some y /\ py_eq (mem st) y (profile it) = Some true)
  /\ (forall j z, (j < i)%nat -> items !! j = Some z ->
        py_eq (mem st) z (profile it) = Some false)
  /\ (forall p, items !! p = Some (profile it) -> (i <= p)%nat)
  /\ (fst r = Ok tt ->
      selected_profile_index (self (snd r)) = None
      /\ name_entry_var (self (snd r)) = EmptyString
      /\ app_path_var (self (snd r)) = EmptyString
      /\ icon_path_var (self (snd r)) = EmptyString).
Proof.
  intros Hsel Hit Hdoc Hdd Hsec Hsa Hlist Hla Hindex r h.
  destruct (index_of_first _ _ _ _ Hindex) as [Hfound Hbefore].
  set (h0 := mem st) in *.
  set (h2 := h0 ++ [ODict []; OList []]) in *.
  assert (h0 `prefix_of` h2) as Hpre by (by apply prefix_app_r).
  assert (la <> sa) as Hla_sa by (intros ->; congruence).
  assert (la < length h2)%nat as Hlt.
  { eapply lookup_lt_Some, prefix_lookup_Some; [exact Hla | exact Hpre]. }
  assert (r = (let* _ := reload loads in
               let* _ := update_self (set_selected None) in
               let* _ := populate_list in
               clear_fields)%py
                (with_db (saved_rows dumps (db_row_id it) (VRef doc) h st)
                   (with_mem h st))) as Hr.
  { subst r. unfold delete_entry.
    rewrite bind_run, get_self_run. cbv beta iota. rewrite Hsel. cbn [negb].
    rewrite bind_run, (profile_at_run _ _ _ Hit). cbv beta iota. rewrite Hdoc.
    rewrite bind_run, alloc_run. cbv beta iota.
    rewrite bind_run, py_get_read. cbn [mem with_mem]. fold h0.
    rewrite (lookup_app_l_Some _ _ _ _ Hdd), Hsec. cbn [from_option id].
    rewrite bind_run, alloc_run. cbn [mem with_mem]. cbv beta iota.
    rewrite <- app_assoc. cbn [app]. fold h2.
    rewrite bind_run, py_get_read. cbn [mem with_mem].
    rewrite (prefix_lookup_Some _ _ _ _ Hsa Hpre), Hlist. cbn [from_option id].
    rewrite bind_run, py_contains_read. cbn [mem with_mem].
    rewrite (prefix_lookup_Some _ _ _ _ Hla Hpre).
    rewrite (index_of_mono _ _ _ _ _ Hindex Hpre).
    rewrite bool_decide_eq_true_2 by (by eexists). cbv beta iota.
    rewrite bind_run, py_remove_read. cbn [mem with_mem].
    rewrite (prefix_lookup_Some _ _ _ _ Hla Hpre).
    rewrite (index_of_mono _ _ _ _ _ Hindex Hpre). cbv beta iota.
    rewrite bind_run, py_getitem_read. cbn [mem with_mem]. fold h.
    assert (h !! doc = Some (ODict dd)) as Hdoc'.
    { subst h. rewrite list_lookup_insert_ne by (intros ->; congruence).
      by eapply prefix_lookup_Some. }
    rewrite Hdoc', Hsec. cbv beta iota.
    rewrite bind_run, py_setitem_read. cbn [mem with_mem].
    assert (h !! sa = Some (ODict sd)) as Hsa'.
    { subst h. rewrite list_lookup_insert_ne by done.
      by eapply prefix_lookup_Some. }
    rewrite Hsa', (dict_store_same _ _ _ Hlist), list_insert_id by done.
    cbv beta iota.
    rewrite bind_run, save_profile_to_db_run. cbv beta iota.
    unfold saved_rows. by cbn [mem db db_write_fails files self with_mem with_db]. }
  assert (allocates (let* _ := reload loads in
                     let* _ := update_self (set_selected None) in
                     let* _ := populate_list in
                     clear_fields)%py) as Halloc.
  { repeat first
      [ apply allocates_reload | apply allocates_populate_list
      | apply allocates_update_self | apply allocates_clear_fields
      | apply allocates_bind; [|intros ?] ]. }
  split_and!.
  - rewrite Hr. apply Halloc.
  - rewrite Hr. by destruct (Halloc (with_db (saved_rows dumps (db_row_id it)
                                          (VRef doc) h st) (with_mem h st)))
      as (_ & -> & _).
  - rewrite Hr. by destruct (Halloc (with_db (saved_rows dumps (db_row_id it)
                                          (VRef doc) h st) (with_mem h st)))
      as (_ & _ & _ & ->).
  - exact Hfound.
  - exact Hbefore.
  - intros p Hp. destruct (decide (i <= p)%nat) as [|Hlt']; [done|].
    assert (py_eq h0 (profile it) (profile it) = Some false) as Hfalse.
    { apply (Hbefore p); [lia | done]. }
    by rewrite py_eq_refl in Hfalse.
  - rewrite Hr.
    destruct ((let* _ := reload loads in _)%py _) as [[[]|e] s] eqn:Htail;
      [|done].
    intros _. cbn [snd]. by eapply delete_tail_ok.
Qed.

(** The first line of the list [a], [x], [x] is selected: the record
    [a] is the second item of the document's list [x], [a], [x], and it
    is the item that goes. *)
Lemma delete_entry_removes_first_equal_item_witness :
  let st := Demo.select 0 Demo.x_a_x in
  let r := Demo.delete_entry true st in
  mem st !! 3%nat = Some (OList [VRef 0%nat; VRef 1%nat; VRef 2%nat])
  /\ mem (snd r) !! 3%nat = Some (OList [VRef 0%nat; VRef 2%nat])
  /\ Demo.stored (snd r)
     = [(1, Some (Demo.document [Demo.record "x"; Demo.record "x"]))]
  /\ selected_profile_index (self (snd r)) = None.
Proof.
  destruct (delete_entry_removes_first_equal_item
              JsonText.loads JsonText.dumps (Demo.select 0 Demo.x_a_x) 0%nat
              (Item 1 (VRef 5%nat) (VRef 1%nat))
              5%nat [("applications", VRef 4%nat)]
              4%nat [("applications", VRef 3%nat)]
              3%nat [VRef 0%nat; VRef 1%nat; VRef 2%nat] 1%nat)
    as (Hmem & Hdb & _ & _ & _ & _ & Hsel); [reflexivity..|].
  split_and!.
  - reflexivity.
  - eapply prefix_lookup_Some; [|exact Hmem]. reflexivity.
  - unfold Demo.stored, Demo.delete_entry. rewrite Hdb. by vm_compute.
  - apply Hsel. by vm_compute.
Defined.

(** ** Exceptions that do not occur *)

Lemma avoids_bind {A B} e (m : M A) (k : A -> M B) st :
  avoids e m st ->
  (forall a st1, m st = (Ok a, st1) -> avoids e (k a) st1) ->
  avoids e (bind m k) st.
Proof.
  unfold avoids. intros Hm Hk. rewrite bind_run.
  destruct (m st) as [[a|e'] st1]; [by apply Hk|].
  cbn in *. intros [= ->]. by apply Hm.
Qed.

Lemma avoids_try {A} e (m : M A) (h : exn -> M A) st :
  (forall e' st1, m st = (Raise e', st1) -> avoids e (h e') st1) ->
  avoids e (try_except m h) st.
Proof.
  unfold avoids, try_except. intros Hh.
  destruct (m st) as [[a|e'] st1]; [done | by apply Hh].
Qed.

Lemma never_ret {A} e (a : A) : never e (ret a).
Proof. by intros st. Qed.

Lemma never_bind {A B} e (m : M A) (k : A -> M B) :
  never e m -> (forall a, never e (k a)) -> never e (bind m k).
Proof. intros Hm Hk st. apply avoids_bind; [apply Hm | intros; apply Hk]. Qed.

Lemma never_traverse {A B} e (f : A -> M B) l :
  (forall x, never e (f x)) -> never e (traverse f l).
Proof.
  intros Hf. induction l as [|x l IH]; cbn; [apply never_ret|].
  apply never_bind; [apply Hf|]. intros y.
  apply never_bind; [apply IH|]. intros ys. apply never_ret.
Qed.

Lemma never_foldM {A B} e (f : B -> A -> M B) acc l :
  (forall b x, never e (f b x)) -> never e (foldM f acc l).
Proof.
  intros Hf. revert acc. induction l as [|x l IH]; intros acc; cbn;
    [apply never_ret|].
  apply never_bind; [apply Hf | intros; apply IH].
Qed.

Lemma never_update_self e f : never e (update_self f).
Proof. by intros st. Qed.

Lemma never_alloc e o : never e (alloc o).
Proof. by intros st. Qed.

Lemma never_get_self e : never e get_self.
Proof. by intros st. Qed.

Lemma never_get_state e : never e get_state.
Proof. by intros st. Qed.

Lemma never_save_profile_to_db e dumps row_id v :
  never e (save_profile_to_db dumps row_id v).
Proof. intros st. unfold avoids. by rewrite save_profile_to_db_run. Qed.

Lemma never_clear_fields e : never e clear_fields.
Proof. by intros st. Qed.

(** No operation on objects but [list.remove] raises [ValueError]. *)
Lemma never_py_get v k dflt : never ValueError (py_get v k dflt).
Proof. intros st. unfold avoids. rewrite py_get_read. cbn. by repeat case_match. Qed.

Lemma never_py_getitem v k : never ValueError (py_getitem v k).
Proof. intros st. unfold avoids. rewrite py_getitem_read. cbn. by repeat case_match. Qed.

Lemma never_py_setitem v k x : never ValueError (py_setitem v k x).
Proof. intros st. unfold avoids. rewrite py_setitem_read. by repeat case_match. Qed.

Lemma never_isinstance_dict v : never ValueError (isinstance_dict v).
Proof.
  intros st. unfold avoids. rewrite isinstance_dict_read. cbn. by repeat case_match.
Qed.

Lemma never_isinstance_list v : never ValueError (isinstance_list v).
Proof.
  intros st. unfold avoids. rewrite isinstance_list_read. cbn. by repeat case_match.
Qed.

Lemma never_list_items v : never ValueError (list_items v).
Proof. intros st. unfold avoids. rewrite list_items_read. cbn. by repeat case_match. Qed.

Lemma never_profile_at idx : never ValueError (profile_at idx).
Proof. intros st. unfold avoids. rewrite profile_at_read. cbn. by repeat case_match. Qed.

Lemma never_py_contains x c : never ValueError (py_contains x c).
Proof. intros st. unfold avoids. rewrite py_contains_read. cbn. by repeat case_match. Qed.

(** A text that does not parse is a [ValueError], and the loop over the
    rows catches it. *)
Lemma never_load_row loads acc row : never ValueError (load_row loads acc row).
Proof.
  unfold load_row. destruct row as [row_id blob].
  destruct (sql_falsy blob); [apply never_ret|].
  apply never_bind.
  { intros st. apply avoids_try. by intros. }
  intros [parsed|]; [|apply never_ret].
  apply never_bind; [apply never_py_get|]. intros apps_section.
  apply never_bind; [apply never_isinstance_dict|].
  intros [|]; [|apply never_ret].
  apply never_bind; [apply never_alloc|]. intros empty.
  apply never_bind; [apply never_py_get|]. intros apps_list.
  apply never_bind; [apply never_isinstance_list|].
  intros [|]; [|apply never_ret].
  apply never_bind; [apply never_list_items|]. intros; apply never_ret.
Qed.

Lemma never_sort_key p : never ValueError (sort_key p).
Proof.
  unfold sort_key. apply never_bind; [apply never_py_get|].
  intros []; try apply never_ret; by intros st.
Qed.

Lemma never_reload loads : never ValueError (reload loads).
Proof.
  unfold reload, load_profiles_from_db, sort_profiles.
  apply never_bind; [|intros; apply never_update_self].
  apply never_bind; [apply never_get_state|]. intros st.
  apply never_bind; [apply never_foldM, never_load_row|]. intros l.
  apply never_bind; [apply never_traverse, never_sort_key|].
  intros; apply never_ret.
Qed.

Lemma never_populate_list : never ValueError populate_list.
Proof.
  unfold populate_list. apply never_bind; [apply never_get_self|]. intros e.
  apply never_bind; [|intros; apply never_ret].
  apply never_traverse. intros; apply never_py_get.
Qed.

(** X11. [delete_entry] never ends in a [ValueError]: [list.remove] is
    only called when the test [in] has just found an item equal to the
    record in the same list, and a text of the store that does not parse
    is skipped by the load. *)
Theorem delete_entry_never_raises_value_error
    (loads : string -> option json) (dumps : json -> string)
    (confirm : bool) (st : state) :
  avoids ValueError (delete_entry loads dumps confirm) st.
Proof.
  unfold delete_entry.
  apply avoids_bind; [apply never_get_self|]. intros e st0 _.
  destruct (selected_profile_index e) as [idx|]; [|apply never_ret].
  destruct confirm; cbn [negb]; [|apply never_ret].
  apply avoids_bind; [apply never_profile_at|]. intros it st1 _.
  apply avoids_bind; [apply never_alloc|]. intros d st2 _.
  apply avoids_bind; [apply never_py_get|]. intros apps_section st3 _.
  apply avoids_bind; [apply never_alloc|]. intros l st4 _.
  apply avoids_bind; [apply never_py_get|]. intros apps_list st5 _.
  apply avoids_bind; [apply never_py_contains|]. intros found st6 Hfound.
  apply avoids_bind.
  { destruct found; [|apply never_ret].
    rewrite py_contains_read in Hfound. unfold avoids. rewrite py_remove_read.
    destruct apps_list as [| | | |a]; try done.
    destruct (mem st5 !! a) as [[dd|items]|] eqn:Ha; try by simplify_eq.
    - simplify_eq. by rewrite Ha.
    - destruct (index_of (mem st5) (profile it) items) as [[i|]|] eqn:Hindex.
      + simplify_eq. by rewrite Ha, Hindex.
      + by injection Hfound as Hfound _.
      + by simplify_eq. }
  intros _ st7 _.
  apply avoids_bind; [apply never_py_getitem|]. intros apps_section' st8 _.
  apply avoids_bind; [apply never_py_setitem|]. intros _ st9 _.
  apply avoids_bind; [apply never_save_profile_to_db|]. intros _ st10 _.
  apply avoids_bind; [apply never_reload|]. intros _ st11 _.
  apply avoids_bind; [apply never_update_self|]. intros _ st12 _.
  apply avoids_bind; [apply never_populate_list|]. intros _ st13 _.
  apply never_clear_fields.
Qed.

(** ** Methods that do nothing *)

(** X12. The four methods that act on the selected line do nothing
    without one: no object, row, file or field changes, and no error is
    raised. The same holds for [delete_entry] when the user does not
    confirm, and for [browse_icon] when the user closes the file dialog
    without a choice. *)
Theorem methods_without_selection_do_nothing
    (loads : string -> option json) (dumps : json -> string)
    (tk_other : heap -> pyval -> string)
    (is_sep : ascii -> bool) (path_join : string -> string -> string)
    (image : Type) (decode_image : string -> option image)
    (encode_bmp : image -> option string) (write_ok : string -> bool)
    (save_debris : image -> string -> gmap string string -> gmap string string)
    (st : state) :
  (forall confirm,
     selected_profile_index (self st) = None \/ confirm = false ->
     delete_entry loads dumps confirm st = (Ok tt, st))
  /\ (forall file_path,
        selected_profile_index (self st) = None \/ file_path = EmptyString ->
        browse_icon is_sep path_join image decode_image encode_bmp write_ok
          save_debris file_path st = (Ok tt, st))
  /\ (selected_profile_index (self st) = None ->
      save_changes loads dumps tk_other st = (Ok tt, st)
      /\ clear_icon st = (Ok tt, st)).
Proof.
  split_and!.
  - intros confirm Hcase. unfold delete_entry.
    rewrite bind_run, get_self_run. cbv beta iota.
    destruct Hcase as [Hsel | ->]; [by rewrite Hsel|].
    by destruct (selected_profile_index (self st)).
  - intros file_path Hcase. unfold browse_icon.
    rewrite bind_run, get_self_run. cbv beta iota.
    destruct Hcase as [Hsel | ->]; [by rewrite Hsel|].
    by destruct (selected_profile_index (self st)).
  - intros Hsel. unfold save_changes, clear_icon.
    rewrite !bind_run, get_self_run. cbv beta iota. by rewrite Hsel.
Qed.

Lemma methods_without_selection_do_nothing_witness :
  Demo.delete_entry true Demo.two_records = (Ok tt, Demo.two_records)
  /\ Demo.delete_entry false Demo.editing = (Ok tt, Demo.editing)
  /\ Demo.browse_icon "" (Demo.browsing "x" "") = (Ok tt, Demo.browsing "x" "")
  /\ Demo.save_changes Demo.two_records = (Ok tt, Demo.two_records)
  /\ clear_icon Demo.two_records = (Ok tt, Demo.two_records).
Proof.
  pose proof (fun st => methods_without_selection_do_nothing
                JsonText.loads JsonText.dumps
                Demo.tk_other Demo.is_sep Demo.path_join Demo.image
                Demo.decode_image Demo.encode_bmp Demo.write_ok Demo.save_debris
                st) as H.
  split_and!.
  - destruct (H Demo.two_records) as (Hdelete & _). apply Hdelete. by left.
  - destruct (H Demo.editing) as (Hdelete & _). apply Hdelete. by right.
  - destruct (H (Demo.browsing "x" "")) as (_ & Hbrowse & _). apply Hbrowse. by right.
  - destruct (H Demo.two_records) as (_ & _ & Hrest). by apply Hrest.
  - destruct (H Demo.two_records) as (_ & _ & Hrest). by apply Hrest.
Defined.

(** ** The handles stay sound *)

Lemma is_record_mono h h' it : is_record h it -> h `prefix_of` h' -> is_record h' it.
Proof.
  intros (a & d & Hprof & Ha) Hh. exists a, d.
  split; [done | by eapply prefix_lookup_Some].
Qed.

Lemma handles_sound_same st st' :
  handles_sound st -> same_handles st st' -> handles_sound st'.
Proof.
  unfold handles_sound. intros Hst [Hmem ->].
  eapply Forall_impl; [exact Hst|]. intros it [Ho Hr].
  split; [by eapply owned_mono | by eapply is_record_mono].
Qed.

(** Writing a key other than ["applications"] into a dictionary leaves
    every handle sound. *)
Lemma owned_store h it a d k v :
  h !! a = Some (ODict d) -> k <> "applications" ->
  owned h it -> owned (<[a := ODict (dict_store k v d)]> h) it.
Proof.
  intros Ha Hk (doc & dd & sa & sd & la & items & H1 & H2 & H3 & H4 & H5 & H6 & H7).
  assert (a < length h)%nat as Hlt by (by eapply lookup_lt_Some).
  assert (la <> a) as Hla by (intros ->; congruence).
  destruct (decide (doc = a)) as [->|Hdoc], (decide (sa = a)) as [->|Hsa].
  - assert (dd = d) as -> by congruence. assert (sd = d) as -> by congruence.
    exists a, (dict_store k v d), a, (dict_store k v d), la, items.
    split_and!; try done; try (by rewrite list_lookup_insert_eq);
      try (by rewrite list_lookup_insert_ne); by rewrite dict_lookup_store_ne.
  - assert (dd = d) as -> by congruence.
    exists a, (dict_store k v d), sa, sd, la, items.
    split_and!; try done; try (by rewrite list_lookup_insert_eq);
      try (by rewrite list_lookup_insert_ne); by rewrite dict_lookup_store_ne.
  - assert (sd = d) as -> by congruence.
    exists doc, dd, a, (dict_store k v d), la, items.
    split_and!; try done; try (by rewrite list_lookup_insert_eq);
      try (by rewrite list_lookup_insert_ne); by rewrite dict_lookup_store_ne.
  - exists doc, dd, sa, sd, la, items.
    split_and!; try done; by rewrite list_lookup_insert_ne.
Qed.

Lemma is_record_store h it a d k v :
  h !! a = Some (ODict d) ->
  is_record h it -> is_record (<[a := ODict (dict_store k v d)]> h) it.
Proof.
  intros Ha (a' & d' & Hprof & Ha').
  assert (a < length h)%nat as Hlt by (by eapply lookup_lt_Some).
  destruct (decide (a' = a)) as [->|Hne].
  - exists a, (dict_store k v d). by rewrite list_lookup_insert_eq.
  - exists a', d'. by rewrite list_lookup_insert_ne.
Qed.

Lemma handles_sound_store st a d k v e :
  mem st !! a = Some (ODict d) -> k <> "applications" ->
  profiles e = profiles (self st) ->
  handles_sound st ->
  handles_sound (with_self e (with_mem (<[a := ODict (dict_store k v d)]> (mem st)) st)).
Proof.
  unfold handles_sound. intros Ha Hk He Hst. cbn [mem self with_self with_mem].
  rewrite He. eapply Forall_impl; [exact Hst|]. intros it [Ho Hr].
  split; [by apply owned_store | by apply is_record_store].
Qed.

Lemma reload_sound loads st st' :
  reload loads st = (Ok tt, st') -> handles_sound st'.
Proof.
  intros Hreload. destruct (reload_records _ _ _ Hreload) as (Hrecords & _ & _).
  apply reload_ok in Hreload as (l & st_l & Hload & ->).
  destruct (load_profiles_from_db_ok _ _ _ _ Hload) as (l0 & Hfold & Hperm & _).
  unfold handles_sound in *. cbn [mem self with_self set_profiles profiles] in *.
  apply Forall_and. split; [|done]. rewrite Hperm.
  assert (Forall (fun it => owned (mem st_l) it /\ True) l0) as Hl0.
  { eapply (load_rows_owned loads (fun _ => True)); [exact Hfold|constructor|].
    by apply Forall_forall. }
  eapply Forall_impl; [exact Hl0|]. by intros it [Ho _].
Qed.

Lemma same_handles_update_self f :
  (forall e, profiles (f e) = profiles e) -> keeps same_handles (update_self f).
Proof. intros Hf st. split; [done | apply Hf]. Qed.

Lemma same_handles_on_profile_select tk_other sel :
  keeps same_handles (on_profile_select tk_other sel).
Proof.
  unfold on_profile_select.
  destruct sel as [idx|]; [|by apply same_handles_update_self].
  repeat first
    [ by apply same_handles_update_self
    | apply (reading_profile_at same_handles)
    | apply (reading_py_get same_handles)
    | apply (reading_tk_string same_handles)
    | apply (keeps_bind same_handles); [|intros ?] ].
Qed.

Lemma same_handles_select_by_name tk_other name :
  keeps same_handles (select_by_name tk_other name).
Proof.
  unfold select_by_name.
  apply (keeps_bind same_handles); [apply (keeps_get_self same_handles)|]. intros e.
  apply (keeps_bind same_handles);
    [apply (reading_find_name same_handles)|].
  intros [i|]; [|apply (keeps_ret same_handles)].
  apply (keeps_try same_handles); [apply same_handles_on_profile_select|].
  intros; apply (keeps_ret same_handles).
Qed.

Lemma same_handles_clear_fields : keeps same_handles clear_fields.
Proof. by intros st. Qed.

(** Whatever follows the load, if it keeps the handles, leaves them
    sound. *)
Lemma after_reload loads {B} (k : unit -> M B) st :
  (forall u, keeps same_handles (k u)) ->
  after (bind (reload loads) k) st (fun _ st' => handles_sound st').
Proof.
  intros Hk. apply after_bind. unfold after at 1.
  destruct (reload loads st) as [[[]|e] st_r] eqn:Hreload; [|done].
  eapply after_keeps; [apply Hk|]. intros b st' Hsame.
  eapply handles_sound_same; [|exact Hsame]. by eapply reload_sound.
Qed.

Ltac same_handles_tail :=
  repeat first
    [ apply same_handles_select_by_name | apply same_handles_clear_fields
    | apply (reading_populate_list same_handles)
    | apply (reading_py_getitem same_handles)
    | by apply same_handles_update_self
    | apply (keeps_ret same_handles)
    | apply (keeps_bind same_handles); [|intros ?]
    | progress case_match ].

Ltac to_reload :=
  first [ apply after_reload | apply after_skip; intros ? ?; to_reload ].

(** X13. The handles of the editor are sound after every load, and every
    method that returns leaves them sound: the record of each handle is a
    dictionary and an item of the list of the handle's document, so that
    what a method writes into the record is written into the document
    that is saved. *)
Theorem methods_keep_handles_sound
    (loads : string -> option json) (dumps : json -> string)
    (tk_other : heap -> pyval -> string)
    (is_sep : ascii -> bool) (path_join : string -> string -> string)
    (image : Type) (decode_image : string -> option image)
    (encode_bmp : image -> option string) (write_ok : string -> bool)
    (save_debris : image -> string -> gmap string string -> gmap string string)
    (st : state) :
  after (reload loads) st (fun _ st' => handles_sound st')
  /\ (handles_sound st ->
      after (add_entry loads dumps tk_other) st (fun _ st' => handles_sound st')
      /\ (forall confirm,
            after (delete_entry loads dumps confirm) st
                  (fun _ st' => handles_sound st'))
      /\ after (save_changes loads dumps tk_other) st
               (fun _ st' => handles_sound st')
      /\ (forall file_path,
            after (browse_icon is_sep path_join image decode_image encode_bmp
                     write_ok save_debris file_path) st
                  (fun _ st' => handles_sound st'))
      /\ after clear_icon st (fun _ st' => handles_sound st')
      /\ (forall sel,
            after (on_profile_select tk_other sel) st
                  (fun _ st' => handles_sound st'))).
Proof.
  split.
  { unfold after. destruct (reload loads st) as [[[]|e] st'] eqn:Hreload; [|done].
    by eapply reload_sound. }
  intros Hsound. split_and!.
  - unfold add_entry. apply after_bind. unfold after at 1. rewrite get_self_run.
    destruct (profiles (self st)); [done|].
    to_reload. intros; same_handles_tail.
  - intros confirm. unfold delete_entry.
    apply after_bind. unfold after at 1. rewrite get_self_run.
    destruct (selected_profile_index (self st)); [|done].
    destruct confirm; cbn [negb]; [|done].
    to_reload. intros; same_handles_tail.
  - unfold save_changes.
    apply after_bind. unfold after at 1. rewrite get_self_run.
    destruct (selected_profile_index (self st)); [|done].
    to_reload. intros; same_handles_tail.
  - intros file_path.
    destruct (browse_icon_cases is_sep path_join image decode_image encode_bmp
                write_ok save_debris st file_path)
      as [(Hmem & Hself & _)
         |(a & d & img & bytes & t & Hrec & _ & _ & _ & _ & _ & Hres)].
    + unfold after.
      destruct (browse_icon _ _ _ _ _ _ _ _ _) as [[[]|e] st']; [|done].
      cbn [snd] in *. unfold handles_sound. by rewrite Hmem, Hself.
    + unfold after. rewrite Hres.
      assert (mem st !! a = Some (ODict d)) as Ha.
      { unfold selected_record in Hrec. repeat case_match; by simplify_eq. }
      apply (handles_sound_store st a d "posterPath" (VStr t)
               (set_icon_path_var t (self st)) Ha); done.
  - unfold after, clear_icon. rewrite bind_run, get_self_run. cbv beta iota.
    destruct (selected_profile_index (self st)) as [idx|]; [|done].
    rewrite bind_run, profile_at_read.
    destruct (profiles (self st) !! idx) as [it|]; [|done]. cbv beta iota.
    rewrite bind_run, py_setitem_read.
    destruct (profile it) as [| | | |a]; try done.
    destruct (mem st !! a) as [[d|]|] eqn:Ha; try done.
    rewrite update_self_run.
    apply (handles_sound_store st a d "posterPath" (VStr "")
             (set_icon_path_var "" (self st)) Ha); done.
  - intros sel. eapply after_keeps; [apply same_handles_on_profile_select|].
    intros _ st' Hsame. by eapply handles_sound_same.
Qed.

(** What the user types and selects leaves the handles alone. *)
Lemma handles_sound_edited st i n a p :
  handles_sound st ->
  handles_sound
    (with_self
       (set_icon_path_var p
          (set_app_path_var a (set_name_entry_var n (set_selected i (self st)))))
       st).
Proof. done. Qed.

Lemma methods_keep_handles_sound_witness :
  handles_sound Demo.editing
  /\ handles_sound
       (snd (save_changes JsonText.loads JsonText.dumps Demo.tk_other Demo.editing))
  /\ handles_sound
       (snd (delete_entry JsonText.loads JsonText.dumps true Demo.editing)).
Proof.
  pose proof (fun st => methods_keep_handles_sound
                JsonText.loads JsonText.dumps
                Demo.tk_other Demo.is_sep Demo.path_join Demo.image
                Demo.decode_image Demo.encode_bmp Demo.write_ok Demo.save_debris
                st) as H.
  assert (handles_sound Demo.editing) as Hsound.
  { destruct (H (Demo.boot [(1, Demo.blob (Demo.document
                                [Demo.passenger_record; Demo.record "A"]))]))
      as [Hload _].
    unfold after in Hload.
    assert (reload JsonText.loads
              (Demo.boot [(1, Demo.blob (Demo.document
                                [Demo.passenger_record; Demo.record "A"]))])
            = (Ok tt, Demo.two_records)) as Hrun by (by vm_compute).
    rewrite Hrun in Hload. unfold Demo.editing.
    by apply handles_sound_edited. }
  destruct (H Demo.editing) as [_ Hkeep].
  destruct (Hkeep Hsound) as (_ & Hdelete & Hsave & _).
  split_and!; [exact Hsound | |].
  - assert (save_changes JsonText.loads JsonText.dumps Demo.tk_other Demo.editing
            = (Ok tt, snd (save_changes JsonText.loads JsonText.dumps
                             Demo.tk_other Demo.editing))) as Hrun
      by (by vm_compute).
    exact (after_run _ _ _ _ _ Hsave Hrun).
  - specialize (Hdelete true).
    assert (delete_entry JsonText.loads JsonText.dumps true Demo.editing
            = (Ok tt, snd (delete_entry JsonText.loads JsonText.dumps true
                             Demo.editing))) as Hrun
      by (by vm_compute).
    exact (after_run _ _ _ _ _ Hdelete Hrun).
Defined.

(** ** The icon methods and the store *)

Lemma selected_record_mem st a d :
  selected_record st = Some (a, d) -> mem st !! a = Some (ODict d).
Proof. unfold selected_record. intros H. repeat case_match; by simplify_eq. Qed.

(** X14. [browse_icon] writes a file and a record, never the store: the
    rows, the list of handles, the selection, the name field and the
    path field are what they were, whatever the dialog returned and
    whether the picture was written or not; and every object other than
    the selected record is unchanged. The new icon path reaches the
    store only with [save_changes]. *)
Theorem browse_icon_keeps_the_store
    (is_sep : ascii -> bool) (path_join : string -> string -> string)
    (image : Type) (decode_image : string -> option image)
    (encode_bmp : image -> option string) (write_ok : string -> bool)
    (save_debris : image -> string -> gmap string string -> gmap string string)
    (st : state) (file_path : string) :
  let st' := snd (browse_icon is_sep path_join image decode_image encode_bmp
                    write_ok save_debris file_path st) in
  db st' = db st
  /\ profiles (self st') = profiles (self st)
  /\ selected_profile_index (self st') = selected_profile_index (self st)
  /\ name_entry_var (self st') = name_entry_var (self st)
  /\ app_path_var (self st') = app_path_var (self st)
  /\ length (mem st') = length (mem st)
  /\ (forall b o, (forall d, selected_record st <> Some (b, d)) ->
        mem st !! b = Some o -> mem st' !! b = Some o).
Proof.
  intros st'. subst st'.
  destruct (browse_icon_cases is_sep path_join image decode_image encode_bmp
              write_ok save_debris st file_path)
    as [(Hmem & Hself & Hdb & _)
       |(a & d & img & bytes & t & Hrec & _ & _ & _ & _ & _ & Hres)].
  - rewrite Hmem, Hself, Hdb. by split_and!.
  - rewrite Hres. cbn [snd icon_set mem db self]. split_and!; try done.
    + by rewrite length_insert.
    + intros b o Hb Hbo. rewrite list_lookup_insert_ne; [done|].
      intros <-. by apply (Hb d).
Qed.

Lemma clear_icon_run st a d :
  selected_record st = Some (a, d) ->
  snd (clear_icon st)
  = State (<[a := ODict (dict_store "posterPath" (VStr "") d)]> (mem st))
      (db st) (db_write_fails st) (files st) (set_icon_path_var "" (self st))
  /\ selected_record (snd (clear_icon st))
     = Some (a, dict_store "posterPath" (VStr "") d).
Proof.
  intros Hrec.
  assert (snd (clear_icon st)
          = State (<[a := ODict (dict_store "posterPath" (VStr "") d)]> (mem st))
              (db st) (db_write_fails st) (files st)
              (set_icon_path_var "" (self st))) as Hrun.
  { unfold selected_record in Hrec. unfold clear_icon.
    rewrite bind_run, get_self_run. cbv beta iota.
    destruct (selected_profile_index (self st)) as [idx|]; [|done].
    rewrite bind_run, profile_at_read.
    destruct (profiles (self st) !! idx) as [it|]; [|done]. cbv beta iota.
    destruct (profile it) as [| | | |a']; try done.
    destruct (mem st !! a') as [[d'|]|] eqn:Ha'; try done. simplify_eq.
    rewrite bind_run, py_setitem_read, Ha'. cbv beta iota.
    by rewrite update_self_run. }
  split; [exact Hrun|]. rewrite Hrun.
  unfold selected_record in *.
  cbn [self mem set_icon_path_var selected_profile_index profiles].
  repeat case_match; simplify_eq.
  all: match goal with
       | H : <[_:=_]> _ !! _ = _ |- _ =>
           rewrite list_lookup_insert_eq in H by (by eapply lookup_lt_Some)
       end; by simplify_eq.
Qed.

(** X15. [clear_icon] empties the [posterPath] of the selected record
    and the icon field, and nothing else: the record keeps its other
    keys, every other object, every row of the store and every file is
    what it was (the bitmap that was linked stays on the disk, and the
    store still names it until [save_changes]). *)
Theorem clear_icon_unlinks_the_record
    (st : state) (a : addr) (d : list (string * pyval)) :
  selected_record st = Some (a, d) ->
  clear_icon st
  = (Ok tt, State (<[a := ODict (dict_store "posterPath" (VStr "") d)]> (mem st))
              (db st) (db_write_fails st) (files st)
              (set_icon_path_var "" (self st)))
  /\ selected_poster (snd (clear_icon st)) = Some (VStr "")
  /\ (forall k, k <> "posterPath" ->
        dict_lookup k (dict_store "posterPath" (VStr "") d) = dict_lookup k d)
  /\ map fst d `prefix_of` map fst (dict_store "posterPath" (VStr "") d).
Proof.
  intros Hrec. pose proof (selected_record_mem _ _ _ Hrec) as Ha.
  destruct (clear_icon_run st a d Hrec) as [Hst1 Hrec1].
  assert (clear_icon st = (Ok tt, snd (clear_icon st))) as Hrun.
  { destruct (clear_icon st) as [[[]|e] st1] eqn:Hc; [done|].
    exfalso. revert Hc. unfold selected_record in Hrec. unfold clear_icon.
    rewrite bind_run, get_self_run. cbv beta iota.
    destruct (selected_profile_index (self st)) as [idx|]; [|done].
    rewrite bind_run, profile_at_read.
    destruct (profiles (self st) !! idx) as [it|]; [|done]. cbv beta iota.
    destruct (profile it) as [| | | |a']; try done.
    destruct (mem st !! a') as [[d'|]|] eqn:Ha'; try done.
    by rewrite bind_run, py_setitem_read, Ha'. }
  rewrite Hst1 in Hrun.
  split_and!.
  - exact Hrun.
  - unfold selected_poster. by rewrite Hrec1, dict_lookup_store_eq.
  - intros k Hk. by rewrite dict_lookup_store_ne.
  - apply dict_store_keys_prefix.
Qed.

Lemma clear_icon_unlinks_the_record_witness :
  let st := Demo.browsing "My: App?" "C:\icons\old.png" in
  selected_poster st = Some (VStr "C:\icons\old.png")
  /\ selected_poster (snd (clear_icon st)) = Some (VStr "")
  /\ db (snd (clear_icon st)) = db st
  /\ files (snd (clear_icon st)) = files st.
Proof.
  destruct (clear_icon_unlinks_the_record
              (Demo.browsing "My: App?" "C:\icons\old.png") 0%nat
              [("name", VStr "My: App?"); ("applicationPath", VStr "");
               ("posterPath", VStr "C:\icons\old.png")])
    as (Hrun & Hposter & _); [reflexivity|].
  split_and!; [reflexivity | exact Hposter | by rewrite Hrun..].
Defined.

Lemma selected_poster_icon_set st a d t bytes :
  selected_record st = Some (a, d) ->
  selected_poster (icon_set a d t bytes st) = Some (VStr t).
Proof.
  intros Hrec. unfold selected_poster, selected_record in *.
  cbn [icon_set self mem set_icon_path_var selected_profile_index profiles].
  repeat case_match; simplify_eq.
  all: match goal with
       | H : <[_:=_]> _ !! _ = _ |- _ =>
           rewrite list_lookup_insert_eq in H by (by eapply lookup_lt_Some)
       end; simplify_eq.
  by rewrite dict_lookup_store_eq.
Qed.

(** X16. After [clear_icon], a [browse_icon] that opens its source and
    writes the bitmap links the record to the file in the cache folder
    that is named after the record, whatever icon path the record had
    before. *)
Theorem clear_then_browse_uses_the_cache_name
    (is_sep : ascii -> bool) (path_join : string -> string -> string)
    (image : Type) (decode_image : string -> option image)
    (encode_bmp : image -> option string) (write_ok : string -> bool)
    (save_debris : image -> string -> gmap string string -> gmap string string)
    (st : state) (file_path : string)
    (a : addr) (d : list (string * pyval)) (name : string)
    (img : image) (bytes : string) :
  selected_record st = Some (a, d) ->
  str_field "name" d = Some name ->
  file_path <> EmptyString ->
  opened decode_image st file_path = Some img ->
  encode_bmp img = Some bytes ->
  let t := path_join (icon_cache_folder (self st)) (sanitize name +:+ ".bmp") in
  write_ok t = true ->
  let st1 := snd (clear_icon st) in
  let st2 := snd (browse_icon is_sep path_join image decode_image encode_bmp
                    write_ok save_debris file_path st1) in
  selected_poster st2 = Some (VStr t)
  /\ icon_path_var (self st2) = t
  /\ files st2 = <[t := bytes]> (files st)
  /\ db st2 = db st.
Proof.
  intros Hrec Hname Hfile Hopen Henc t Hw st1 st2.
  pose proof (selected_record_mem _ _ _ Hrec) as Ha.
  assert (a < length (mem st))%nat as Hlt by (by eapply lookup_lt_Some).
  destruct (clear_icon_run st a d Hrec) as [Hst1 Hrec1].
  set (d1 := dict_store "posterPath" (VStr "") d) in *.
  assert (browse_icon is_sep path_join image decode_image encode_bmp write_ok
            save_debris file_path st1
          = (Ok tt, icon_set a d1 t bytes st1)) as Hrun.
  { replace t with (target_path is_sep path_join (icon_cache_folder (self st1)) "" name).
    2:{ subst t st1. rewrite Hst1. unfold target_path, final_path_of.
        by rewrite safe_name_is_sanitize. }
    apply (browse_icon_links is_sep path_join image decode_image encode_bmp
             write_ok save_debris st1 file_path a d1 "" name img bytes);
      try done.
    - unfold str_field, d1. by rewrite dict_lookup_store_eq.
    - unfold str_field, d1 in *. by rewrite dict_lookup_store_ne.
    - subst st1. rewrite Hst1. exact Hopen.
    - subst st1. rewrite Hst1. unfold target_path, final_path_of.
      by rewrite safe_name_is_sanitize. }
  subst st2. rewrite Hrun. cbn [snd]. split_and!.
  - by apply selected_poster_icon_set.
  - reflexivity.
  - subst st1. by rewrite Hst1.
  - subst st1. by rewrite Hst1.
Qed.

Lemma clear_then_browse_uses_the_cache_name_witness :
  let st := Demo.browsing "My: App?" "C:\icons\old.png" in
  let st1 := snd (clear_icon st) in
  let st2 := snd (browse_icon Demo.is_sep Demo.path_join Demo.image
                    Demo.decode_image Demo.encode_bmp Demo.write_ok
                    Demo.save_debris "C:\pics\app.png" st1) in
  selected_poster st = Some (VStr "C:\icons\old.png")
  /\ selected_poster st2 = Some (VStr "C:\db\icon_cache\My_App.bmp")
  /\ icon_path_var (self st2) = "C:\db\icon_cache\My_App.bmp".
Proof.
  destruct (clear_then_browse_uses_the_cache_name
              Demo.is_sep Demo.path_join Demo.image Demo.decode_image
              Demo.encode_bmp Demo.write_ok Demo.save_debris
              (Demo.browsing "My: App?" "C:\icons\old.png") "C:\pics\app.png"
              0%nat
              [("name", VStr "My: App?"); ("applicationPath", VStr "");
               ("posterPath", VStr "C:\icons\old.png")]
              "My: App?" "PNGDATA" "BMPNGDATA")
    as (Hposter & Hvar & _); [by vm_compute..|].
  split_and!; [by vm_compute | |].
  - rewrite Hposter. by vm_compute.
  - rewrite Hvar. by vm_compute.
Defined.

(** ** The icon preview *)

Lemma isfile_run path st :
  isfile path st = (Ok (bool_decide (is_Some (files st !! path))), st).
Proof. reflexivity. Qed.

(** X17. [load_icon_preview] only looks: it never raises and changes
    nothing. It shows no icon when the icon field is blank, reports a
    missing file when the trimmed field names none, and shows an image
    only when the file of that name opens as an image that can be
    displayed. *)
Theorem load_icon_preview_only_looks
    (image : Type) (decode_image : string -> option image)
    (photo_image : image -> bool) (st : state) :
  let path := PyStr.strip (icon_path_var (self st)) in
  exists p,
    load_icon_preview image decode_image photo_image st = (Ok p, st)
    /\ (p = NoIconLoaded <-> path = EmptyString)
    /\ (p = FileNotFound <-> path <> EmptyString /\ files st !! path = None)
    /\ (forall img,
          p = Shown img <->
          path <> EmptyString
          /\ exists bytes, files st !! path = Some bytes
                           /\ decode_image bytes = Some img
                           /\ photo_image img = true).
Proof.
  intros path. unfold load_icon_preview.
  rewrite bind_run, get_self_run. cbv beta iota. fold path.
  destruct (String.eqb_spec path "") as [Hempty|Hne].
  { exists NoIconLoaded. split_and!; [done|done| |].
    - split; [done | by intros []].
    - intros img. split; [done | by intros []]. }
  rewrite bind_run, isfile_run. cbv beta iota.
  destruct (files st !! path) as [bytes|] eqn:Hfile.
  2:{ rewrite bool_decide_eq_false_2 by (by intros []). cbn [negb].
      exists FileNotFound. split_and!; [done| | |].
      - split; [done | by intros].
      - split; [done | by intros].
      - intros img. split; [done | by intros (_ & ? & ? & _)]. }
  rewrite bool_decide_eq_true_2 by (by eexists). cbn [negb].
  unfold try_except. rewrite bind_run, image_open_run. unfold opened. rewrite Hfile.
  destruct (decode_image bytes) as [img|] eqn:Hdec.
  2:{ exists InvalidImage. split_and!; [done| | |].
      - split; [done | by intros].
      - split; [done | by intros [_ ?]].
      - intros img. split; [done|]. intros (_ & b & ? & ? & _). by simplify_eq. }
  cbv beta iota. destruct (photo_image img) eqn:Hphoto.
  - exists (Shown img). split_and!; [done| | |].
    + split; [done | by intros].
    + split; [done | by intros [_ ?]].
    + intros img'. split.
      * intros [= <-]. split; [done|]. by exists bytes.
      * intros (_ & b & ? & ? & _). by simplify_eq.
  - exists InvalidImage. split_and!; [done| | |].
    + split; [done | by intros].
    + split; [done | by intros [_ ?]].
    + intros img'. split; [done|]. intros (_ & b & ? & ? & ?). simplify_eq.
      congruence.
Qed.

(** X18. After a [browse_icon] that wrote its bitmap, the preview finds
    the file it has just written, and shows it when the imaging library
    reads its own bitmap: it does not report a missing file. This holds
    when the record had an icon path, and when it had none and
    [os.path.join] puts the file name behind a cache-folder prefix that
    does not begin with white space. *)
Theorem preview_after_browse_icon_finds_the_file
    (is_sep : ascii -> bool) (path_join : string -> string -> string)
    (image : Type) (decode_image : string -> option image)
    (encode_bmp : image -> option string) (write_ok : string -> bool)
    (save_debris : image -> string -> gmap string string -> gmap string string)
    (photo_image : image -> bool)
    (st : state) (file_path : string)
    (a : addr) (d : list (string * pyval)) (poster name : string)
    (img : image) (bytes : string) :
  selected_record st = Some (a, d) ->
  str_field "posterPath" d = Some poster ->
  str_field "name" d = Some name ->
  file_path <> EmptyString ->
  opened decode_image st file_path = Some img ->
  let cache := icon_cache_folder (self st) in
  let t := target_path is_sep path_join cache poster name in
  encode_bmp img = Some bytes ->
  write_ok t = true ->
  PyStr.strip poster <> EmptyString
  \/ (exists pre,
        path_join cache (sanitize name +:+ ".bmp")
        = pre +:+ sanitize name +:+ ".bmp"
        /\ starts_clean (PyStr.chars pre)) ->
  let st1 := snd (browse_icon is_sep path_join image decode_image encode_bmp
                    write_ok save_debris file_path st) in
  load_icon_preview image decode_image photo_image st1
  = (Ok match decode_image bytes with
        | Some shown => if photo_image shown then Shown shown else InvalidImage
        | None => InvalidImage
        end, st1).
Proof.
  intros Hrec Hposter Hname Hfile Hopen cache t Henc Hw Hpath st1.
  assert (st1 = icon_set a d t bytes st) as Hst1.
  { subst st1. by erewrite browse_icon_links. }
  assert (PyStr.strip t = t) as Hfix.
  { subst t. unfold target_path, final_path_of.
    destruct (PyStr.strip poster) as [|c p] eqn:Hp.
    - destruct Hpath as [Hne|(pre & Hjoin & Hpre)]; [done|].
      rewrite safe_name_is_sanitize. fold cache. rewrite Hjoin.
      assert (pre +:+ sanitize name +:+ ".bmp"
              = (pre +:+ sanitize name) +:+ ".bmp") as ->.
      { clear. induction pre as [|c pre IH]; [done|].
        change (String c pre +:+ sanitize name +:+ ".bmp")
          with (String c (pre +:+ sanitize name +:+ ".bmp")).
        rewrite IH. reflexivity. }
      apply strip_bmp. rewrite chars_app. apply starts_clean_app; [done|].
      apply sanitize_starts_clean.
    - rewrite <- Hp. apply strip_bmp.
      eapply starts_clean_prefix; [apply splitext_base_prefix|].
      apply starts_clean_strip. }
  assert (t <> EmptyString) as Hne.
  { subst t. unfold target_path, final_path_of.
    destruct (PyStr.strip poster) as [|c p] eqn:Hp.
    - destruct Hpath as [?|(pre & Hjoin & _)]; [done|].
      rewrite safe_name_is_sanitize. fold cache. rewrite Hjoin.
      destruct pre; [|done]. cbn. intros H. by apply (append_bmp_nonempty (sanitize name)).
    - apply append_bmp_nonempty. }
  rewrite Hst1. unfold load_icon_preview.
  rewrite bind_run, get_self_run. cbv beta iota.
  cbn [icon_set self icon_path_var set_icon_path_var]. rewrite Hfix.
  apply String.eqb_neq in Hne as ->.
  rewrite bind_run, isfile_run. cbn [icon_set files].
  rewrite lookup_insert_eq. rewrite bool_decide_eq_true_2 by (by eexists).
  cbn [negb]. unfold try_except. rewrite bind_run, image_open_run.
  unfold opened. cbn [icon_set files]. rewrite lookup_insert_eq.
  destruct (decode_image bytes) as [shown|]; [|done]. cbv beta iota.
  by destruct (photo_image shown).
Qed.

Lemma preview_after_browse_icon_finds_the_file_witness :
  let st1 := snd (browse_icon Demo.is_sep Demo.path_join Demo.image
                    Demo.decode_image Demo.encode_bmp Demo.write_ok
                    Demo.save_debris "C:\pics\app.png"
                    (Demo.browsing "My: App?" "")) in
  load_icon_preview Demo.image Demo.decode_image Demo.photo_image st1
  = (Ok (Shown "BMPNGDATA"), st1).
Proof.
  apply (preview_after_browse_icon_finds_the_file
           Demo.is_sep Demo.path_join Demo.image Demo.decode_image
           Demo.encode_bmp Demo.write_ok Demo.save_debris Demo.photo_image
           (Demo.browsing "My: App?" "") "C:\pics\app.png" 0%nat
           [("name", VStr "My: App?"); ("applicationPath", VStr "");
            ("posterPath", VStr "")]
           "" "My: App?" "PNGDATA" "BMPNGDATA"); try by vm_compute.
  right. exists "C:\db\icon_cache\". split; by vm_compute.
Defined.

(** ** The configuration *)

Section ConfigFacts.
Variable loads : string -> option json.
Variable dumps : json -> string.
Variable path_join : string -> string -> string.
Variable frozen : bool.
Variable home : string.
Variable script_dir : string.
Variable makedirs_ok : string -> bool.
Variable read_ok : string -> bool.
Variable write_fault : string -> option (option string).
Variable torn_text : heap -> pyval -> string.
Variable isfile_int : Z -> outcome bool.

Local Abbreviation config_dir := (config_dir path_join frozen home script_dir).
Local Abbreviation config_path := (path_join config_dir CONFIG_FILENAME).
Local Abbreviation get_config_path :=
  (get_config_path path_join frozen home script_dir makedirs_ok).
Local Abbreviation py_isfile := (py_isfile isfile_int).
Local Abbreviation read_json := (read_json loads read_ok).
Local Abbreviation write_json := (write_json dumps write_fault torn_text).
Local Abbreviation stored_config := (stored_config loads read_ok isfile_int).
Local Abbreviation load_or_create_config :=
  (load_or_create_config loads dumps path_join frozen home script_dir
     makedirs_ok read_ok write_fault torn_text isfile_int).
Local Abbreviation save_config :=
  (save_config dumps path_join frozen home script_dir makedirs_ok
     write_fault torn_text).

Lemma get_config_path_run st :
  get_config_path st
  = (if makedirs_ok config_dir then Ok config_path else Raise OSError, st).
Proof. unfold get_config_path. by destruct (makedirs_ok _). Qed.

Lemma py_isfile_state v st : snd (py_isfile v st) = st.
Proof. by destruct v. Qed.

Lemma py_isfile_files v st st' :
  files st' = files st -> fst (py_isfile v st') = fst (py_isfile v st).
Proof. intros Hf. destruct v; try done. cbn. by rewrite Hf. Qed.

Lemma read_json_untouched path : keeps untouched (read_json path).
Proof.
  intros st. unfold read_json.
  destruct (files st !! path) as [text|]; [|done].
  destruct (read_ok path); [|done].
  destruct (loads text) as [j|]; [|done].
  pose proof (alloc_json_prefix j (mem st)) as Hp.
  destruct (alloc_json j (mem st)) as [v h]. by apply untouched_mem.
Qed.

Lemma stored_config_untouched path : keeps untouched (stored_config path).
Proof.
  unfold stored_config.
  apply (keeps_bind untouched); [apply read_json_untouched|]. intros cfg.
  apply (keeps_bind untouched).
  { intros st. rewrite py_contains_read. done. }
  intros [|]; [|apply (keeps_ret untouched)].
  apply (keeps_bind untouched); [apply (reading_py_getitem untouched)|]. intros p.
  apply (keeps_bind untouched).
  { intros st. by rewrite py_isfile_state. }
  intros [|]; apply (keeps_ret untouched).
Qed.

(** A configuration that is accepted is a dictionary whose [db_path]
    passed [os.path.isfile]. *)
Lemma stored_config_some path st cfg st' :
  stored_config path st = (Ok (Some cfg), st') ->
  exists c d v,
    cfg = VRef c /\ mem st' !! c = Some (ODict d)
    /\ dict_lookup "db_path" d = Some v
    /\ py_isfile v st' = (Ok true, st').
Proof.
  unfold stored_config.
  intros (cfg0 & s1 & Hread & Hrun)%bind_ok_inv.
  rewrite bind_run, py_contains_read in Hrun.
  destruct cfg0 as [| | |hay|c]; try done.
  { (* a string: its items are characters *)
    destruct (PyStr.is_substring "db_path" hay); [|by inv_run Hrun].
    by rewrite bind_run, py_getitem_read in Hrun. }
  destruct (mem s1 !! c) as [[d|l]|] eqn:Hc; try done.
  - destruct (dict_lookup "db_path" d) as [v|] eqn:Hv.
    2:{ rewrite bool_decide_eq_false_2 in Hrun by (by intros []). by inv_run Hrun. }
    rewrite bool_decide_eq_true_2 in Hrun by (by eexists). cbv beta iota in Hrun.
    rewrite bind_run, py_getitem_read, Hc, Hv in Hrun. cbv beta iota in Hrun.
    rewrite bind_run in Hrun.
    destruct (py_isfile v s1) as [[ok|e] s2] eqn:Hfile; [|done].
    pose proof (py_isfile_state v s1) as Hs. rewrite Hfile in Hs. cbn in Hs.
    subst s2. destruct ok; inv_run Hrun. by exists c, d, v.
  - destruct (index_of (mem s1) (VStr "db_path") l) as [r|]; [|done].
    destruct (bool_decide (is_Some r)); [|by inv_run Hrun].
    by rewrite bind_run, py_getitem_read, Hc in Hrun.
Qed.

Lemma write_json_files path cfg st :
  let st' := snd (write_json path cfg st) in
  mem st' = mem st /\ db st' = db st /\ self st' = self st
  /\ db_write_fails st' = db_write_fails st
  /\ (forall p, p <> path -> files st' !! p = files st !! p)
  /\ (forall p, is_Some (files st !! p) -> is_Some (files st' !! p)).
Proof.
  cbv zeta. unfold write_json.
  destruct (write_fault path) as [[rest|]|]; [| |destruct (py_dumps _ _)];
    cbn [snd mem db self files db_write_fails with_files]; split_and!; try done.
  all: try (intros p Hp; by rewrite lookup_insert_ne).
  all: intros p Hp; destruct (decide (p = path)) as [->|Hne];
    [by rewrite lookup_insert_eq | by rewrite lookup_insert_ne].
Qed.

(** What [load_or_create_config] does once no configuration was
    accepted. *)
Lemma create_config_run db_path path st :
  (let* _ := ret tt in
   if String.eqb db_path "" then raise OSError
   else
     let* ok := isfile db_path in
     if negb ok then raise OSError
     else
       let* cfg := alloc (ODict [("db_path", VStr db_path)]) in
       let* _ := try_except (write_json path cfg) (fun _ => ret tt) in
       ret cfg)%py st
  = if String.eqb db_path "" || negb (bool_decide (is_Some (files st !! db_path)))
    then (Raise OSError, st)
    else (Ok (VRef (length (mem st))),
          snd (write_json path (VRef (length (mem st)))
                 (with_mem (mem st ++ [ODict [("db_path", VStr db_path)]]) st))).
Proof.
  rewrite bind_run. cbn [ret]. cbv beta iota.
  destruct (String.eqb db_path ""); [done|]. cbn [orb].
  rewrite bind_run, isfile_run. cbv beta iota.
  destruct (bool_decide _); [|done]. cbn [negb].
  rewrite bind_run, alloc_run. cbv beta iota.
  rewrite bind_run. unfold try_except.
  by destruct (write_json _ _ _) as [[[]|e] s].
Qed.

Lemma load_or_create_config_unfold db_path st :
  load_or_create_config db_path st
  = if makedirs_ok config_dir then
      match
        (if bool_decide (is_Some (files st !! config_path))
         then try_except (stored_config config_path) (fun _ => ret None) st
         else (Ok None, st))
      with
      | (Ok (Some cfg), s) => (Ok cfg, s)
      | (Ok None, s) =>
          if String.eqb db_path ""
             || negb (bool_decide (is_Some (files s !! db_path)))
          then (Raise OSError, s)
          else (Ok (VRef (length (mem s))),
                snd (write_json config_path (VRef (length (mem s)))
                       (with_mem (mem s ++ [ODict [("db_path", VStr db_path)]]) s)))
      | (Raise e, s) => (Raise e, s)
      end
    else (Raise OSError, st).
Proof.
  unfold load_or_create_config.
  rewrite bind_run, get_config_path_run.
  destruct (makedirs_ok config_dir); [|done]. cbv beta iota.
  rewrite bind_run, isfile_run. cbv beta iota. rewrite bind_run.
  destruct (bool_decide (is_Some (files st !! config_path))).
  - destruct (try_except _ _ st) as [[[cfg|]|e] s]; [done| |done].
    by rewrite <- create_config_run.
  - cbn [ret]. cbv beta iota. by rewrite <- create_config_run.
Qed.

Lemma try_stored_config path st :
  exists r s, try_except (stored_config path) (fun _ => ret None) st = (Ok r, s)
              /\ untouched st s
              /\ (forall cfg, r = Some cfg -> stored_config path st = (Ok (Some cfg), s)).
Proof.
  unfold try_except. pose proof (stored_config_untouched path st) as Hu.
  destruct (stored_config path st) as [[r|e] s]; cbn [snd] in Hu.
  - exists r, s. split_and!; [done..|]. by intros cfg ->.
  - exists None, s. by split_and!.
Qed.

(** X19. A configuration that [load_or_create_config] returns names a
    database file: it is a dictionary whose [db_path] passes
    [os.path.isfile] in the state the function leaves. The function
    creates objects and may write the configuration file; it changes no
    other file, no object and no row. *)
Theorem load_or_create_config_names_a_file
    (db_path : string) (st : state) (cfg : pyval) (st' : state) :
  load_or_create_config db_path st = (Ok cfg, st') ->
  exists c d v,
    cfg = VRef c /\ mem st' !! c = Some (ODict d)
    /\ dict_lookup "db_path" d = Some v
    /\ py_isfile v st' = (Ok true, st')
    /\ mem st `prefix_of` mem st' /\ db st' = db st /\ self st' = self st
    /\ (forall p, p <> config_path -> files st' !! p = files st !! p).
Proof.
  rewrite load_or_create_config_unfold.
  destruct (makedirs_ok config_dir); [|done].
  assert (exists r s,
            (if bool_decide (is_Some (files st !! config_path))
             then try_except (stored_config config_path) (fun _ => ret None) st
             else (Ok None, st)) = (Ok r, s)
            /\ untouched st s
            /\ (forall cfg, r = Some cfg ->
                  stored_config config_path st = (Ok (Some cfg), s)))
    as (r & s & -> & Hu & Hr).
  { destruct (bool_decide _); [apply try_stored_config|].
    exists None, st. by split_and!. }
  destruct Hu as (Hmem & Hdb & _ & Hfiles & Hself).
  destruct r as [cfg0|].
  - intros [= <- <-]. destruct (stored_config_some _ _ _ _ (Hr _ eq_refl))
      as (c & d & v & ? & ? & ? & ?).
    exists c, d, v. split_and!; try done. intros p _. by rewrite Hfiles.
  - destruct (String.eqb db_path ""); [done|]. cbn [orb].
    destruct (files s !! db_path) as [bytes|] eqn:Hfile.
    2:{ by rewrite bool_decide_eq_false_2 by (by intros []). }
    rewrite bool_decide_eq_true_2 by (by eexists). cbn [negb].
    intros [= <- <-].
    set (s1 := with_mem (mem s ++ [ODict [("db_path", VStr db_path)]]) s).
    destruct (write_json_files config_path (VRef (length (mem s))) s1)
      as (Hm & Hd & Hs & _ & Hf & Hkeep).
    exists (length (mem s)), [("db_path", VStr db_path)], (VStr db_path).
    split_and!; try done.
    + rewrite Hm. cbn [s1 mem with_mem]. by apply list_lookup_middle.
    + cbn [py_isfile]. rewrite isfile_run. do 2 f_equal.
      apply bool_decide_eq_true_2, Hkeep. cbn [s1 files with_mem]. by eexists.
    + rewrite Hm. cbn [s1 mem with_mem]. etrans; [exact Hmem|]. by apply prefix_app_r.
    + by rewrite Hd.
    + by rewrite Hs.
    + intros p Hp. rewrite (Hf p Hp). cbn [s1 files with_mem]. by rewrite Hfiles.
Qed.

(** X20. [load_or_create_config] fails only with an [OSError] (the
    [FileNotFoundError] it raises itself, or the error of
    [os.makedirs]), and only when the configuration folder cannot be
    made or the file dialog returned nothing or no file. A configuration
    file that cannot be read, that holds no JSON, no object, no
    [db_path], or the path of a file that is gone, is never an error: the
    user is asked, and a usable answer is returned as the new
    configuration, whether it could be written to the file or not. *)
Theorem load_or_create_config_fails_only_without_a_file
    (db_path : string) (st : state) :
  (forall e st', load_or_create_config db_path st = (Raise e, st') ->
     e = OSError
     /\ (makedirs_ok config_dir = false \/ db_path = EmptyString
         \/ files st !! db_path = None))
  /\ (makedirs_ok config_dir = true -> db_path <> EmptyString ->
      is_Some (files st !! db_path) ->
      exists cfg st', load_or_create_config db_path st = (Ok cfg, st')).
Proof.
  rewrite load_or_create_config_unfold.
  destruct (makedirs_ok config_dir) eqn:Hmk.
  2:{ split; [|done]. intros e st' [= <- <-]. split; [done | by left]. }
  assert (exists r s,
            (if bool_decide (is_Some (files st !! config_path))
             then try_except (stored_config config_path) (fun _ => ret None) st
             else (Ok None, st)) = (Ok r, s)
            /\ untouched st s) as (r & s & -> & Hu).
  { destruct (bool_decide _).
    - destruct (try_stored_config config_path st) as (r & s & ? & ? & _).
      by exists r, s.
    - exists None, st. by split. }
  destruct Hu as (_ & _ & _ & Hfiles & _). rewrite Hfiles.
  destruct r as [cfg|].
  { split; [done|]. intros _ _ _. by eexists _, _. }
  destruct (String.eqb_spec db_path "") as [->|Hne]; cbn [orb].
  { split; [|done]. intros e st' [= <- <-]. split; [done | right; by left]. }
  destruct (files st !! db_path) as [bytes|] eqn:Hfile.
  - rewrite bool_decide_eq_true_2 by (by eexists). cbn [negb].
    split; [done|]. intros _ _ _. by eexists _, _.
  - rewrite bool_decide_eq_false_2 by (by intros []). cbn [negb].
    split; [|by intros _ _ []]. intros e st' [= <- <-].
    split; [done | right; by right].
Qed.

(** A configuration file whose JSON object names a file under [db_path]
    is accepted as it is. *)
Lemma stored_config_run st text J nk p :
  files st !! config_path = Some text ->
  read_ok config_path = true ->
  loads text = Some J ->
  norm J = JObj nk ->
  dict_lookup "db_path" nk = Some (JStr p) ->
  is_Some (files st !! p) ->
  stored_config config_path st
  = (Ok (Some (fst (alloc_json J (mem st)))),
     with_mem (snd (alloc_json J (mem st))) st).
Proof.
  intros Htext Hread HJ Hnorm Hpath Hfile.
  pose proof (alloc_json_reads_as J (mem st)) as Hv.
  unfold stored_config. rewrite bind_run. unfold read_json at 1.
  rewrite Htext, Hread, HJ.
  destruct (alloc_json J (mem st)) as [v h]. cbn [fst snd] in *.
  rewrite Hnorm in Hv.
  destruct (reads_as_obj_inv _ _ _ Hv) as (c & d & -> & Hc & Hd).
  pose proof (entries_rel_lookup _ "db_path" _ _ Hd) as Hlook.
  rewrite Hpath in Hlook. inversion Hlook as [x jx Hx Hdx Hjx|]; subst.
  apply reads_as_str_inv in Hx as ->.
  rewrite bind_run, py_contains_read. cbn [mem with_mem]. rewrite Hc.
  symmetry in Hdx. rewrite Hdx.
  rewrite bool_decide_eq_true_2 by (by eexists). cbv beta iota.
  rewrite bind_run, py_getitem_read. cbn [mem with_mem]. rewrite Hc, Hdx.
  cbv beta iota. rewrite bind_run. cbn [py_isfile]. rewrite isfile_run.
  cbn [files with_mem]. by rewrite bool_decide_eq_true_2.
Qed.

Lemma load_or_create_config_stored db_path st text J nk p :
  makedirs_ok config_dir = true ->
  files st !! config_path = Some text ->
  read_ok config_path = true ->
  loads text = Some J ->
  norm J = JObj nk ->
  dict_lookup "db_path" nk = Some (JStr p) ->
  is_Some (files st !! p) ->
  load_or_create_config db_path st
  = (Ok (fst (alloc_json J (mem st))), with_mem (snd (alloc_json J (mem st))) st).
Proof.
  intros Hmk Htext Hread HJ Hnorm Hpath Hfile.
  rewrite load_or_create_config_unfold, Hmk.
  rewrite bool_decide_eq_true_2 by (by eexists).
  unfold try_except.
  by rewrite (stored_config_run st text J nk p).
Qed.

(** X21. A configuration file that holds a JSON object whose [db_path]
    is the path of a file is returned as it was read, with every key it
    has: the file dialog is not opened (its answer plays no part), and
    no file is written. *)
Theorem load_or_create_config_keeps_a_valid_config
    (db_path : string) (st : state) (text : string) (J : json)
    (nk : list (string * json)) (p : string) :
  makedirs_ok config_dir = true ->
  files st !! config_path = Some text ->
  read_ok config_path = true ->
  loads text = Some J ->
  norm J = JObj nk ->
  dict_lookup "db_path" nk = Some (JStr p) ->
  is_Some (files st !! p) ->
  load_or_create_config db_path st
  = (Ok (fst (alloc_json J (mem st))), with_mem (snd (alloc_json J (mem st))) st)
  /\ py_dumps (snd (alloc_json J (mem st))) (fst (alloc_json J (mem st)))
     = Some (norm J).
Proof.
  intros Hmk Htext Hread HJ Hnorm Hpath Hfile. split.
  - by eapply load_or_create_config_stored.
  - apply reads_as_dumps, alloc_json_reads_as.
Qed.

(** X22. The first start writes the configuration the next start reads.
    With no configuration file, a dialog answer that names a file, and a
    configuration file that can be written and read, the first call
    writes the JSON text of [{"db_path": answer}] to the configuration
    file; a second call, whatever its dialog would answer, writes nothing
    and returns a configuration with the same [db_path]. *)
Theorem load_or_create_config_second_start
    (db_path other : string) (st : state) :
  let J := JObj [("db_path", JStr db_path)] in
  makedirs_ok config_dir = true ->
  files st !! config_path = None ->
  db_path <> EmptyString ->
  is_Some (files st !! db_path) ->
  write_fault config_path = None ->
  read_ok config_path = true ->
  loads (dumps J) = Some J ->
  exists cfg1 st1 cfg2 st2,
    load_or_create_config db_path st = (Ok cfg1, st1)
    /\ files st1 = <[config_path := dumps J]> (files st)
    /\ load_or_create_config other st1 = (Ok cfg2, st2)
    /\ files st2 = files st1
    /\ py_getitem cfg2 "db_path" st2 = (Ok (VStr db_path), st2).
Proof.
  intros J Hmk Habsent Hne Hfile Hwrite Hread Hround.
  assert (py_dumps (mem st ++ [ODict [("db_path", VStr db_path)]])
            (VRef (length (mem st))) = Some J) as Hdump.
  { unfold py_dumps. cbn [py_to_json]. rewrite list_lookup_middle by done.
    rewrite length_app, Nat.add_comm. by cbn. }
  set (h1 := mem st ++ [ODict [("db_path", VStr db_path)]]) in *.
  set (st1 := with_files (<[config_path := dumps J]> (files st)) (with_mem h1 st)).
  assert (load_or_create_config db_path st = (Ok (VRef (length (mem st))), st1))
    as Hfirst.
  { rewrite load_or_create_config_unfold, Hmk.
    rewrite bool_decide_eq_false_2 by (rewrite Habsent; by intros []).
    apply String.eqb_neq in Hne as ->. cbn [orb].
    rewrite bool_decide_eq_true_2 by done. cbn [negb].
    do 2 f_equal. unfold write_json. rewrite Hwrite. cbn [mem with_mem].
    fold h1. by rewrite Hdump. }
  assert (db_path <> config_path) as Hother.
  { intros ->. rewrite Habsent in Hfile. by destruct Hfile. }
  assert (load_or_create_config other st1
          = (Ok (fst (alloc_json J (mem st1))),
             with_mem (snd (alloc_json J (mem st1))) st1)) as Hsecond.
  { apply (load_or_create_config_stored other st1 (dumps J) J
             [("db_path", JStr db_path)] db_path); try done.
    - cbn [st1 files with_files]. by rewrite lookup_insert_eq.
    - cbn [st1 files with_files with_mem]. by rewrite lookup_insert_ne. }
  eexists _, st1, _, _. split_and!; [exact Hfirst | done | exact Hsecond | done |].
  rewrite py_getitem_read. cbn [J alloc_json fst snd mem with_mem st1 with_files].
  rewrite list_lookup_middle by done. cbn. done.
Qed.

(** X23. [save_config] never lets a write error out: when the
    configuration folder can be made it returns, whether the file was
    written or not; it changes no object, no row and no file other than
    the configuration file, which holds the JSON text of the
    configuration when the write succeeds and is untouched when the file
    cannot be opened. When the folder cannot be made, the error of
    [os.makedirs] is raised and nothing changes. *)
Theorem save_config_swallows_write_errors (cfg : pyval) (st : state) :
  if makedirs_ok config_dir then
    exists st',
      save_config cfg st = (Ok tt, st')
      /\ mem st' = mem st /\ db st' = db st /\ self st' = self st
      /\ (forall p, p <> config_path -> files st' !! p = files st !! p)
      /\ (forall j, write_fault config_path = None ->
            py_dumps (mem st) cfg = Some j ->
            files st' !! config_path = Some (dumps j))
      /\ (write_fault config_path = Some None -> files st' = files st)
  else save_config cfg st = (Raise OSError, st).
Proof.
  unfold save_config. rewrite bind_run, get_config_path_run.
  destruct (makedirs_ok config_dir); [|done]. cbv beta iota.
  destruct (write_json_files config_path cfg st) as (Hm & Hd & Hs & _ & Hf & _).
  exists (snd (write_json config_path cfg st)). split_and!; try done.
  - unfold try_except. by destruct (write_json _ _ _) as [[[]|e] s].
  - intros j Hw Hj. unfold write_json. rewrite Hw, Hj. cbn [snd files with_files].
    by rewrite lookup_insert_eq.
  - intros Hw. unfold write_json. by rewrite Hw.
Qed.

End ConfigFacts.

Lemma load_or_create_config_names_a_file_witness :
  let st' := snd (Demo.load_or_create_config "C:\db\settings.db" Demo.stale_config) in
  exists c d v,
    VRef 1%nat = VRef c /\ mem st' !! c = Some (ODict d)
    /\ dict_lookup "db_path" d = Some v
    /\ py_isfile (fun _ => Ok false) v st' = (Ok true, st')
    /\ mem Demo.stale_config `prefix_of` mem st'
    /\ db st' = db Demo.stale_config /\ self st' = self Demo.stale_config
    /\ (forall p, p <> Demo.path_join Demo.script_dir CONFIG_FILENAME ->
          files st' !! p = files Demo.stale_config !! p).
Proof.
  apply (load_or_create_config_names_a_file
           JsonText.loads JsonText.dumps Demo.path_join false "" Demo.script_dir
           (fun _ => true) (fun _ => true) (fun _ => None)
           (fun _ _ => EmptyString) (fun _ => Ok false)
           "C:\db\settings.db" Demo.stale_config).
  by vm_compute.
Defined.

Lemma load_or_create_config_fails_only_without_a_file_witness :
  Demo.load_or_create_config "" Demo.stale_config
  = (Raise OSError, with_mem [ODict [("db_path", VStr "C:\old\settings.db")]]
                      Demo.stale_config)
  /\ exists cfg st',
       Demo.load_or_create_config "C:\db\settings.db" Demo.stale_config
       = (Ok cfg, st').
Proof.
  split; [by vm_compute|].
  apply (load_or_create_config_fails_only_without_a_file
           JsonText.loads JsonText.dumps Demo.path_join false "" Demo.script_dir
           (fun _ => true) (fun _ => true) (fun _ => None)
           (fun _ _ => EmptyString) (fun _ => Ok false)
           "C:\db\settings.db" Demo.stale_config);
    [reflexivity | discriminate | vm_compute; by eexists].
Defined.

Lemma load_or_create_config_keeps_a_valid_config_witness :
  Demo.load_or_create_config "" Demo.configured
  = (Ok (VRef 0%nat),
     with_mem [ODict [("db_path", VStr "C:\db\settings.db"); ("theme", VStr "dark")]]
       Demo.configured)
  /\ py_dumps [ODict [("db_path", VStr "C:\db\settings.db"); ("theme", VStr "dark")]]
       (VRef 0%nat) = Some Demo.settings.
Proof.
  apply (load_or_create_config_keeps_a_valid_config
           JsonText.loads JsonText.dumps Demo.path_join false "" Demo.script_dir
           (fun _ => true) (fun _ => true) (fun _ => None)
           (fun _ _ => EmptyString) (fun _ => Ok false)
           "" Demo.configured (JsonText.dumps Demo.settings) Demo.settings
           [("db_path", JStr "C:\db\settings.db"); ("theme", JStr "dark")]
           "C:\db\settings.db");
    [reflexivity | by vm_compute.. | vm_compute; by eexists].
Defined.

Lemma load_or_create_config_second_start_witness :
  exists cfg1 st1 cfg2 st2,
    Demo.load_or_create_config "C:\db\settings.db" Demo.first_start = (Ok cfg1, st1)
    /\ files st1
       = <[Demo.config_path :=
             JsonText.dumps (JObj [("db_path", JStr "C:\db\settings.db")])]>
           (files Demo.first_start)
    /\ Demo.load_or_create_config "" st1 = (Ok cfg2, st2)
    /\ files st2 = files st1
    /\ py_getitem cfg2 "db_path" st2 = (Ok (VStr "C:\db\settings.db"), st2).
Proof.
  apply (load_or_create_config_second_start
           JsonText.loads JsonText.dumps Demo.path_join false "" Demo.script_dir
           (fun _ => true) (fun _ => true) (fun _ => None)
           (fun _ _ => EmptyString) (fun _ => Ok false)
           "C:\db\settings.db" "" Demo.first_start);
    [reflexivity | by vm_compute | discriminate | vm_compute; by eexists
    | reflexivity | reflexivity | by vm_compute].
Defined.
